(** * DrawBot: the graphics-state stack and the instruction recorder

    A shallow embedding of the two cooperating components of
    [drawBot/context/baseContext.py] and [drawBot/drawBotDrawingTools.py]:

    - [BaseContext] with its [GraphicsState] snapshots ([save], [restore],
      colour, gradient, stroke, path and text-attribute setters), and
    - [DrawBotDrawingTool], which records every public call in the
      page-partitioned [_instructionsStack] and replays it on a context.

    Python objects that the code only assigns to a field are values here.
    The one object that the embedded methods mutate in place while it is
    shared with somebody else is the [BezierPath]: [drawPath(path)] stores the
    caller's object in [_state.path] and [lineTo] and friends then extend that
    very object.  Paths therefore live in a store and are named by location.

    AppKit, Quartz and fontTools are outside the repository.  Their
    constructors are kept as free constructors ([NSColor], the element list
    of an [NSBezierPath]); text layout and font lookup are not embedded. *)

From Stdlib Require Import ZArith QArith List Bool Lia.
From stdpp Require Import base list strings.

Set Warnings "-register-all".
Open Scope string_scope.
Open Scope list_scope.

(** ** Python values *)

(** A [BezierPath] object is referred to by its location in the store. *)
Definition loc := nat.

Inductive pyval :=
| PNone
| PBool (b : bool)
| PInt (n : Z)
| PFloat (q : Q)
| PStr (s : string)
| PTuple (items : list pyval)
| PList (items : list pyval)
| PPath (l : loc).

Inductive exn :=
| DrawBotError (msg : string)
| TypeError (msg : string)
| ValueError (msg : string)
| AttributeError (msg : string)
| IndexError (msg : string).

(** ** Calls that may raise

    A Python call returns or raises, and in both cases it may already have
    written to the objects it was given.  [M S A] is a computation over a
    state [S]: the state reached is reported also when the outcome is
    [Raised]. *)

Inductive outcome (A : Type) :=
| Returned (a : A)
| Raised (e : exn).
Arguments Returned {A} a.
Arguments Raised {A} e.

Definition M (S A : Type) : Type := S -> outcome A * S.

Definition ret {S A} (a : A) : M S A := fun s => (Returned a, s).
Definition raise {S A} (e : exn) : M S A := fun s => (Raised e, s).
Definition bind {S A B} (m : M S A) (k : A -> M S B) : M S B :=
  fun s => match m s with
           | (Returned a, s') => k a s'
           | (Raised e, s') => (Raised e, s')
           end.
Definition get {S} : M S S := fun s => (Returned s, s).
Definition put {S} (s : S) : M S unit := fun _ => (Returned tt, s).
Definition modify {S} (f : S -> S) : M S unit := fun s => (Returned tt, f s).
Definition gets {S A} (f : S -> A) : M S A := fun s => (Returned (f s), s).

(** A call that cannot raise. *)
Definition total {S A} (f : S -> A * S) : M S A :=
  fun s => let (a, s') := f s in (Returned a, s').

(** A computation that cannot write: the result of a pure check. *)
Definition lift {S A} (o : outcome A) : M S A := fun s => (o, s).

(** Run a computation on a component of the state, writing it back. *)
Definition zoom {S T A} (proj : S -> T) (upd : T -> S -> S) (m : M T A) : M S A :=
  fun s => let (o, t) := m (proj s) in (o, upd t s).

Declare Scope py_scope.
Delimit Scope py_scope with py.
Notation "x <- c ;; k" := (bind c (fun x => k))
  (at level 100, c at next level, k at level 200, right associativity) : py_scope.
Notation "c ;; k" := (bind c (fun _ => k))
  (at level 100, k at level 200, right associativity) : py_scope.
Open Scope py_scope.

(** [for x in l: f(x)], stopping at the first call that raises. *)
Fixpoint forM_ {S A} (l : list A) (f : A -> M S unit) : M S unit :=
  match l with
  | [] => ret tt
  | x :: r => f x ;; forM_ r f
  end.

Definition outcome_bind {A B} (o : outcome A) (k : A -> outcome B) : outcome B :=
  match o with
  | Returned a => k a
  | Raised e => Raised e
  end.

Fixpoint mapM_outcome {A B} (f : A -> outcome B) (l : list A) : outcome (list B) :=
  match l with
  | [] => Returned []
  | x :: r => outcome_bind (f x) (fun y =>
              outcome_bind (mapM_outcome f r) (fun ys => Returned (y :: ys)))
  end.

Module Py.

Definition is_None (v : pyval) : bool :=
  match v with PNone => true | _ => false end.

(** [bool(v)].  A path object is a [BezierPath], whose truth value is its
    [__len__]; no embedded method tests a path for truth. *)
Definition truthy (v : pyval) : bool :=
  match v with
  | PNone => false
  | PBool b => b
  | PInt n => negb (n =? 0)%Z
  | PFloat q => negb (Qeq_bool q 0)
  | PStr s => negb (String.eqb s "")
  | PTuple l | PList l => negb (Nat.eqb (length l) 0)
  | PPath _ => true
  end.

(** [len(v)]. *)
Definition len (v : pyval) : outcome nat :=
  match v with
  | PStr s => Returned (String.length s)
  | PTuple l | PList l => Returned (length l)
  | _ => Raised (TypeError "object has no len()")
  end.

Fixpoint chars (s : string) : list pyval :=
  match s with
  | EmptyString => []
  | String c r => PStr (String c EmptyString) :: chars r
  end.

(** [list(v)], also the items a starred argument spreads. *)
Definition items (v : pyval) : outcome (list pyval) :=
  match v with
  | PStr s => Returned (chars s)
  | PTuple l | PList l => Returned l
  | _ => Raised (TypeError "object is not iterable")
  end.

(** [v[i]] for a non-negative index. *)
Definition getitem (v : pyval) (i : nat) : outcome pyval :=
  match v with
  | PTuple l | PList l =>
      match l !! i with
      | Some x => Returned x
      | None => Raised (IndexError "index out of range")
      end
  | PStr s =>
      match chars s !! i with
      | Some x => Returned x
      | None => Raised (IndexError "string index out of range")
      end
  | _ => Raised (TypeError "object is not subscriptable")
  end.

(** [isinstance(v, (list, tuple))]. *)
Definition is_sequence (v : pyval) : bool :=
  match v with PTuple _ | PList _ => true | _ => false end.

(** Binding of positional arguments to a signature: [defaults] has one
    entry per parameter, [None] for a required one.  Too many arguments or
    a missing required one is a [TypeError]. *)
Fixpoint bind_args (defaults : list (option pyval)) (args : list pyval)
  : outcome (list pyval) :=
  match defaults, args with
  | [], [] => Returned []
  | [], _ :: _ => Raised (TypeError "too many positional arguments")
  | Some d :: ds, [] =>
      outcome_bind (bind_args ds []) (fun r => Returned (d :: r))
  | None :: _, [] => Raised (TypeError "missing a required positional argument")
  | _ :: ds, a :: r =>
      outcome_bind (bind_args ds r) (fun r' => Returned (a :: r'))
  end.

(** [x, y = v]. *)
Definition unpack2 (v : pyval) : outcome (pyval * pyval) :=
  outcome_bind (items v) (fun l =>
  match l with
  | [x; y] => Returned (x, y)
  | _ => Raised (ValueError "expected 2 values to unpack")
  end).

(** The number a value stands for in a comparison; [True] is [1]. *)
Definition number (v : pyval) : option Q :=
  match v with
  | PBool b => Some (if b then 1%Q else 0%Q)
  | PInt n => Some (inject_Z n)
  | PFloat q => Some q
  | _ => None
  end.

(** [a == b]: numbers by value, strings by content, tuples with tuples and
    lists with lists item by item, path objects by identity. *)
Fixpoint eqb (a b : pyval) : bool :=
  match a, b with
  | PNone, PNone => true
  | PStr s, PStr s' => String.eqb s s'
  | PTuple l, PTuple l' | PList l, PList l' =>
      (fix all (l l' : list pyval) : bool :=
         match l, l' with
         | [], [] => true
         | x :: r, y :: r' => eqb x y && all r r'
         | _, _ => false
         end) l l'
  | PPath l, PPath l' => Nat.eqb l l'
  | _, _ =>
      match number a, number b with
      | Some x, Some y => Qeq_bool x y
      | _, _ => false
      end
  end.

(** [isinstance(v, str)] and [isinstance(v, float)]. *)
Definition is_str (v : pyval) : bool :=
  match v with PStr _ => true | _ => false end.
Definition is_float (v : pyval) : bool :=
  match v with PFloat _ => true | _ => false end.

(** The keyword arguments of a call, and their lookup and removal. *)
Definition kwargs : Type := list (string * pyval).

Fixpoint kw_get (name : string) (kw : kwargs) : option pyval :=
  match kw with
  | [] => None
  | (n, v) :: r => if String.eqb n name then Some v else kw_get name r
  end.

Definition kw_del (name : string) (kw : kwargs) : kwargs :=
  filter (fun nv => negb (String.eqb (fst nv) name)) kw.

(** Binding of a call with positional and keyword arguments to parameters
    given by name and default ([None] for a required parameter).  An argument
    in excess, a keyword that names no parameter or one already given by
    position, and a required parameter left out are each a [TypeError]. *)
Fixpoint bind_params (params : list (string * option pyval))
    (args : list pyval) (kw : kwargs) : outcome (list pyval) :=
  match params, args with
  | [], [] =>
      match kw with
      | [] => Returned []
      | _ :: _ => Raised (TypeError "got an unexpected keyword argument")
      end
  | [], _ :: _ => Raised (TypeError "too many positional arguments")
  | (name, _) :: ps, a :: r =>
      match kw_get name kw with
      | Some _ => Raised (TypeError "got multiple values for argument")
      | None => outcome_bind (bind_params ps r kw) (fun vs => Returned (a :: vs))
      end
  | (name, d) :: ps, [] =>
      match kw_get name kw, d with
      | Some v, _ =>
          outcome_bind (bind_params ps [] (kw_del name kw)) (fun vs => Returned (v :: vs))
      | None, Some v =>
          outcome_bind (bind_params ps [] kw) (fun vs => Returned (v :: vs))
      | None, None => Raised (TypeError "missing a required argument")
      end
  end.

(** A key of a dict must be hashable: a list is not, and neither is a tuple
    that holds one.  [key in d] raises a [TypeError] otherwise. *)
Fixpoint hashable (v : pyval) : bool :=
  match v with
  | PList _ => false
  | PTuple l =>
      (fix all (l : list pyval) : bool :=
         match l with
         | [] => true
         | x :: r => hashable x && all r
         end) l
  | _ => true
  end.

End Py.

(** ** AppKit and Quartz values

  The framework objects the code creates and stores.  A colour is the
  constructor call that made it; a colour space and a line style are
  enumerated constants. *)

Inductive NSColorSpace :=
| genericRGBColorSpace
| adobeRGB1998ColorSpace
| sRGBColorSpace
| genericGrayColorSpace
| genericGamma22GrayColorSpace
| displayP3ColorSpace
| genericCMYKColorSpace.

Inductive NSColor :=
| colorWithCalibratedRed_green_blue_alpha_ (r g b a : pyval)
| colorWithDeviceCyan_magenta_yellow_black_alpha_ (c m y k a : pyval)
| colorUsingColorSpace_ (c : NSColor) (space : NSColorSpace).

Inductive CGLineJoin := kCGLineJoinMiter | kCGLineJoinRound | kCGLineJoinBevel.
Inductive CGLineCap := kCGLineCapButt | kCGLineCapSquare | kCGLineCapRound.

(** [_LINEJOINSTYLESMAP] and [_LINECAPSTYLESMAP]: the lookup of a key. *)
Definition _LINEJOINSTYLESMAP (key : pyval) : option CGLineJoin :=
match key with
| PStr "miter" => Some kCGLineJoinMiter
| PStr "round" => Some kCGLineJoinRound
| PStr "bevel" => Some kCGLineJoinBevel
| _ => None
end.

Definition _LINECAPSTYLESMAP (key : pyval) : option CGLineCap :=
match key with
| PStr "butt" => Some kCGLineCapButt
| PStr "square" => Some kCGLineCapSquare
| PStr "round" => Some kCGLineCapRound
| _ => None
end.

(** ** Color and CMYKColor *)

Module Color.

Record t := { _color : option NSColor }.

(** [Color.__init__(r=None, g=None, b=None, a=1)], with the class attribute
    [Color.colorSpace] read at construction time.  The branch for an [r]
    that already is an [NSColor] has no counterpart in [pyval]. *)
Definition __init__ (colorSpace : NSColorSpace) (r g b a : pyval) : t :=
  match r with
  | PNone => {| _color := None |}
  | _ =>
      let c :=
        if Py.is_None g && Py.is_None b
        then colorWithCalibratedRed_green_blue_alpha_ r r r a
        else if Py.is_None b
        then colorWithCalibratedRed_green_blue_alpha_ r r r g
        else colorWithCalibratedRed_green_blue_alpha_ r g b a in
      {| _color := Some (colorUsingColorSpace_ c colorSpace) |}
  end.

(** The constructor applied to the items of a sequence. *)
Definition call (colorSpace : NSColorSpace) (args : list pyval) : outcome t :=
  match Py.bind_args [Some PNone; Some PNone; Some PNone; Some (PInt 1)] args with
  | Returned [r; g; b; a] => Returned (__init__ colorSpace r g b a)
  | Returned _ => Raised (TypeError "Color()")
  | Raised e => Raised e
  end.

(** [copy]: a fresh object holding a copy of the [NSColor]. *)
Definition copy (c : t) : outcome t :=
  match _color c with
  | Some ns => Returned {| _color := Some ns |}
  | None => Raised (AttributeError "'NoneType' object has no attribute 'copy'")
  end.

(** [getColor]: [isinstance(color, cls.__class__)] asks whether [color] is
    a class, which no value is, so a tuple or list is spread over the
    constructor and anything else is rejected. *)
Definition getColor (colorSpace : NSColorSpace) (color : pyval) : outcome t :=
  match color with
  | PTuple l | PList l => call colorSpace l
  | _ => Raised (DrawBotError "Not a valid color: %s")
  end.

Definition getColorsFromList (colorSpace : NSColorSpace) (inputColors : pyval)
  : outcome (list t) :=
  outcome_bind (Py.items inputColors) (mapM_outcome (getColor colorSpace)).

End Color.

Module CMYKColor.

(** A [CMYKColor] made without arguments has neither attribute; [_color]
    and [_cmyka] are [None] then. *)
Record t := {
  _color : option NSColor;
  _cmyka : option (pyval * pyval * pyval * pyval * pyval)
}.

(** [CMYKColor.__init__(c=None, m=None, y=None, k=None, a=1)]; the class
    attribute [CMYKColor.colorSpace] is never reassigned. *)
Definition __init__ (c m y k a : pyval) : t :=
  match c with
  | PNone => {| _color := None; _cmyka := None |}
  | _ =>
      {| _color := Some (colorUsingColorSpace_
                           (colorWithDeviceCyan_magenta_yellow_black_alpha_ c m y k a)
                           genericCMYKColorSpace);
         _cmyka := Some (c, m, y, k, a) |}
  end.

(** The constructor applied to the items of a sequence. *)
Definition call (args : list pyval) : outcome t :=
  match Py.bind_args [Some PNone; Some PNone; Some PNone; Some PNone; Some (PInt 1)] args with
  | Returned [c; m; y; k; a] => Returned (__init__ c m y k a)
  | Returned _ => Raised (TypeError "CMYKColor()")
  | Raised e => Raised e
  end.

(** [copy] is inherited from [Color]: [new = self.__class__()] runs
    [CMYKColor.__init__] without arguments, which returns at once, and the
    only attribute then assigned is [_color]. *)
Definition copy (c : t) : outcome t :=
  match _color c with
  | Some ns => Returned {| _color := Some ns; _cmyka := None |}
  | None => Raised (AttributeError "'CMYKColor' object has no attribute '_color'")
  end.

End CMYKColor.

(** ** Shadow and Gradient *)

Module Shadow.

Record t := {
  offset : pyval;
  blur : pyval;
  color : Color.t;
  cmykColor : option CMYKColor.t
}.

(** [Shadow.__init__(offset, blur, color)] for an [offset] that is not
    [None]; the contexts never construct the empty form. *)
Definition __init__ (colorSpace : NSColorSpace) (offset blur color : pyval)
  : outcome t :=
  outcome_bind (Color.getColor colorSpace color) (fun c =>
  Returned {| offset := offset; blur := blur; color := c; cmykColor := None |}).

Definition copy (s : t) : outcome t :=
  outcome_bind (Color.copy (color s)) (fun c =>
  match cmykColor s with
  | Some k =>
      outcome_bind (CMYKColor.copy k) (fun k' =>
      Returned {| offset := offset s; blur := blur s; color := c;
                  cmykColor := Some k' |})
  | None =>
      Returned {| offset := offset s; blur := blur s; color := c;
                  cmykColor := None |}
  end).

End Shadow.

Module Gradient.

(** [positions] is a sequence of which the code takes the length and the
    items only; it is kept as the list of its items. *)
Record t := {
  gradientType : string;
  colors : list Color.t;
  cmykColors : option (list CMYKColor.t);
  positions : list pyval;
  start : pyval;
  end_ : pyval;
  startRadius : pyval;
  endRadius : pyval
}.

(** [[i / float(len(colors) - 1) for i in range(len(colors))]], the
    quotients taken in the rationals. *)
Definition default_positions (n : nat) : list pyval :=
  map (fun i => PFloat (Qmake (Z.of_nat i) (Pos.of_nat (n - 1)))) (seq 0 n).

(** [Gradient.__init__] for a [gradientType] that is not [None]. *)
Definition __init__ (colorSpace : NSColorSpace) (gradientType : string)
    (start end_ colors positions startRadius endRadius : pyval) : outcome t :=
  if negb (String.eqb gradientType "linear" || String.eqb gradientType "radial")
  then Raised (DrawBotError "Gradient type must be either 'linear' or 'radial'")
  else if negb (Py.truthy colors)
  then Raised (DrawBotError "Gradient needs at least 2 colors")
  else
    outcome_bind (Py.len colors) (fun n =>
    if (n <? 2)%nat
    then Raised (DrawBotError "Gradient needs at least 2 colors")
    else
      outcome_bind
        (match positions with
         | PNone => Returned (default_positions n)
         | _ => outcome_bind (Py.len positions) (fun _ => Py.items positions)
         end) (fun ps =>
      if negb (Nat.eqb n (length ps))
      then Raised (DrawBotError "Gradient needs a correct position for each color")
      else
        outcome_bind (Color.getColorsFromList colorSpace colors) (fun cs =>
        Returned {| gradientType := gradientType; colors := cs;
                    cmykColors := None; positions := ps;
                    start := start; end_ := end_;
                    startRadius := startRadius; endRadius := endRadius |}))).

(** [if self.cmykColors:] is false for [None] and for the empty list. *)
Definition copy (g : t) : outcome t :=
  outcome_bind (mapM_outcome Color.copy (colors g)) (fun cs =>
  outcome_bind
    (match cmykColors g with
     | Some (k :: ks) =>
         outcome_bind (mapM_outcome CMYKColor.copy (k :: ks)) (fun ks' =>
         Returned (Some ks'))
     | _ => Returned None
     end) (fun ks =>
  Returned {| gradientType := gradientType g; colors := cs; cmykColors := ks;
              positions := positions g;
              start := start g; end_ := end_ g;
              startRadius := startRadius g; endRadius := endRadius g |})).

End Gradient.

(** ** BezierPath

  The wrapped [NSBezierPath] is the list of the element calls made on it.
  [moveTo], [lineTo] and [curveTo] reach it through fontTools' [BasePen],
  whose own bookkeeping (the current point) is not part of the embedding;
  [qCurveTo], which [BasePen] decomposes numerically, is not embedded.
  Whether AppKit accepts an element, a line on a path without a current
  point for one, is AppKit's to say and is not embedded either: the list
  holds the calls made, accepted or not. *)

Module BezierPath.

Inductive element :=
| moveToPoint_ (pt : pyval)
| lineToPoint_ (pt : pyval)
| curveToPoint_controlPoint1_controlPoint2_ (pt3 pt1 pt2 : pyval)
| closePath_
| appendBezierPathWithArcWithCenter_radius_startAngle_endAngle_clockwise_
    (center radius startAngle endAngle clockwise : pyval)
| appendBezierPathWithArcFromPoint_toPoint_radius_ (point1 point2 radius : pyval)
| appendBezierPathWithRect_ (x y w h : pyval)
| appendBezierPathWithOvalInRect_ (x y w h : pyval).

Record t := {
  _path : list element;
  svgID : option string;
  svgClass : option string;
  svgLink : option string
}.

Definition __init__ : t :=
  {| _path := []; svgID := None; svgClass := None; svgLink := None |}.

Definition append (e : element) (p : t) : t :=
  {| _path := _path p ++ [e]; svgID := svgID p; svgClass := svgClass p;
     svgLink := svgLink p |}.

Definition moveTo (point : pyval) : t -> t := append (moveToPoint_ point).
Definition lineTo (point : pyval) : t -> t := append (lineToPoint_ point).
Definition curveTo (pt1 pt2 pt3 : pyval) : t -> t :=
  append (curveToPoint_controlPoint1_controlPoint2_ pt3 pt1 pt2).
Definition closePath : t -> t := append closePath_.
Definition arc (center radius startAngle endAngle clockwise : pyval) : t -> t :=
  append (appendBezierPathWithArcWithCenter_radius_startAngle_endAngle_clockwise_
            center radius startAngle endAngle clockwise).
Definition arcTo (point1 point2 radius : pyval) : t -> t :=
  append (appendBezierPathWithArcFromPoint_toPoint_radius_ point1 point2 radius).
Definition rect (x y w h : pyval) : t -> t :=
  append (appendBezierPathWithRect_ x y w h).
Definition oval (x y w h : pyval) (p : t) : t :=
  closePath (append (appendBezierPathWithOvalInRect_ x y w h) p).

(** [copy]: a new object with a copy of the [NSBezierPath] and the context
    properties of [SVGContextPropertyMixin]. *)
Definition copy (p : t) : t :=
  {| _path := _path p; svgID := svgID p; svgClass := svgClass p;
     svgLink := svgLink p |}.

End BezierPath.

(** ** The world outside one context

    The store of [BezierPath] objects, and the class attribute
    [Color.colorSpace], which every [Color] construction reads and which
    [GraphicsState.updateColorSpace] and [BaseContext.reset] assign. *)

Record World := {
  paths : list BezierPath.t;
  Color_colorSpace : NSColorSpace
}.

Definition set_paths (ps : list BezierPath.t) (w : World) : World :=
  {| paths := ps; Color_colorSpace := Color_colorSpace w |}.
Definition set_Color_colorSpace (cs : NSColorSpace) (w : World) : World :=
  {| paths := paths w; Color_colorSpace := cs |}.

(** The interpreter starts with no path object and the class attribute at its
    declared value. *)
Definition World_init : World :=
  {| paths := []; Color_colorSpace := genericRGBColorSpace |}.

(** A new object takes the next location. *)
Definition alloc (p : BezierPath.t) : M World loc :=
  fun w => (Returned (length (paths w)), set_paths (paths w ++ [p]) w).

(** A method call on the object at [l].  A reference always names an object;
    a location outside the store names none and the call leaves the store as
    it is. *)
Definition on_path (l : loc) (f : BezierPath.t -> BezierPath.t) : M World unit :=
  modify (fun w => set_paths (alter f l (paths w)) w).

(** [path.copy()] for the object at [l]. *)
Definition copy_path (l : loc) : M World loc :=
  fun w => match paths w !! l with
           | Some p => alloc (BezierPath.copy p) w
           | None => (Raised (AttributeError "no object at this location"), w)
           end.

(** ** FormattedString as the text state of a GraphicsState

    The attributes of [_formattedAttributes] that the embedded context
    methods write, in the order of that table.  The attributed string, the
    font attributes and the attributes whose setters ask the font or language
    services are not embedded. *)

Module FormattedString.

Record t := {
  _fontSize : pyval;
  _fill : pyval;
  _cmykFill : pyval;
  _stroke : pyval;
  _cmykStroke : pyval;
  _strokeWidth : pyval;
  _lineHeight : pyval;
  _tracking : pyval;
  _baselineShift : pyval;
  _underline : pyval;
  _strikethrough : pyval;
  _url : pyval;
  _tabs : pyval;
  _writingDirection : pyval
}.

(** The keys of [_formattedAttributes], in the order of the dict. *)
Inductive key :=
| K_fontSize | K_fill | K_cmykFill | K_stroke | K_cmykStroke | K_strokeWidth
| K_lineHeight | K_tracking | K_baselineShift | K_underline | K_strikethrough
| K_url | K_tabs | K_writingDirection.

#[global] Instance key_eq_dec : EqDecision key.
Proof. solve_decision. Defined.

Definition keys : list key :=
  [K_fontSize; K_fill; K_cmykFill; K_stroke; K_cmykStroke; K_strokeWidth;
   K_lineHeight; K_tracking; K_baselineShift; K_underline; K_strikethrough;
   K_url; K_tabs; K_writingDirection].

(** [getattr(self, "_%s" % key)] and [setattr(self, "_%s" % key, value)]. *)
Definition getattr (k : key) (s : t) : pyval :=
  match k with
  | K_fontSize => _fontSize s
  | K_fill => _fill s
  | K_cmykFill => _cmykFill s
  | K_stroke => _stroke s
  | K_cmykStroke => _cmykStroke s
  | K_strokeWidth => _strokeWidth s
  | K_lineHeight => _lineHeight s
  | K_tracking => _tracking s
  | K_baselineShift => _baselineShift s
  | K_underline => _underline s
  | K_strikethrough => _strikethrough s
  | K_url => _url s
  | K_tabs => _tabs s
  | K_writingDirection => _writingDirection s
  end.

Definition setattr (k : key) (v : pyval) (s : t) : t :=
  {| _fontSize := match k with K_fontSize => v | _ => _fontSize s end;
     _fill := match k with K_fill => v | _ => _fill s end;
     _cmykFill := match k with K_cmykFill => v | _ => _cmykFill s end;
     _stroke := match k with K_stroke => v | _ => _stroke s end;
     _cmykStroke := match k with K_cmykStroke => v | _ => _cmykStroke s end;
     _strokeWidth := match k with K_strokeWidth => v | _ => _strokeWidth s end;
     _lineHeight := match k with K_lineHeight => v | _ => _lineHeight s end;
     _tracking := match k with K_tracking => v | _ => _tracking s end;
     _baselineShift := match k with K_baselineShift => v | _ => _baselineShift s end;
     _underline := match k with K_underline => v | _ => _underline s end;
     _strikethrough := match k with K_strikethrough => v | _ => _strikethrough s end;
     _url := match k with K_url => v | _ => _url s end;
     _tabs := match k with K_tabs => v | _ => _tabs s end;
     _writingDirection :=
       match k with K_writingDirection => v | _ => _writingDirection s end |}.

(** The values of [_formattedAttributes]. *)
Definition defaults : t :=
  {| _fontSize := PInt 10;
     _fill := PTuple [PInt 0; PInt 0; PInt 0];
     _cmykFill := PNone;
     _stroke := PNone;
     _cmykStroke := PNone;
     _strokeWidth := PInt 1;
     _lineHeight := PNone;
     _tracking := PNone;
     _baselineShift := PNone;
     _underline := PNone;
     _strikethrough := PNone;
     _url := PNone;
     _tabs := PNone;
     _writingDirection := PNone |}.

(** *** The setters *)

Definition fontSize (fontSize : pyval) : M t unit :=
  modify (setattr K_fontSize fontSize).

(** [tuple([i for i in (r, g, b, alpha) if i is not None])]. *)
Definition components (vs : list pyval) : pyval :=
  PTuple (filter (fun i => negb (Py.is_None i)) vs).

Definition fill (r g b alpha : pyval) : M t unit :=
  let fill := if Py.is_None r then PNone else components [r; g; b; alpha] in
  modify (setattr K_fill fill) ;;
  modify (setattr K_cmykFill PNone).

Definition stroke (r g b alpha : pyval) : M t unit :=
  let stroke := if Py.is_None r then PNone else components [r; g; b; alpha] in
  modify (setattr K_stroke stroke) ;;
  modify (setattr K_cmykStroke PNone).

Definition cmykFill (c m y k alpha : pyval) : M t unit :=
  let cmykFill := if Py.is_None c then PNone else PTuple [c; m; y; k; alpha] in
  modify (setattr K_cmykFill cmykFill) ;;
  modify (setattr K_fill PNone).

Definition cmykStroke (c m y k alpha : pyval) : M t unit :=
  let cmykStroke := if Py.is_None c then PNone else PTuple [c; m; y; k; alpha] in
  modify (setattr K_cmykStroke cmykStroke) ;;
  modify (setattr K_stroke PNone).

Definition strokeWidth (strokeWidth : pyval) : M t unit :=
  modify (setattr K_strokeWidth strokeWidth).

Definition lineHeight (lineHeight : pyval) : M t unit :=
  modify (setattr K_lineHeight lineHeight).

Definition tracking (tracking : pyval) : M t unit :=
  modify (setattr K_tracking tracking).

Definition baselineShift (baselineShift : pyval) : M t unit :=
  modify (setattr K_baselineShift baselineShift).

(** The keys of [_textUnderlineMap] and of [_textstrikethroughMap]. *)
Definition in_textUnderlineMap (v : pyval) : bool :=
  match v with
  | PStr "single" | PStr "thick" | PStr "double" => true
  | _ => false
  end.

Definition in_writingDirectionMap (v : pyval) : bool :=
  match v with
  | PStr "LTR" | PStr "RTL" => true
  | _ => false
  end.

Definition underline (underline : pyval) : M t unit :=
  if Py.is_None underline then modify (setattr K_underline underline)
  else if negb (Py.hashable underline) then raise (TypeError "unhashable type")
  else if negb (in_textUnderlineMap underline)
  then raise (DrawBotError "underline must be double, single, thick")
  else modify (setattr K_underline underline).

Definition strikethrough (strikethrough : pyval) : M t unit :=
  if Py.is_None strikethrough then modify (setattr K_strikethrough strikethrough)
  else if negb (Py.hashable strikethrough) then raise (TypeError "unhashable type")
  else if negb (in_textUnderlineMap strikethrough)
  then raise (DrawBotError "strikethrough must be double, single, thick")
  else modify (setattr K_strikethrough strikethrough).

Definition url (url : pyval) : M t unit :=
  modify (setattr K_url url).

(** [tabs(tab, *tabs)]. *)
Definition tabs (tab : pyval) (tabs : list pyval) : M t unit :=
  if Py.is_None tab then modify (setattr K_tabs PNone)
  else modify (setattr K_tabs (PList (tab :: tabs))).

Definition writingDirection (direction : pyval) : M t unit :=
  if Py.is_None direction then modify (setattr K_writingDirection direction)
  else if negb (Py.hashable direction) then raise (TypeError "unhashable type")
  else if negb (in_writingDirectionMap direction)
  then raise (DrawBotError "writing direction must be LTR, RTL")
  else modify (setattr K_writingDirection direction).

(** *** Construction and copy *)

(** [getattr(self, attribute)] called on positional arguments. *)
Definition method (k : key) (args : list pyval) : M t unit :=
  let one (f : pyval -> M t unit) : M t unit :=
    match args with
    | [v] => f v
    | _ => raise (TypeError "takes exactly one positional argument")
    end in
  let colour (n : nat) (f : list pyval -> M t unit) : M t unit :=
    match Py.bind_args (replicate n (Some PNone) ++ [Some (PInt 1)]) args with
    | Returned vs => f vs
    | Raised e => raise e
    end in
  match k with
  | K_fontSize => one fontSize
  | K_fill =>
      colour 3%nat (fun vs =>
        match vs with
        | [r; g; b; a] => fill r g b a
        | _ => raise (TypeError "fill()")
        end)
  | K_cmykFill =>
      colour 4%nat (fun vs =>
        match vs with
        | [c; m; y; k; a] => cmykFill c m y k a
        | _ => raise (TypeError "cmykFill()")
        end)
  | K_stroke =>
      colour 3%nat (fun vs =>
        match vs with
        | [r; g; b; a] => stroke r g b a
        | _ => raise (TypeError "stroke()")
        end)
  | K_cmykStroke =>
      colour 4%nat (fun vs =>
        match vs with
        | [c; m; y; k; a] => cmykStroke c m y k a
        | _ => raise (TypeError "cmykStroke()")
        end)
  | K_strokeWidth => one strokeWidth
  | K_lineHeight => one lineHeight
  | K_tracking => one tracking
  | K_baselineShift => one baselineShift
  | K_underline => one underline
  | K_strikethrough => one strikethrough
  | K_url => one url
  | K_tabs =>
      match args with
      | tab :: rest => tabs tab rest
      | [] => raise (TypeError "tabs() missing 1 required positional argument")
      end
  | K_writingDirection => one writingDirection
  end.

(** [_setAttribute]: a list or tuple value is spread over the method. *)
Definition _setAttribute (attribute : key) (value : pyval) : M t unit :=
  match value with
  | PTuple l | PList l => method attribute l
  | _ => method attribute [value]
  end.

(** [attributes.get(key)] for the keyword arguments of a call. *)
Fixpoint dict_get (attributes : list (key * pyval)) (k : key) : pyval :=
  match attributes with
  | [] => PNone
  | (k', v) :: r => if decide (k = k') then v else dict_get r k
  end.

(** [_setColorAttributes]: the colour attributes are assigned again as
    given, a bare number is wrapped in a tuple, and of an RGB and a CMYK
    colour for the same role the RGB one wins. *)
Definition _setColorAttributes (attributes : list (key * pyval)) : M t unit :=
  forM_ [K_fill; K_stroke; K_cmykFill; K_cmykStroke] (fun k =>
    let value := dict_get attributes k in
    if Py.is_None value then ret tt else modify (setattr k value)) ;;
  modify (fun s =>
    if Py.is_None (_fill s) then s
    else match Py.len (_fill s) with
         | Returned _ => s
         | Raised _ => setattr K_fill (PTuple [_fill s]) s
         end) ;;
  modify (fun s =>
    if Py.is_None (_stroke s) then s
    else match Py.len (_stroke s) with
         | Returned _ => s
         | Raised _ => setattr K_stroke (PTuple [_stroke s]) s
         end) ;;
  modify (fun s =>
    if Py.truthy (_fill s) then setattr K_cmykFill PNone s
    else if Py.truthy (_cmykFill s) then setattr K_fill PNone s
    else s) ;;
  modify (fun s =>
    if Py.truthy (_stroke s) then setattr K_cmykStroke PNone s
    else if Py.truthy (_cmykStroke s) then setattr K_stroke PNone s
    else s).

(** [FormattedString.__init__(txt=None, **kwargs)] without text: the
    defaults, then every keyword through its method in the order given, then
    [_setColorAttributes]. *)
Definition __init__ (kwargs : list (key * pyval)) : outcome t :=
  fst ((forM_ kwargs (fun kv => _setAttribute (fst kv) (snd kv)) ;;
        _setColorAttributes kwargs ;;
        get) defaults).

(** [FormattedString()]: without keyword arguments no method is called. *)
Definition new : t :=
  match __init__ [] with
  | Returned s => s
  | Raised _ => defaults
  end.

(** [copy]: a new object constructed from the current attributes. *)
Definition copy (s : t) : outcome t :=
  __init__ (map (fun k => (k, getattr k s)) keys).

End FormattedString.

(** ** GraphicsState *)

Module GraphicsState.

(** The attributes in the order of [__init__].  [path] is [None] or the
    [BezierPath] object being built or drawn, shared with whoever passed it
    in. *)
Record t := {
  colorSpace : NSColorSpace;
  blendMode : pyval;
  opacity : pyval;
  fillColor : option Color.t;
  strokeColor : option Color.t;
  cmykFillColor : option CMYKColor.t;
  cmykStrokeColor : option CMYKColor.t;
  shadow : option Shadow.t;
  gradient : option Gradient.t;
  strokeWidth : pyval;
  lineDash : option (list pyval);
  lineDashOffset : pyval;
  lineCap : option CGLineCap;
  lineJoin : option CGLineJoin;
  miterLimit : pyval;
  text : FormattedString.t;
  hyphenation : pyval;
  path : pyval
}.

(** Assignment to one attribute. *)
Definition set_colorSpace (v : NSColorSpace) (s : t) : t :=
  Build_t v (blendMode s) (opacity s) (fillColor s) (strokeColor s)
    (cmykFillColor s) (cmykStrokeColor s) (shadow s) (gradient s)
    (strokeWidth s) (lineDash s) (lineDashOffset s) (lineCap s) (lineJoin s)
    (miterLimit s) (text s) (hyphenation s) (path s).
Definition set_blendMode (v : pyval) (s : t) : t :=
  Build_t (colorSpace s) v (opacity s) (fillColor s) (strokeColor s)
    (cmykFillColor s) (cmykStrokeColor s) (shadow s) (gradient s)
    (strokeWidth s) (lineDash s) (lineDashOffset s) (lineCap s) (lineJoin s)
    (miterLimit s) (text s) (hyphenation s) (path s).
Definition set_opacity (v : pyval) (s : t) : t :=
  Build_t (colorSpace s) (blendMode s) v (fillColor s) (strokeColor s)
    (cmykFillColor s) (cmykStrokeColor s) (shadow s) (gradient s)
    (strokeWidth s) (lineDash s) (lineDashOffset s) (lineCap s) (lineJoin s)
    (miterLimit s) (text s) (hyphenation s) (path s).
Definition set_fillColor (v : option Color.t) (s : t) : t :=
  Build_t (colorSpace s) (blendMode s) (opacity s) v (strokeColor s)
    (cmykFillColor s) (cmykStrokeColor s) (shadow s) (gradient s)
    (strokeWidth s) (lineDash s) (lineDashOffset s) (lineCap s) (lineJoin s)
    (miterLimit s) (text s) (hyphenation s) (path s).
Definition set_strokeColor (v : option Color.t) (s : t) : t :=
  Build_t (colorSpace s) (blendMode s) (opacity s) (fillColor s) v
    (cmykFillColor s) (cmykStrokeColor s) (shadow s) (gradient s)
    (strokeWidth s) (lineDash s) (lineDashOffset s) (lineCap s) (lineJoin s)
    (miterLimit s) (text s) (hyphenation s) (path s).
Definition set_cmykFillColor (v : option CMYKColor.t) (s : t) : t :=
  Build_t (colorSpace s) (blendMode s) (opacity s) (fillColor s)
    (strokeColor s) v (cmykStrokeColor s) (shadow s) (gradient s)
    (strokeWidth s) (lineDash s) (lineDashOffset s) (lineCap s) (lineJoin s)
    (miterLimit s) (text s) (hyphenation s) (path s).
Definition set_cmykStrokeColor (v : option CMYKColor.t) (s : t) : t :=
  Build_t (colorSpace s) (blendMode s) (opacity s) (fillColor s)
    (strokeColor s) (cmykFillColor s) v (shadow s) (gradient s) (strokeWidth
    s) (lineDash s) (lineDashOffset s) (lineCap s) (lineJoin s) (miterLimit
    s) (text s) (hyphenation s) (path s).
Definition set_shadow (v : option Shadow.t) (s : t) : t :=
  Build_t (colorSpace s) (blendMode s) (opacity s) (fillColor s)
    (strokeColor s) (cmykFillColor s) (cmykStrokeColor s) v (gradient s)
    (strokeWidth s) (lineDash s) (lineDashOffset s) (lineCap s) (lineJoin s)
    (miterLimit s) (text s) (hyphenation s) (path s).
Definition set_gradient (v : option Gradient.t) (s : t) : t :=
  Build_t (colorSpace s) (blendMode s) (opacity s) (fillColor s)
    (strokeColor s) (cmykFillColor s) (cmykStrokeColor s) (shadow s) v
    (strokeWidth s) (lineDash s) (lineDashOffset s) (lineCap s) (lineJoin s)
    (miterLimit s) (text s) (hyphenation s) (path s).
Definition set_strokeWidth (v : pyval) (s : t) : t :=
  Build_t (colorSpace s) (blendMode s) (opacity s) (fillColor s)
    (strokeColor s) (cmykFillColor s) (cmykStrokeColor s) (shadow s)
    (gradient s) v (lineDash s) (lineDashOffset s) (lineCap s) (lineJoin s)
    (miterLimit s) (text s) (hyphenation s) (path s).
Definition set_lineDash (v : option (list pyval)) (s : t) : t :=
  Build_t (colorSpace s) (blendMode s) (opacity s) (fillColor s)
    (strokeColor s) (cmykFillColor s) (cmykStrokeColor s) (shadow s)
    (gradient s) (strokeWidth s) v (lineDashOffset s) (lineCap s) (lineJoin
    s) (miterLimit s) (text s) (hyphenation s) (path s).
Definition set_lineDashOffset (v : pyval) (s : t) : t :=
  Build_t (colorSpace s) (blendMode s) (opacity s) (fillColor s)
    (strokeColor s) (cmykFillColor s) (cmykStrokeColor s) (shadow s)
    (gradient s) (strokeWidth s) (lineDash s) v (lineCap s) (lineJoin s)
    (miterLimit s) (text s) (hyphenation s) (path s).
Definition set_lineCap (v : option CGLineCap) (s : t) : t :=
  Build_t (colorSpace s) (blendMode s) (opacity s) (fillColor s)
    (strokeColor s) (cmykFillColor s) (cmykStrokeColor s) (shadow s)
    (gradient s) (strokeWidth s) (lineDash s) (lineDashOffset s) v (lineJoin
    s) (miterLimit s) (text s) (hyphenation s) (path s).
Definition set_lineJoin (v : option CGLineJoin) (s : t) : t :=
  Build_t (colorSpace s) (blendMode s) (opacity s) (fillColor s)
    (strokeColor s) (cmykFillColor s) (cmykStrokeColor s) (shadow s)
    (gradient s) (strokeWidth s) (lineDash s) (lineDashOffset s) (lineCap s)
    v (miterLimit s) (text s) (hyphenation s) (path s).
Definition set_miterLimit (v : pyval) (s : t) : t :=
  Build_t (colorSpace s) (blendMode s) (opacity s) (fillColor s)
    (strokeColor s) (cmykFillColor s) (cmykStrokeColor s) (shadow s)
    (gradient s) (strokeWidth s) (lineDash s) (lineDashOffset s) (lineCap s)
    (lineJoin s) v (text s) (hyphenation s) (path s).
Definition set_text (v : FormattedString.t) (s : t) : t :=
  Build_t (colorSpace s) (blendMode s) (opacity s) (fillColor s)
    (strokeColor s) (cmykFillColor s) (cmykStrokeColor s) (shadow s)
    (gradient s) (strokeWidth s) (lineDash s) (lineDashOffset s) (lineCap s)
    (lineJoin s) (miterLimit s) v (hyphenation s) (path s).
Definition set_hyphenation (v : pyval) (s : t) : t :=
  Build_t (colorSpace s) (blendMode s) (opacity s) (fillColor s)
    (strokeColor s) (cmykFillColor s) (cmykStrokeColor s) (shadow s)
    (gradient s) (strokeWidth s) (lineDash s) (lineDashOffset s) (lineCap s)
    (lineJoin s) (miterLimit s) (text s) v (path s).
Definition set_path (v : pyval) (s : t) : t :=
  Build_t (colorSpace s) (blendMode s) (opacity s) (fillColor s)
    (strokeColor s) (cmykFillColor s) (cmykStrokeColor s) (shadow s)
    (gradient s) (strokeWidth s) (lineDash s) (lineDashOffset s) (lineCap s)
    (lineJoin s) (miterLimit s) (text s) (hyphenation s) v.

(** [GraphicsState.__init__]: the colour space is the class attribute
    [Color.colorSpace] as it is at that moment. *)
Definition __init__ (w : World) : t :=
  {| colorSpace := Color_colorSpace w;
     blendMode := PNone;
     opacity := PInt 1;
     fillColor := Some (Color.__init__ (Color_colorSpace w) (PInt 0) PNone PNone (PInt 1));
     strokeColor := None;
     cmykFillColor := None;
     cmykStrokeColor := None;
     shadow := None;
     gradient := None;
     strokeWidth := PInt 1;
     lineDash := None;
     lineDashOffset := PInt 0;
     lineCap := None;
     lineJoin := None;
     miterLimit := PInt 10;
     text := FormattedString.new;
     hyphenation := PNone;
     path := PNone |}.

(** [x.copy()] for an attribute that may be [None]; [keep] is what the new
    object holds when the guard of the assignment is false. *)
Definition copy_opt {A} (copy : A -> outcome A) (x keep : option A)
  : outcome (option A) :=
  match x with
  | Some a => outcome_bind (copy a) (fun a' => Returned (Some a'))
  | None => Returned keep
  end.

(** [self.path.copy()]: of a [BezierPath] a new object; a list has a [copy]
    method too, other values have none. *)
Definition copy_path_value (p : pyval) : M World pyval :=
  match p with
  | PPath l => l' <- copy_path l ;; ret (PPath l')
  | PList items => ret (PList items)
  | _ => raise (AttributeError "object has no attribute 'copy'")
  end.

(** [GraphicsState.copy], the assignments in the order of the source.  The
    colour, shadow and gradient objects are always true, so the guards
    [if self.strokeColor:] and the like test for [None]; where a guard is
    false the new object keeps what [__init__] gave it. *)
Definition copy (s : t) : M World t :=
  new <- gets __init__ ;;
  fc <- lift (copy_opt Color.copy (fillColor s) None) ;;
  sc <- lift (copy_opt Color.copy (strokeColor s) (strokeColor new)) ;;
  cfc <- lift (copy_opt CMYKColor.copy (cmykFillColor s) (cmykFillColor new)) ;;
  csc <- lift (copy_opt CMYKColor.copy (cmykStrokeColor s) (cmykStrokeColor new)) ;;
  sh <- lift (copy_opt Shadow.copy (shadow s) (shadow new)) ;;
  gr <- lift (copy_opt Gradient.copy (gradient s) (gradient new)) ;;
  p <- (if Py.is_None (path s) then ret (path new) else copy_path_value (path s)) ;;
  txt <- lift (FormattedString.copy (text s)) ;;
  ret {| colorSpace := colorSpace s;
         blendMode := blendMode s;
         opacity := opacity s;
         fillColor := fc;
         strokeColor := sc;
         cmykFillColor := cfc;
         cmykStrokeColor := csc;
         shadow := sh;
         gradient := gr;
         strokeWidth := strokeWidth s;
         lineDash := match lineDash s with
                     | Some d => Some d
                     | None => lineDash new
                     end;
         lineDashOffset := lineDashOffset s;
         lineCap := lineCap s;
         lineJoin := lineJoin s;
         miterLimit := miterLimit s;
         text := txt;
         hyphenation := hyphenation s;
         path := p |}.

(** [updateColorSpace]: the class attribute follows the state. *)
Definition updateColorSpace (s : t) : M World unit :=
  modify (set_Color_colorSpace (colorSpace s)).

Definition update (s : t) : M World unit := updateColorSpace s.

Definition setColorSpace (cs : NSColorSpace) (s : t) : M World t :=
  let s' := set_colorSpace cs s in
  updateColorSpace s' ;; ret s'.

End GraphicsState.

(** ** BaseContext: the graphics-state stack

    The methods of [BaseContext] that act on the graphics state.  The hooks a
    rendering subclass overrides ([_newPage], [_save], [_restore],
    [_drawPath], [_transform] and the like) are [pass] in [BaseContext]
    itself and do nothing here.  A method runs on the world together with the
    context object. *)

Module BaseContext.

Record t := {
  width : pyval;
  height : pyval;
  hasPage : bool;
  _stack : list GraphicsState.t;
  _state : GraphicsState.t
}.

Definition set_width (v : pyval) (c : t) : t :=
  Build_t v (height c) (hasPage c) (_stack c) (_state c).
Definition set_height (v : pyval) (c : t) : t :=
  Build_t (width c) v (hasPage c) (_stack c) (_state c).
Definition set_hasPage (v : bool) (c : t) : t :=
  Build_t (width c) (height c) v (_stack c) (_state c).
Definition set__stack (v : list GraphicsState.t) (c : t) : t :=
  Build_t (width c) (height c) (hasPage c) v (_state c).
Definition set__state (v : GraphicsState.t) (c : t) : t :=
  Build_t (width c) (height c) (hasPage c) (_stack c) v.

(** The state a method runs on. *)
Definition st : Type := World * t.

Definition world {A} (m : M World A) : M st A :=
  zoom fst (fun w s => (w, snd s)) m.
Definition self {A} (m : M t A) : M st A :=
  zoom snd (fun c s => (fst s, c)) m.

(** [self._state.attr = v] and the methods of [self._state.text]. *)
Definition state (f : GraphicsState.t -> GraphicsState.t) : M st unit :=
  self (modify (fun c => set__state (f (_state c)) c)).
Definition text {A} (m : M FormattedString.t A) : M st A :=
  self (zoom (fun c => GraphicsState.text (_state c))
             (fun x c => set__state (GraphicsState.set_text x (_state c)) c) m).

(** [self._colorClass(r, g, b, a)]. *)
Definition _colorClass (r g b a : pyval) : M st Color.t :=
  cs <- world (gets Color_colorSpace) ;;
  ret (Color.__init__ cs r g b a).

(** A method of the object in [self._state.path]. *)
Definition state_path (name : string) (f : BezierPath.t -> BezierPath.t) : M st unit :=
  p <- self (gets (fun c => GraphicsState.path (_state c))) ;;
  match p with
  | PPath l => world (on_path l f)
  | _ => raise (AttributeError name)
  end.

(** [_stack.pop()] on a list that grows at its end. *)
Definition pop {A} (l : list A) : option (A * list A) :=
  match reverse l with
  | [] => None
  | x :: r => Some (x, reverse r)
  end.

Definition _colorSpaceMap (key : pyval) : option NSColorSpace :=
  match key with
  | PStr "genericRGB" => Some genericRGBColorSpace
  | PStr "adobeRGB1998" => Some adobeRGB1998ColorSpace
  | PStr "sRGB" => Some sRGBColorSpace
  | PStr "genericGray" => Some genericGrayColorSpace
  | PStr "genericGamma22Gray" => Some genericGamma22GrayColorSpace
  | PStr "displayP3" => Some displayP3ColorSpace
  | _ => None
  end.

Definition reset : M st unit :=
  self (modify (set__stack [])) ;;
  s <- world (gets GraphicsState.__init__) ;;
  self (modify (set__state s)) ;;
  world (modify (set_Color_colorSpace genericRGBColorSpace)).

(** [BaseContext()]: a new context object, [reset] included. *)
Definition __init__ (w : World) : t * World :=
  ({| width := PNone; height := PNone; hasPage := false;
      _stack := []; _state := GraphicsState.__init__ w |},
   set_Color_colorSpace genericRGBColorSpace w).

Definition size (width height : pyval) : M st unit :=
  (if Py.is_None width then ret tt else self (modify (set_width width))) ;;
  (if Py.is_None height then ret tt else self (modify (set_height height))).

Definition newPage (width height : pyval) : M st unit :=
  c <- self get ;;
  if Py.is_None (BaseContext.width c) && Py.is_None width
  then raise (DrawBotError "A page must have a width")
  else if Py.is_None (BaseContext.height c) && Py.is_None height
  then raise (DrawBotError "A page must have a height")
  else self (modify (set_hasPage true)).

Definition save : M st unit :=
  s <- self (gets _state) ;;
  snapshot <- world (GraphicsState.copy s) ;;
  self (modify (fun c => set__stack (_stack c ++ [snapshot]) c)).

Definition restore : M st unit :=
  stack <- self (gets _stack) ;;
  match pop stack with
  | None => raise (DrawBotError "can't restore graphics state: no matching save()")
  | Some (top, rest) =>
      self (modify (fun c => set__state top (set__stack rest c))) ;;
      world (GraphicsState.update top)
  end.

(** *** Paths *)

(** [self.drawPath(path)] and [self.clipPath(path)]: the object handed in
    becomes the current path itself, not a copy of it. *)
Definition drawPath (path : pyval) : M st unit :=
  if Py.is_None path then ret tt
  else state (GraphicsState.set_path path).

Definition clipPath (path : pyval) : M st unit :=
  if Py.is_None path then ret tt
  else state (GraphicsState.set_path path).

Definition rect (x y w h : pyval) : M st unit :=
  l <- world (alloc (BezierPath.rect x y w h BezierPath.__init__)) ;;
  drawPath (PPath l).

Definition oval (x y w h : pyval) : M st unit :=
  l <- world (alloc (BezierPath.oval x y w h BezierPath.__init__)) ;;
  drawPath (PPath l).

Definition newPath : M st unit :=
  l <- world (alloc BezierPath.__init__) ;;
  state (GraphicsState.set_path (PPath l)).

Definition moveTo (pt : pyval) : M st unit :=
  p <- self (gets (fun c => GraphicsState.path (_state c))) ;;
  if Py.is_None p then raise (DrawBotError "Create a new path first")
  else state_path "moveTo" (BezierPath.moveTo pt).

Definition lineTo (pt : pyval) : M st unit :=
  state_path "lineTo" (BezierPath.lineTo pt).

Definition curveTo (pt1 pt2 pt : pyval) : M st unit :=
  state_path "curveTo" (BezierPath.curveTo pt1 pt2 pt).

Definition arc (center radius startAngle endAngle clockwise : pyval) : M st unit :=
  state_path "arc" (BezierPath.arc center radius startAngle endAngle clockwise).

Definition arcTo (pt1 pt2 radius : pyval) : M st unit :=
  state_path "arcTo" (BezierPath.arcTo pt1 pt2 radius).

Definition closePath : M st unit :=
  state_path "closePath" BezierPath.closePath.

(** *** Colour space, blend mode, opacity *)

Definition colorSpace (colorSpace : pyval) : M st unit :=
  let colorSpace := if Py.is_None colorSpace then PStr "genericRGB" else colorSpace in
  if negb (Py.hashable colorSpace) then raise (TypeError "unhashable type")
  else match _colorSpaceMap colorSpace with
       | None => raise (DrawBotError "'%s' is not a valid colorSpace, argument must be '%s'")
       | Some cs =>
           s <- self (gets _state) ;;
           s' <- world (GraphicsState.setColorSpace cs s) ;;
           self (modify (set__state s'))
       end.

Definition blendMode (operation : pyval) : M st unit :=
  state (GraphicsState.set_blendMode operation).

Definition opacity (value : pyval) : M st unit :=
  state (GraphicsState.set_opacity value).

(** *** Fill and stroke *)

Definition fill (r g b a : pyval) : M st unit :=
  text (FormattedString.fill r g b a) ;;
  state (GraphicsState.set_cmykFillColor None) ;;
  if Py.is_None r then state (GraphicsState.set_fillColor None)
  else
    c <- _colorClass r g b a ;;
    state (GraphicsState.set_fillColor (Some c)) ;;
    state (GraphicsState.set_gradient None).

Definition stroke (r g b a : pyval) : M st unit :=
  text (FormattedString.stroke r g b a) ;;
  state (GraphicsState.set_cmykStrokeColor None) ;;
  if Py.is_None r then state (GraphicsState.set_strokeColor None)
  else
    c <- _colorClass r g b a ;;
    state (GraphicsState.set_strokeColor (Some c)).

Section Misc.

(** [drawBot.misc.cmyk2rgb] is not part of the sources at hand. *)
Variable cmyk2rgb : pyval -> pyval -> pyval -> pyval -> pyval * pyval * pyval.

Definition cmykFill (c m y k a : pyval) : M st unit :=
  text (FormattedString.cmykFill c m y k a) ;;
  if Py.is_None c then fill PNone PNone PNone (PInt 1)
  else
    state (GraphicsState.set_cmykFillColor (Some (CMYKColor.__init__ c m y k a))) ;;
    let '(r, g, b) := cmyk2rgb c m y k in
    col <- _colorClass r g b a ;;
    state (GraphicsState.set_fillColor (Some col)) ;;
    state (GraphicsState.set_gradient None).

Definition cmykStroke (c m y k a : pyval) : M st unit :=
  text (FormattedString.cmykStroke c m y k a) ;;
  if Py.is_None c then stroke PNone PNone PNone (PInt 1)
  else
    state (GraphicsState.set_cmykStrokeColor (Some (CMYKColor.__init__ c m y k a))) ;;
    let '(r, g, b) := cmyk2rgb c m y k in
    col <- _colorClass r g b a ;;
    state (GraphicsState.set_strokeColor (Some col)).

(** *** Shadow *)

Definition _shadowClass (offset blur color : pyval) : M st Shadow.t :=
  cs <- world (gets Color_colorSpace) ;;
  lift (Shadow.__init__ cs offset blur color).

Definition shadow (offset blur color : pyval) : M st unit :=
  if Py.is_None offset then state (GraphicsState.set_shadow None)
  else
    sh <- _shadowClass offset blur color ;;
    state (GraphicsState.set_shadow (Some sh)).

(** [cmyk2rgb(color[0], color[1], color[2], color[3])] as a tuple. *)
Definition cmyk2rgb_of (color : pyval) : outcome pyval :=
  outcome_bind (Py.getitem color 0) (fun c =>
  outcome_bind (Py.getitem color 1) (fun m =>
  outcome_bind (Py.getitem color 2) (fun y =>
  outcome_bind (Py.getitem color 3) (fun k =>
  let '(r, g, b) := cmyk2rgb c m y k in
  Returned (PTuple [r; g; b]))))).

(** The constructor of [CMYKColor] on the items of [color]. *)
Definition _cmykColorClass_of (color : pyval) : outcome CMYKColor.t :=
  outcome_bind (Py.items color) CMYKColor.call.

Definition cmykShadow (offset blur color : pyval) : M st unit :=
  if Py.is_None offset then state (GraphicsState.set_shadow None)
  else
    rgbColor <- lift (cmyk2rgb_of color) ;;
    sh <- _shadowClass offset blur rgbColor ;;
    state (GraphicsState.set_shadow (Some sh)) ;;
    k <- lift (_cmykColorClass_of color) ;;
    state (GraphicsState.set_shadow
             (Some {| Shadow.offset := Shadow.offset sh;
                      Shadow.blur := Shadow.blur sh;
                      Shadow.color := Shadow.color sh;
                      Shadow.cmykColor := Some k |})).

(** *** Gradients *)

Definition _gradientClass (gradientType : string)
    (start end_ colors positions startRadius endRadius : pyval) : M st Gradient.t :=
  cs <- world (gets Color_colorSpace) ;;
  lift (Gradient.__init__ cs gradientType start end_ colors positions
          startRadius endRadius).

(** The reset shared by the four gradient setters when no start point is
    given: no gradient, black fill. *)
Definition no_gradient : M st unit :=
  state (GraphicsState.set_gradient None) ;;
  fill (PInt 0) PNone PNone (PInt 1).

Definition linearGradient (startPoint endPoint colors locations : pyval) : M st unit :=
  if Py.is_None startPoint then no_gradient
  else
    g <- _gradientClass "linear" startPoint endPoint colors locations PNone PNone ;;
    state (GraphicsState.set_gradient (Some g)) ;;
    fill PNone PNone PNone (PInt 1).

Definition radialGradient
    (startPoint endPoint colors locations startRadius endRadius : pyval) : M st unit :=
  if Py.is_None startPoint then no_gradient
  else
    g <- _gradientClass "radial" startPoint endPoint colors locations
           startRadius endRadius ;;
    state (GraphicsState.set_gradient (Some g)) ;;
    fill PNone PNone PNone (PInt 1).

(** [[cmyk2rgb(color[0], ...) for color in colors]] and
    [[self._cmykColorClass( *color) for color in colors]]. *)
Definition rgbColors_of (colors : pyval) : outcome pyval :=
  outcome_bind (Py.items colors) (fun cs =>
  outcome_bind (mapM_outcome cmyk2rgb_of cs) (fun l => Returned (PList l))).

Definition cmykColors_of (colors : pyval) : outcome (list CMYKColor.t) :=
  outcome_bind (Py.items colors) (mapM_outcome _cmykColorClass_of).

Definition set_cmykColors (ks : list CMYKColor.t) (g : Gradient.t) : Gradient.t :=
  {| Gradient.gradientType := Gradient.gradientType g;
     Gradient.colors := Gradient.colors g;
     Gradient.cmykColors := Some ks;
     Gradient.positions := Gradient.positions g;
     Gradient.start := Gradient.start g;
     Gradient.end_ := Gradient.end_ g;
     Gradient.startRadius := Gradient.startRadius g;
     Gradient.endRadius := Gradient.endRadius g |}.

Definition cmykLinearGradient (startPoint endPoint colors locations : pyval)
  : M st unit :=
  if Py.is_None startPoint then no_gradient
  else
    rgbColors <- lift (rgbColors_of colors) ;;
    g <- _gradientClass "linear" startPoint endPoint rgbColors locations PNone PNone ;;
    state (GraphicsState.set_gradient (Some g)) ;;
    ks <- lift (cmykColors_of colors) ;;
    state (GraphicsState.set_gradient (Some (set_cmykColors ks g))) ;;
    fill PNone PNone PNone (PInt 1).

Definition cmykRadialGradient
    (startPoint endPoint colors locations startRadius endRadius : pyval) : M st unit :=
  if Py.is_None startPoint then no_gradient
  else
    rgbColors <- lift (rgbColors_of colors) ;;
    g <- _gradientClass "radial" startPoint endPoint rgbColors locations
           startRadius endRadius ;;
    state (GraphicsState.set_gradient (Some g)) ;;
    ks <- lift (cmykColors_of colors) ;;
    state (GraphicsState.set_gradient (Some (set_cmykColors ks g))) ;;
    fill PNone PNone PNone (PInt 1).

End Misc.

(** *** Stroke attributes *)

Definition strokeWidth (value : pyval) : M st unit :=
  text (FormattedString.strokeWidth value) ;;
  state (GraphicsState.set_strokeWidth value).

Definition miterLimit (value : pyval) : M st unit :=
  state (GraphicsState.set_miterLimit value).

(** [lineJoin] and [lineCap]: the branch for [None] assigns and falls
    through to the membership test. *)
Definition lineJoin (join : pyval) : M st unit :=
  (if Py.is_None join then state (GraphicsState.set_lineJoin None) else ret tt) ;;
  if negb (Py.hashable join) then raise (TypeError "unhashable type")
  else match _LINEJOINSTYLESMAP join with
       | None => raise (DrawBotError "lineJoin() argument must be 'bevel', 'miter' or 'round'")
       | Some j => state (GraphicsState.set_lineJoin (Some j))
       end.

Definition lineCap (cap : pyval) : M st unit :=
  (if Py.is_None cap then state (GraphicsState.set_lineCap None) else ret tt) ;;
  if negb (Py.hashable cap) then raise (TypeError "unhashable type")
  else match _LINECAPSTYLESMAP cap with
       | None => raise (DrawBotError "lineCap() argument must be 'butt', 'square' or 'round'")
       | Some j => state (GraphicsState.set_lineCap (Some j))
       end.

Definition lineDash (dash offset : pyval) : M st unit :=
  first <- lift (Py.getitem dash 0) ;;
  if Py.is_None first then state (GraphicsState.set_lineDash None)
  else
    items <- lift (Py.items dash) ;;
    state (GraphicsState.set_lineDash (Some items)) ;;
    state (GraphicsState.set_lineDashOffset offset).

(** [transform] only calls the hook [_transform]. *)
Definition transform (matrix : pyval) : M st unit := ret tt.

(** *** Text attributes *)

Definition fontSize (fontSize : pyval) : M st unit :=
  text (FormattedString.fontSize fontSize).
Definition lineHeight (lineHeight : pyval) : M st unit :=
  text (FormattedString.lineHeight lineHeight).
Definition tracking (tracking : pyval) : M st unit :=
  text (FormattedString.tracking tracking).
Definition baselineShift (baselineShift : pyval) : M st unit :=
  text (FormattedString.baselineShift baselineShift).
Definition underline (underline : pyval) : M st unit :=
  text (FormattedString.underline underline).
Definition strikethrough (strikethrough : pyval) : M st unit :=
  text (FormattedString.strikethrough strikethrough).
Definition url (value : pyval) : M st unit :=
  text (FormattedString.url value).
Definition hyphenation (value : pyval) : M st unit :=
  state (GraphicsState.set_hyphenation value).
Definition tabs (tabs : list pyval) : M st unit :=
  text (FormattedString.method FormattedString.K_tabs tabs).
Definition writingDirection (direction : pyval) : M st unit :=
  text (FormattedString.writingDirection direction).

End BaseContext.

(** ** Looking a method up by name

    [getattr(context, callback)] followed by the call with the recorded
    positional and keyword arguments.  [attribute] names the embedded
    methods of [BaseContext]; a name outside them finds no attribute here. *)

Inductive attribute :=
| m_size | m_newPage | m_save | m_restore | m_rect | m_oval | m_newPath
| m_moveTo | m_lineTo | m_curveTo | m_arc | m_arcTo | m_closePath
| m_drawPath | m_clipPath | m_colorSpace | m_blendMode | m_opacity
| m_fill | m_stroke | m_cmykFill | m_cmykStroke | m_shadow | m_cmykShadow
| m_linearGradient | m_cmykLinearGradient | m_radialGradient
| m_cmykRadialGradient | m_strokeWidth | m_miterLimit | m_lineJoin
| m_lineCap | m_lineDash | m_transform | m_fontSize | m_lineHeight
| m_tracking | m_baselineShift | m_underline | m_strikethrough | m_url
| m_hyphenation | m_tabs | m_writingDirection.

#[global] Instance attribute_eq_dec : EqDecision attribute.
Proof. solve_decision. Defined.

Definition attribute_of_name (name : string) : option attribute :=
  match name with
  | "size" => Some m_size
  | "newPage" => Some m_newPage
  | "save" => Some m_save
  | "restore" => Some m_restore
  | "rect" => Some m_rect
  | "oval" => Some m_oval
  | "newPath" => Some m_newPath
  | "moveTo" => Some m_moveTo
  | "lineTo" => Some m_lineTo
  | "curveTo" => Some m_curveTo
  | "arc" => Some m_arc
  | "arcTo" => Some m_arcTo
  | "closePath" => Some m_closePath
  | "drawPath" => Some m_drawPath
  | "clipPath" => Some m_clipPath
  | "colorSpace" => Some m_colorSpace
  | "blendMode" => Some m_blendMode
  | "opacity" => Some m_opacity
  | "fill" => Some m_fill
  | "stroke" => Some m_stroke
  | "cmykFill" => Some m_cmykFill
  | "cmykStroke" => Some m_cmykStroke
  | "shadow" => Some m_shadow
  | "cmykShadow" => Some m_cmykShadow
  | "linearGradient" => Some m_linearGradient
  | "cmykLinearGradient" => Some m_cmykLinearGradient
  | "radialGradient" => Some m_radialGradient
  | "cmykRadialGradient" => Some m_cmykRadialGradient
  | "strokeWidth" => Some m_strokeWidth
  | "miterLimit" => Some m_miterLimit
  | "lineJoin" => Some m_lineJoin
  | "lineCap" => Some m_lineCap
  | "lineDash" => Some m_lineDash
  | "transform" => Some m_transform
  | "fontSize" => Some m_fontSize
  | "lineHeight" => Some m_lineHeight
  | "tracking" => Some m_tracking
  | "baselineShift" => Some m_baselineShift
  | "underline" => Some m_underline
  | "strikethrough" => Some m_strikethrough
  | "url" => Some m_url
  | "hyphenation" => Some m_hyphenation
  | "tabs" => Some m_tabs
  | "writingDirection" => Some m_writingDirection
  | _ => None
  end.

Definition method : Type := list pyval -> Py.kwargs -> M BaseContext.st unit.

Definition required (names : list string) : list (string * option pyval) :=
  map (fun n => (n, None)) names.
Definition optional (names : list string) (d : pyval) : list (string * option pyval) :=
  map (fun n => (n, Some d)) names.

(** A method with named parameters: the arguments are bound first, then the
    body runs. *)
Definition def (params : list (string * option pyval))
    (body : list pyval -> option (M BaseContext.st unit)) : method :=
  fun args kw =>
    match Py.bind_params params args kw with
    | Raised e => raise e
    | Returned vs =>
        match body vs with
        | Some m => m
        | None => raise (TypeError "wrong number of arguments")
        end
    end.

Definition def0 (m : M BaseContext.st unit) : method :=
  def [] (fun _ => Some m).
Definition def1 (name : string) (f : pyval -> M BaseContext.st unit) : method :=
  def (required [name]) (fun vs => match vs with [v] => Some (f v) | _ => None end).
Definition def4 (params : list (string * option pyval))
    (f : pyval -> pyval -> pyval -> pyval -> M BaseContext.st unit) : method :=
  def params (fun vs => match vs with [a; b; c; d] => Some (f a b c d) | _ => None end).

Definition rgb_params (first : string) : list (string * option pyval) :=
  required [first] ++ optional ["g"; "b"] PNone ++ optional ["a"] (PInt 1).
Definition cmyk_params : list (string * option pyval) :=
  required ["c"; "m"; "y"; "k"] ++ optional ["a"] (PInt 1).
Definition gradient_params : list (string * option pyval) :=
  optional ["startPoint"; "endPoint"; "colors"; "locations"] PNone.
Definition radial_params : list (string * option pyval) :=
  gradient_params ++ optional ["startRadius"] (PInt 0) ++ optional ["endRadius"] (PInt 100).

Section BaseContextMethods.

Variable cmyk2rgb : pyval -> pyval -> pyval -> pyval -> pyval * pyval * pyval.

(** The bound method, with the parameters of its [def]. *)
Definition bound (a : attribute) : method :=
  match a with
  | m_size =>
      def (optional ["width"; "height"] PNone) (fun vs =>
        match vs with [w; h] => Some (BaseContext.size w h) | _ => None end)
  | m_newPage =>
      def (optional ["width"; "height"] PNone) (fun vs =>
        match vs with [w; h] => Some (BaseContext.newPage w h) | _ => None end)
  | m_save =>
      def0 BaseContext.save
  | m_restore =>
      def0 BaseContext.restore
  | m_rect =>
      def4 (required ["x"; "y"; "w"; "h"]) BaseContext.rect
  | m_oval =>
      def4 (required ["x"; "y"; "w"; "h"]) BaseContext.oval
  | m_newPath =>
      def0 BaseContext.newPath
  | m_moveTo =>
      def1 "pt" BaseContext.moveTo
  | m_lineTo =>
      def1 "pt" BaseContext.lineTo
  | m_curveTo =>
      def (required ["pt1"; "pt2"; "pt"]) (fun vs =>
        match vs with [a; b; c] => Some (BaseContext.curveTo a b c) | _ => None end)
  | m_arc =>
      def (required ["center"; "radius"; "startAngle"; "endAngle"; "clockwise"]) (fun vs =>
        match vs with
        | [a; b; c; d; e] => Some (BaseContext.arc a b c d e)
        | _ => None
        end)
  | m_arcTo =>
      def (required ["pt1"; "pt2"; "radius"]) (fun vs =>
        match vs with [a; b; c] => Some (BaseContext.arcTo a b c) | _ => None end)
  | m_closePath =>
      def0 BaseContext.closePath
  | m_drawPath =>
      def1 "path" BaseContext.drawPath
  | m_clipPath =>
      def1 "path" BaseContext.clipPath
  | m_colorSpace =>
      def1 "colorSpace" BaseContext.colorSpace
  | m_blendMode =>
      def1 "operation" BaseContext.blendMode
  | m_opacity =>
      def1 "value" BaseContext.opacity
  | m_fill =>
      def4 (rgb_params "r") BaseContext.fill
  | m_stroke =>
      def4 (rgb_params "r") BaseContext.stroke
  | m_cmykFill =>
      def cmyk_params (fun vs =>
        match vs with
        | [c; m; y; k; a] => Some (BaseContext.cmykFill cmyk2rgb c m y k a)
        | _ => None
        end)
  | m_cmykStroke =>
      def cmyk_params (fun vs =>
        match vs with
        | [c; m; y; k; a] => Some (BaseContext.cmykStroke cmyk2rgb c m y k a)
        | _ => None
        end)
  | m_shadow =>
      def (required ["offset"; "blur"; "color"]) (fun vs =>
        match vs with [a; b; c] => Some (BaseContext.shadow a b c) | _ => None end)
  | m_cmykShadow =>
      def (required ["offset"; "blur"; "color"]) (fun vs =>
        match vs with
        | [a; b; c] => Some (BaseContext.cmykShadow cmyk2rgb a b c)
        | _ => None
        end)
  | m_linearGradient =>
      def4 gradient_params BaseContext.linearGradient
  | m_cmykLinearGradient =>
      def4 gradient_params (BaseContext.cmykLinearGradient cmyk2rgb)
  | m_radialGradient =>
      def radial_params (fun vs =>
        match vs with
        | [a; b; c; d; e; f] => Some (BaseContext.radialGradient a b c d e f)
        | _ => None
        end)
  | m_cmykRadialGradient =>
      def radial_params (fun vs =>
        match vs with
        | [a; b; c; d; e; f] =>
            Some (BaseContext.cmykRadialGradient cmyk2rgb a b c d e f)
        | _ => None
        end)
  | m_strokeWidth =>
      def1 "value" BaseContext.strokeWidth
  | m_miterLimit =>
      def1 "value" BaseContext.miterLimit
  | m_lineJoin =>
      def1 "join" BaseContext.lineJoin
  | m_lineCap =>
      def1 "cap" BaseContext.lineCap
  | m_lineDash =>
      def (required ["dash"; "offset"]) (fun vs =>
        match vs with [d; o] => Some (BaseContext.lineDash d o) | _ => None end)
  | m_transform =>
      def1 "matrix" BaseContext.transform
  | m_fontSize =>
      def1 "fontSize" BaseContext.fontSize
  | m_lineHeight =>
      def1 "lineHeight" BaseContext.lineHeight
  | m_tracking =>
      def1 "tracking" BaseContext.tracking
  | m_baselineShift =>
      def1 "baselineShift" BaseContext.baselineShift
  | m_underline =>
      def1 "underline" BaseContext.underline
  | m_strikethrough =>
      def1 "strikethrough" BaseContext.strikethrough
  | m_url =>
      def1 "value" BaseContext.url
  | m_hyphenation =>
      def1 "value" BaseContext.hyphenation
  | m_tabs =>
      fun args kw =>
        match kw with
        | [] => BaseContext.tabs args
        | _ :: _ => raise (TypeError "got an unexpected keyword argument")
        end
  | m_writingDirection =>
      def1 "direction" BaseContext.writingDirection
  end.

Definition BaseContext_getattr (name : string) : option method :=
  bound <$> attribute_of_name name.

End BaseContextMethods.

(** ** DrawBotDrawingTool: the instruction recorder *)

(** [_paperSizes]: the table as written, then the landscape variant the
    module adds for each entry.  The key "screen", which [sizes()] adds on
    demand, is not in it. *)
Definition _paperSizes_portrait : list (string * (Z * Z)) :=
  [("Letter", (612, 792)); ("LetterSmall", (612, 792)); ("Tabloid", (792, 1224));
   ("Ledger", (1224, 792)); ("Legal", (612, 1008)); ("Statement", (396, 612));
   ("Executive", (540, 720)); ("A0", (2384, 3371)); ("A1", (1685, 2384));
   ("A2", (1190, 1684)); ("A3", (842, 1190)); ("A4", (595, 842));
   ("A4Small", (595, 842)); ("A5", (420, 595)); ("B4", (729, 1032));
   ("B5", (516, 729)); ("Folio", (612, 936)); ("Quarto", (610, 780));
   ("10x14", (720, 1008))]%Z.

Definition _paperSizes_table : list (string * (Z * Z)) :=
  _paperSizes_portrait ++
  map (fun '(key, (w, h)) => ((key ++ "Landscape")%string, (h, w))) _paperSizes_portrait.

Definition _paperSizes (key : string) : option (Z * Z) :=
  snd <$> find (fun kv => String.eqb (fst kv) key) _paperSizes_table.

(** The keys of [BaseContext._blendModeMap]. *)
Definition _blendModeMap_keys : list string :=
  ["normal"; "multiply"; "screen"; "overlay"; "darken"; "lighten"; "colorDodge";
   "colorBurn"; "softLight"; "hardLight"; "difference"; "exclusion"; "hue";
   "saturation"; "color"; "luminosity"; "clear"; "copy"; "sourceIn"; "sourceOut";
   "sourceAtop"; "destinationOver"; "destinationIn"; "destinationOut";
   "destinationAtop"; "xOR"; "plusDarker"; "plusLighter"].

Module DrawBotDrawingTool.

(** A recorded call: [(callback, args, kwargs)]. *)
Definition instruction : Type := string * list pyval * Py.kwargs.

Record t := {
  _instructionsStack : list (list instruction);
  _dummyContext : BaseContext.t;
  _width : pyval;
  _height : pyval;
  _requiresNewFirstPage : bool;
  _hasPage : bool;
  _isSinglePage : bool
}.

Definition set__instructionsStack (v : list (list instruction)) (d : t) : t :=
  Build_t v (_dummyContext d) (_width d) (_height d) (_requiresNewFirstPage d)
    (_hasPage d) (_isSinglePage d).
Definition set__dummyContext (v : BaseContext.t) (d : t) : t :=
  Build_t (_instructionsStack d) v (_width d) (_height d) (_requiresNewFirstPage d)
    (_hasPage d) (_isSinglePage d).
Definition set__width (v : pyval) (d : t) : t :=
  Build_t (_instructionsStack d) (_dummyContext d) v (_height d)
    (_requiresNewFirstPage d) (_hasPage d) (_isSinglePage d).
Definition set__height (v : pyval) (d : t) : t :=
  Build_t (_instructionsStack d) (_dummyContext d) (_width d) v
    (_requiresNewFirstPage d) (_hasPage d) (_isSinglePage d).
Definition set__requiresNewFirstPage (v : bool) (d : t) : t :=
  Build_t (_instructionsStack d) (_dummyContext d) (_width d) (_height d) v
    (_hasPage d) (_isSinglePage d).
Definition set__hasPage (v : bool) (d : t) : t :=
  Build_t (_instructionsStack d) (_dummyContext d) (_width d) (_height d)
    (_requiresNewFirstPage d) v (_isSinglePage d).

(** The state a method runs on. *)
Definition st : Type := World * t.

Definition world {A} (m : M World A) : M st A :=
  zoom fst (fun w s => (w, snd s)) m.
Definition self {A} (m : M t A) : M st A :=
  zoom snd (fun d s => (fst s, d)) m.

(** A method of [self._dummyContext]. *)
Definition dummy {A} (m : M BaseContext.st A) : M st A :=
  zoom (fun s => (fst s, _dummyContext (snd s)))
       (fun wc s => (fst wc, set__dummyContext (snd wc) (snd s))) m.

(** Modelled from the spec: the class [DummyContext] of
    [drawBot/context/dummyContext.py] is not among the sources; the spec
    describes the dummy context as a non-recording graphics-state stack, that
    is a [BaseContext] whose hooks do nothing. *)
Definition DummyContext : World -> BaseContext.t * World := BaseContext.__init__.

(** [_reset()] without [other], as a constructor of the attributes it
    assigns; [__init__] then sets [_isSinglePage].  The table
    [_tempInstalledFonts], which a later [_reset()] keeps, and the caches
    belong to the font and image services and are not embedded. *)
Definition __init__ (w : World) : t * World :=
  let (c, w') := DummyContext w in
  ({| _instructionsStack := [];
      _dummyContext := c;
      _width := PNone;
      _height := PNone;
      _requiresNewFirstPage := false;
      _hasPage := false;
      _isSinglePage := false |}, w').

Definition _reset : M st unit :=
  self (modify (set__instructionsStack [])) ;;
  c <- world (total DummyContext) ;;
  self (modify (set__dummyContext c)) ;;
  self (modify (set__width PNone)) ;;
  self (modify (set__height PNone)) ;;
  self (modify (set__requiresNewFirstPage false)) ;;
  self (modify (set__hasPage false)).

Definition newDrawing : M st unit := _reset.

(** *** Magic variables *)

Definition width (d : t) : pyval :=
  if Py.is_None (_width d) then PInt 1000 else _width d.

Definition height (d : t) : pyval :=
  if Py.is_None (_height d) then PInt 1000 else _height d.

Definition pageCount (d : t) : nat := length (_instructionsStack d).

(** *** Recording *)

(** [self._instructionsStack[-1]] updated in place; on an empty list the
    index is out of range. *)
Definition last_set (f : list instruction -> list instruction) : M st unit :=
  stack <- self (gets _instructionsStack) ;;
  match stack with
  | [] => raise (IndexError "list index out of range")
  | _ :: _ =>
      self (modify (set__instructionsStack (alter f (length stack - 1) stack)))
  end.

Definition is_newPage (i : instruction) : bool :=
  String.eqb (fst (fst i)) "newPage".

Definition _addInstruction (callback : string) (args : list pyval) (kw : Py.kwargs)
  : M st unit :=
  (if String.eqb callback "newPage"
   then self (modify (fun d => set__instructionsStack (_instructionsStack d ++ [[]]) d))
   else ret tt) ;;
  stack <- self (gets _instructionsStack) ;;
  (match stack with
   | [] => self (modify (fun d => set__instructionsStack (_instructionsStack d ++ [[]]) d))
   | _ :: _ => ret tt
   end) ;;
  d <- self get ;;
  (if _requiresNewFirstPage d && negb (_hasPage d)
   then
     self (modify (set__hasPage true)) ;;
     d' <- self get ;;
     last_set (fun g => ("newPage", [width d'; height d'], []) :: g)
   else ret tt) ;;
  last_set (fun g => g ++ [(callback, args, kw)]).

(** [_drawInContext]: every recorded call, in order, looked up by name on
    the context and applied; the first call that raises ends the replay. *)
Definition _drawInContext {B}
    (getattr : string -> option (list pyval -> Py.kwargs -> M (World * B) unit))
    (d : t) : M (World * B) unit :=
  forM_ (_instructionsStack d) (fun instructionSet =>
    forM_ instructionSet (fun '(callback, args, kw) =>
      match getattr callback with
      | Some attr => attr args kw
      | None => raise (AttributeError callback)
      end)).

(** [pages()]: the instruction sets that hold a "newPage" call, each of which
    the source wraps in a [DrawBotPage]. *)
Definition pages (d : t) : list (list instruction) :=
  filter (fun instructionSet => existsb is_newPage instructionSet)
    (_instructionsStack d).

(** *** Public callbacks *)

Definition requiresNewFirstPage : M st unit :=
  self (modify (set__requiresNewFirstPage true)).

(** The pattern of most drawing callbacks: raise the flag, record. *)
Definition record (callback : string) (args : list pyval) : M st unit :=
  requiresNewFirstPage ;;
  _addInstruction callback args [].

Section Externals.

(** [AppKit.NSScreen.mainScreen().frame().size] and
    [drawBot.misc.transformationAtCenter] are not part of the sources at
    hand. *)
Variable mainScreen_size : pyval * pyval.
Variable transformationAtCenter : pyval -> pyval -> pyval.

(** The first two statements on [width] and [height] that [size] and
    [newPage] share: a paper-size name, then "screen". *)
Definition named_size (width height : pyval) : outcome (pyval * pyval) :=
  if negb (Py.hashable width) then Raised (TypeError "unhashable type")
  else
    let wh :=
      match width with
      | PStr name =>
          match _paperSizes name with
          | Some (w, h) => (PInt w, PInt h)
          | None => (width, height)
          end
      | _ => (width, height)
      end in
    if Py.eqb (fst wh) (PStr "screen") then Returned mainScreen_size
    else Returned wh.

Definition newPage (width height : pyval) : M st unit :=
  d <- self get ;;
  if _isSinglePage d
  then raise (DrawBotError "Cannot add a 'newPage' into a single page.")
  else
    wh <- lift (named_size width height) ;;
    let wh := if Py.is_None (fst wh) && Py.is_None (snd wh)
              then (DrawBotDrawingTool.width d, DrawBotDrawingTool.height d)
              else wh in
    self (modify (set__width (fst wh))) ;;
    self (modify (set__height (snd wh))) ;;
    self (modify (set__hasPage true)) ;;
    c <- world (total DummyContext) ;;
    self (modify (set__dummyContext c)) ;;
    _addInstruction "newPage" [fst wh; snd wh] [].

Definition size (width height : pyval) : M st unit :=
  d <- self get ;;
  if _isSinglePage d
  then raise (DrawBotError "Cannot set 'size' into a single page.")
  else
    wh <- lift (named_size width height) ;;
    let wh := if Py.is_None (snd wh) && Py.is_float (fst wh)
              then (fst wh, fst wh)
              else wh in
    self (modify (set__width (fst wh))) ;;
    self (modify (set__height (snd wh))) ;;
    match _instructionsStack d with
    | [] => newPage (fst wh) (snd wh)
    | _ :: _ =>
        raise (DrawBotError
          "Can't use 'size()' after drawing has begun. Try to move it to the top of your script.")
    end.

(** Graphics state. *)

Definition save : M st unit :=
  dummy BaseContext.save ;;
  requiresNewFirstPage ;;
  _addInstruction "save" [] [].

Definition restore : M st unit :=
  dummy BaseContext.restore ;;
  requiresNewFirstPage ;;
  _addInstruction "restore" [] [].

(** Shapes and paths. *)

Definition rect (x y w h : pyval) : M st unit := record "rect" [x; y; w; h].
Definition oval (x y w h : pyval) : M st unit := record "oval" [x; y; w; h].
Definition newPath : M st unit := record "newPath" [].

Definition point (xy : pyval) : M st pyval :=
  p <- lift (Py.unpack2 xy) ;;
  ret (PTuple [fst p; snd p]).

Definition moveTo (xy : pyval) : M st unit :=
  p <- point xy ;; record "moveTo" [p].
Definition lineTo (xy : pyval) : M st unit :=
  p <- point xy ;; record "lineTo" [p].
Definition curveTo (xy1 xy2 xy3 : pyval) : M st unit :=
  p1 <- point xy1 ;; p2 <- point xy2 ;; p3 <- point xy3 ;;
  record "curveTo" [p1; p2; p3].
Definition arc (center radius startAngle endAngle clockwise : pyval) : M st unit :=
  record "arc" [center; radius; startAngle; endAngle; clockwise].
Definition arcTo (xy1 xy2 radius : pyval) : M st unit :=
  p1 <- point xy1 ;; p2 <- point xy2 ;;
  record "arcTo" [p1; p2; radius].
Definition closePath : M st unit := record "closePath" [].

(** [drawPath] records a copy of a [BezierPath] argument; [clipPath] records
    the argument itself. *)
Definition drawPath (path : pyval) : M st unit :=
  path <- (match path with
           | PPath l => l' <- world (copy_path l) ;; ret (PPath l')
           | _ => ret path
           end) ;;
  record "drawPath" [path].

Definition clipPath (path : pyval) : M st unit := record "clipPath" [path].

(** Colour. *)

Definition colorSpace (colorSpace : pyval) : M st unit :=
  record "colorSpace" [colorSpace].

Definition blendMode (operation : pyval) : M st unit :=
  if negb (Py.hashable operation) then raise (TypeError "unhashable type")
  else if negb (match operation with
                | PStr s => existsb (String.eqb s) _blendModeMap_keys
                | _ => false
                end)
  then raise (DrawBotError "blend mode must be %s")
  else record "blendMode" [operation].

Definition fill (r g b alpha : pyval) : M st unit :=
  record "fill" [r; g; b; alpha].
Definition stroke (r g b alpha : pyval) : M st unit :=
  record "stroke" [r; g; b; alpha].
Definition cmykFill (c m y k alpha : pyval) : M st unit :=
  record "cmykFill" [c; m; y; k; alpha].
Definition cmykStroke (c m y k alpha : pyval) : M st unit :=
  record "cmykStroke" [c; m; y; k; alpha].
Definition opacity (value : pyval) : M st unit := record "opacity" [value].

Definition shadow (offset blur color : pyval) : M st unit :=
  let color := if Py.is_None color then PTuple [PInt 0; PInt 0; PInt 0] else color in
  let blur := if Py.is_None blur then PInt 10 else blur in
  record "shadow" [offset; blur; color].

Definition cmykShadow (offset blur color : pyval) : M st unit :=
  let color := if Py.is_None color
               then PTuple [PInt 0; PInt 0; PInt 0; PInt 1; PInt 1] else color in
  let blur := if Py.is_None blur then PInt 10 else blur in
  record "cmykShadow" [offset; blur; color].

Definition linearGradient (startPoint endPoint colors locations : pyval) : M st unit :=
  record "linearGradient" [startPoint; endPoint; colors; locations].
Definition cmykLinearGradient (startPoint endPoint colors locations : pyval)
  : M st unit :=
  record "cmykLinearGradient" [startPoint; endPoint; colors; locations].
Definition radialGradient
    (startPoint endPoint colors locations startRadius endRadius : pyval) : M st unit :=
  record "radialGradient"
    [startPoint; endPoint; colors; locations; startRadius; endRadius].
Definition cmykRadialGradient
    (startPoint endPoint colors locations startRadius endRadius : pyval) : M st unit :=
  record "cmykRadialGradient"
    [startPoint; endPoint; colors; locations; startRadius; endRadius].

(** Stroke attributes. *)

Definition strokeWidth (value : pyval) : M st unit := record "strokeWidth" [value].
Definition miterLimit (value : pyval) : M st unit := record "miterLimit" [value].
Definition lineJoin (value : pyval) : M st unit := record "lineJoin" [value].
Definition lineCap (value : pyval) : M st unit := record "lineCap" [value].

(** [lineDash(value, *values, offset=0)]: the further values count only
    after a number. *)
Definition lineDash (value : pyval) (values : list pyval) (offset : pyval)
  : M st unit :=
  let combinedDashes :=
    match value with
    | PInt _ | PFloat _ | PBool _ => value :: values
    | _ => [value]
    end in
  record "lineDash" [PList combinedDashes; offset].

(** Transformations. *)

Definition transform (matrix center : pyval) : M st unit :=
  requiresNewFirstPage ;;
  let matrix := if negb (Py.eqb center (PTuple [PInt 0; PInt 0]))
                then transformationAtCenter matrix center
                else matrix in
  _addInstruction "transform" [matrix] [].

Definition translate (x y : pyval) : M st unit :=
  transform (PTuple [PInt 1; PInt 0; PInt 0; PInt 1; x; y]) (PTuple [PInt 0; PInt 0]).

Definition scale (x y center : pyval) : M st unit :=
  let y := if Py.is_None y then x else y in
  transform (PTuple [x; PInt 0; PInt 0; y; PInt 0; PInt 0]) center.

(** Text attributes: the call is tried on the dummy context first and
    recorded when that returns; these callbacks do not raise the flag. *)

Definition fontSize (fontSize : pyval) : M st unit :=
  dummy (BaseContext.fontSize fontSize) ;;
  _addInstruction "fontSize" [fontSize] [].
Definition lineHeight (value : pyval) : M st unit :=
  dummy (BaseContext.lineHeight value) ;;
  _addInstruction "lineHeight" [value] [].
Definition tracking (value : pyval) : M st unit :=
  dummy (BaseContext.tracking value) ;;
  _addInstruction "tracking" [value] [].
Definition baselineShift (value : pyval) : M st unit :=
  dummy (BaseContext.baselineShift value) ;;
  _addInstruction "baselineShift" [value] [].
Definition underline (value : pyval) : M st unit :=
  dummy (BaseContext.underline value) ;;
  _addInstruction "underline" [value] [].
Definition strikethrough (value : pyval) : M st unit :=
  dummy (BaseContext.strikethrough value) ;;
  _addInstruction "strikethrough" [value] [].
Definition url (value : pyval) : M st unit :=
  dummy (BaseContext.url value) ;;
  _addInstruction "url" [value] [].

(** [hyphenation] also calls [_checkLanguageHyphenation], which only warns. *)
Definition hyphenation (value : pyval) : M st unit :=
  dummy (BaseContext.hyphenation value) ;;
  _addInstruction "hyphenation" [value] [].

Definition tabs (tabs : list pyval) : M st unit :=
  match tabs with
  | PNone :: _ =>
      dummy (BaseContext.tabs [PNone]) ;;
      _addInstruction "tabs" [PNone] []
  | _ =>
      dummy (BaseContext.tabs tabs) ;;
      _addInstruction "tabs" tabs []
  end.

Definition writingDirection (direction : pyval) : M st unit :=
  dummy (BaseContext.writingDirection direction) ;;
  _addInstruction "writingDirection" [direction] [].

End Externals.

End DrawBotDrawingTool.

(** ** Scripts

    What a user program does with the drawing tool: a sequence of public
    callbacks.  A script may catch the error of a call and go on, so [run]
    continues from the state the failed call left behind; the state in which
    an uncaught error ends a script is that of the calls made so far. *)

Module Script.

Inductive call :=
| NewPage (width height : pyval)
| Size (width height : pyval)
| Save
| Restore
| Rect (x y w h : pyval)
| Oval (x y w h : pyval)
| NewPath
| MoveTo (xy : pyval)
| LineTo (xy : pyval)
| CurveTo (xy1 xy2 xy3 : pyval)
| Arc (center radius startAngle endAngle clockwise : pyval)
| ArcTo (xy1 xy2 radius : pyval)
| ClosePath
| DrawPath (path : pyval)
| ClipPath (path : pyval)
| ColorSpace (colorSpace : pyval)
| BlendMode (operation : pyval)
| Fill (r g b alpha : pyval)
| Stroke (r g b alpha : pyval)
| CmykFill (c m y k alpha : pyval)
| CmykStroke (c m y k alpha : pyval)
| Opacity (value : pyval)
| Shadow (offset blur color : pyval)
| CmykShadow (offset blur color : pyval)
| LinearGradient (startPoint endPoint colors locations : pyval)
| CmykLinearGradient (startPoint endPoint colors locations : pyval)
| RadialGradient (startPoint endPoint colors locations startRadius endRadius : pyval)
| CmykRadialGradient (startPoint endPoint colors locations startRadius endRadius : pyval)
| StrokeWidth (value : pyval)
| MiterLimit (value : pyval)
| LineJoin (value : pyval)
| LineCap (value : pyval)
| LineDash (value : pyval) (values : list pyval) (offset : pyval)
| Transform (matrix center : pyval)
| Translate (x y : pyval)
| Scale (x y center : pyval)
| FontSize (fontSize : pyval)
| LineHeight (value : pyval)
| Tracking (value : pyval)
| BaselineShift (value : pyval)
| Underline (value : pyval)
| Strikethrough (value : pyval)
| Url (value : pyval)
| Hyphenation (value : pyval)
| Tabs (tabs : list pyval)
| WritingDirection (direction : pyval).

Section Run.

Variable mainScreen_size : pyval * pyval.
Variable transformationAtCenter : pyval -> pyval -> pyval.

Definition exec (c : call) : M DrawBotDrawingTool.st unit :=
  match c with
  | NewPage w h => DrawBotDrawingTool.newPage mainScreen_size w h
  | Size w h => DrawBotDrawingTool.size mainScreen_size w h
  | Save => DrawBotDrawingTool.save
  | Restore => DrawBotDrawingTool.restore
  | Rect x y w h => DrawBotDrawingTool.rect x y w h
  | Oval x y w h => DrawBotDrawingTool.oval x y w h
  | NewPath => DrawBotDrawingTool.newPath
  | MoveTo xy => DrawBotDrawingTool.moveTo xy
  | LineTo xy => DrawBotDrawingTool.lineTo xy
  | CurveTo a b c => DrawBotDrawingTool.curveTo a b c
  | Arc a b c d e => DrawBotDrawingTool.arc a b c d e
  | ArcTo a b c => DrawBotDrawingTool.arcTo a b c
  | ClosePath => DrawBotDrawingTool.closePath
  | DrawPath p => DrawBotDrawingTool.drawPath p
  | ClipPath p => DrawBotDrawingTool.clipPath p
  | ColorSpace v => DrawBotDrawingTool.colorSpace v
  | BlendMode v => DrawBotDrawingTool.blendMode v
  | Fill r g b a => DrawBotDrawingTool.fill r g b a
  | Stroke r g b a => DrawBotDrawingTool.stroke r g b a
  | CmykFill c m y k a => DrawBotDrawingTool.cmykFill c m y k a
  | CmykStroke c m y k a => DrawBotDrawingTool.cmykStroke c m y k a
  | Opacity v => DrawBotDrawingTool.opacity v
  | Shadow a b c => DrawBotDrawingTool.shadow a b c
  | CmykShadow a b c => DrawBotDrawingTool.cmykShadow a b c
  | LinearGradient a b c d => DrawBotDrawingTool.linearGradient a b c d
  | CmykLinearGradient a b c d => DrawBotDrawingTool.cmykLinearGradient a b c d
  | RadialGradient a b c d e f => DrawBotDrawingTool.radialGradient a b c d e f
  | CmykRadialGradient a b c d e f => DrawBotDrawingTool.cmykRadialGradient a b c d e f
  | StrokeWidth v => DrawBotDrawingTool.strokeWidth v
  | MiterLimit v => DrawBotDrawingTool.miterLimit v
  | LineJoin v => DrawBotDrawingTool.lineJoin v
  | LineCap v => DrawBotDrawingTool.lineCap v
  | LineDash v vs o => DrawBotDrawingTool.lineDash v vs o
  | Transform m c => DrawBotDrawingTool.transform transformationAtCenter m c
  | Translate x y => DrawBotDrawingTool.translate transformationAtCenter x y
  | Scale x y c => DrawBotDrawingTool.scale transformationAtCenter x y c
  | FontSize v => DrawBotDrawingTool.fontSize v
  | LineHeight v => DrawBotDrawingTool.lineHeight v
  | Tracking v => DrawBotDrawingTool.tracking v
  | BaselineShift v => DrawBotDrawingTool.baselineShift v
  | Underline v => DrawBotDrawingTool.underline v
  | Strikethrough v => DrawBotDrawingTool.strikethrough v
  | Url v => DrawBotDrawingTool.url v
  | Hyphenation v => DrawBotDrawingTool.hyphenation v
  | Tabs vs => DrawBotDrawingTool.tabs vs
  | WritingDirection v => DrawBotDrawingTool.writingDirection v
  end.

Fixpoint run (cs : list call) (s : DrawBotDrawingTool.st) : DrawBotDrawingTool.st :=
  match cs with
  | [] => s
  | c :: r => run r (snd (exec c s))
  end.

(** Whether the call returns from this state. *)
Definition returns (c : call) (s : DrawBotDrawingTool.st) : bool :=
  match fst (exec c s) with
  | Returned _ => true
  | Raised _ => false
  end.

(** The number of calls of the script that return. *)
Fixpoint returned (cs : list call) (s : DrawBotDrawingTool.st) : nat :=
  match cs with
  | [] => 0%nat
  | c :: r => ((if returns c s then 1 else 0) + returned r (snd (exec c s)))%nat
  end.

(** A new drawing session: a new tool in the world as it is. *)
Definition session (w : World) : DrawBotDrawingTool.st :=
  let (d, w') := DrawBotDrawingTool.__init__ w in (w', d).

End Run.

End Script.

(** ** Vocabulary of the statements *)

(** [int] or [float], but not [bool]: a plain page dimension. *)
Definition is_number (v : pyval) : bool :=
  match v with PInt _ | PFloat _ => true | _ => false end.

Module Recorder.

Import DrawBotDrawingTool.

(** The page that [_addInstruction] makes up: [newPage] with the current
    [width()] and [height()]. *)
Definition synthetic (d : t) : instruction := ("newPage", [width d; height d], []).

(** The guard of the insertion. *)
Definition needs_first_page (d : t) : bool :=
  _requiresNewFirstPage d && negb (_hasPage d).

(** The stack after the first two statements of [_addInstruction]. *)
Definition opened (callback : string) (stack : list (list instruction))
  : list (list instruction) :=
  let stack := if String.eqb callback "newPage" then stack ++ [[]] else stack in
  match stack with [] => [[]] | _ :: _ => stack end.

(** The tool after [_addInstruction], as a function. *)
Definition added (callback : string) (args : list pyval) (kw : Py.kwargs) (d : t) : t :=
  let stack := opened callback (_instructionsStack d) in
  let i := (callback, args, kw) in
  if needs_first_page d
  then set__instructionsStack
         (alter (fun g => synthetic d :: g ++ [i]) (length stack - 1) stack)
         (set__hasPage true d)
  else set__instructionsStack (alter (fun g => g ++ [i]) (length stack - 1) stack) d.

(** All recorded instructions in replay order, and their number. *)
Definition instructions (d : t) : list instruction := concat (_instructionsStack d).
Definition instruction_count (d : t) : nat := length (instructions d).

(** "A page group whose first instruction is newPage". *)
Definition starts_with_newPage (g : list instruction) : bool :=
  match g with
  | i :: _ => is_newPage i
  | [] => false
  end.

(** The name under which a public callback records itself. *)
Definition callback (c : Script.call) : string :=
  match c with
  | Script.NewPage _ _ | Script.Size _ _ => "newPage"
  | Script.Save => "save"
  | Script.Restore => "restore"
  | Script.Rect _ _ _ _ => "rect"
  | Script.Oval _ _ _ _ => "oval"
  | Script.NewPath => "newPath"
  | Script.MoveTo _ => "moveTo"
  | Script.LineTo _ => "lineTo"
  | Script.CurveTo _ _ _ => "curveTo"
  | Script.Arc _ _ _ _ _ => "arc"
  | Script.ArcTo _ _ _ => "arcTo"
  | Script.ClosePath => "closePath"
  | Script.DrawPath _ => "drawPath"
  | Script.ClipPath _ => "clipPath"
  | Script.ColorSpace _ => "colorSpace"
  | Script.BlendMode _ => "blendMode"
  | Script.Fill _ _ _ _ => "fill"
  | Script.Stroke _ _ _ _ => "stroke"
  | Script.CmykFill _ _ _ _ _ => "cmykFill"
  | Script.CmykStroke _ _ _ _ _ => "cmykStroke"
  | Script.Opacity _ => "opacity"
  | Script.Shadow _ _ _ => "shadow"
  | Script.CmykShadow _ _ _ => "cmykShadow"
  | Script.LinearGradient _ _ _ _ => "linearGradient"
  | Script.CmykLinearGradient _ _ _ _ => "cmykLinearGradient"
  | Script.RadialGradient _ _ _ _ _ _ => "radialGradient"
  | Script.CmykRadialGradient _ _ _ _ _ _ => "cmykRadialGradient"
  | Script.StrokeWidth _ => "strokeWidth"
  | Script.MiterLimit _ => "miterLimit"
  | Script.LineJoin _ => "lineJoin"
  | Script.LineCap _ => "lineCap"
  | Script.LineDash _ _ _ => "lineDash"
  | Script.Transform _ _ | Script.Translate _ _ | Script.Scale _ _ _ => "transform"
  | Script.FontSize _ => "fontSize"
  | Script.LineHeight _ => "lineHeight"
  | Script.Tracking _ => "tracking"
  | Script.BaselineShift _ => "baselineShift"
  | Script.Underline _ => "underline"
  | Script.Strikethrough _ => "strikethrough"
  | Script.Url _ => "url"
  | Script.Hyphenation _ => "hyphenation"
  | Script.Tabs _ => "tabs"
  | Script.WritingDirection _ => "writingDirection"
  end.

(** The callbacks that start a page themselves. *)
Definition is_page_call (c : Script.call) : bool :=
  match c with
  | Script.NewPage _ _ | Script.Size _ _ => true
  | _ => false
  end.

(** The callbacks that set [_requiresNewFirstPage]: the drawing calls, as
    opposed to the page calls and to the text settings. *)
Definition is_drawing_call (c : Script.call) : bool :=
  match c with
  | Script.NewPage _ _ | Script.Size _ _
  | Script.FontSize _ | Script.LineHeight _ | Script.Tracking _
  | Script.BaselineShift _ | Script.Underline _ | Script.Strikethrough _
  | Script.Url _ | Script.Hyphenation _ | Script.Tabs _
  | Script.WritingDirection _ => false
  | _ => true
  end.

(** What a callback may have done to the tool by the time it records: the
    log is as it was; a page call has set [_hasPage], any other call has
    left it and the page size alone; a drawing call has raised the flag. *)
Record prepared (c : Script.call) (d d' : t) : Prop := {
  prep_stack : _instructionsStack d' = _instructionsStack d;
  prep_single : _isSinglePage d' = _isSinglePage d;
  prep_page :
    if is_page_call c then _hasPage d' = true
    else _hasPage d' = _hasPage d /\ _width d' = _width d /\ _height d' = _height d;
  prep_flag :
    if is_drawing_call c then _requiresNewFirstPage d' = true
    else _requiresNewFirstPage d' = _requiresNewFirstPage d
}.

(** What a callback that raises leaves behind: only a page call may have
    changed the page size. *)
Record untouched (c : Script.call) (d d' : t) : Prop := {
  unt_stack : _instructionsStack d' = _instructionsStack d;
  unt_single : _isSinglePage d' = _isSinglePage d;
  unt_page : _hasPage d' = _hasPage d;
  unt_flag : _requiresNewFirstPage d = true -> _requiresNewFirstPage d' = true;
  unt_size : is_page_call c = false -> _width d' = _width d /\ _height d' = _height d
}.

(** The logs a session can reach: a "newPage" stands only at the head of a
    group, and while no page exists there is at most one group and no
    "newPage" in it. *)
Record reachable_log (d : t) : Prop := {
  inv_tail :
    Forall (fun g => existsb is_newPage (tail g) = false) (_instructionsStack d);
  inv_nopage :
    _hasPage d = false ->
    (length (_instructionsStack d) <= 1)%nat /\
    Forall (fun g => existsb is_newPage g = false) (_instructionsStack d)
}.

(** A canvas that only notes the calls made on it. *)
Definition noting_canvas (name : string)
  : option (list pyval -> Py.kwargs -> M (World * list instruction) unit) :=
  Some (fun args kw => modify (fun s => (fst s, snd s ++ [(name, args, kw)]))).


End Recorder.

(** The fill a state paints with. *)
Inductive fill_mode := NoFill | PlainFill | GradientFill | FillAndGradient.

Definition active_fill_mode (s : GraphicsState.t) : fill_mode :=
  match GraphicsState.fillColor s, GraphicsState.gradient s with
  | None, None => NoFill
  | Some _, None => PlainFill
  | None, Some _ => GradientFill
  | Some _, Some _ => FillAndGradient
  end.

(** The current graphics state of a context. *)
Definition current (s : BaseContext.st) : GraphicsState.t :=
  BaseContext._state (snd s).

(** A new context in a world. *)
Definition new_context (w : World) : BaseContext.st :=
  let (c, w') := BaseContext.__init__ w in (w', c).

(** The object a path value refers to. *)
Definition deref (w : World) (p : pyval) : option BezierPath.t :=
  match p with
  | PPath l => paths w !! l
  | _ => None
  end.

(** ** Sample externals

    Values for the functions that are not among the sources, used where a
    statement is evaluated on a concrete input. *)

Definition sample_channel (x k : pyval) : pyval :=
  match Py.number x, Py.number k with
  | Some a, Some b => PFloat (if Qle_bool 1 (a + b) then 0 else 1 - (a + b))
  | _, _ => PFloat 0
  end.

Definition sample_cmyk2rgb (c m y k : pyval) : pyval * pyval * pyval :=
  (sample_channel c k, sample_channel m k, sample_channel y k).

Definition sample_mainScreen_size : pyval * pyval := (PFloat 1440, PFloat 900).

Definition sample_transformationAtCenter (matrix center : pyval) : pyval := matrix.

(** ** Further methods of the sources

    Methods of [BezierPath] and callbacks of [DrawBotDrawingTool] that build on
    the ones above. *)

(** A method of the object at [l] that may raise half-way: the object keeps
    what was done to it. *)
Definition in_path {A} (l : loc) (m : M BezierPath.t A) : M World A :=
  fun w => match paths w !! l with
           | Some p => let (o, p') := m p in (o, set_paths (<[l := p']> (paths w)) w)
           | None => (Raised (AttributeError "no object at this location"), w)
           end.

(** [BezierPath.line(point1, point2)]. *)
Definition BezierPath_line (point1 point2 : pyval) : M BezierPath.t unit :=
  modify (BezierPath.moveTo point1) ;;
  modify (BezierPath.lineTo point2).

(** [BezierPath.polygon( *points, **kwargs)]: the first point is handed on as
    it is, the further ones are unpacked into [x, y]. *)
Definition BezierPath_polygon (points : list pyval) (kw : Py.kwargs) : M BezierPath.t unit :=
  if (length points <=? 1)%nat
  then raise (TypeError "polygon() expects more than a single point")
  else
    let doClose := default (PBool true) (Py.kw_get "close" kw) in
    if (Nat.eqb (length kw) 1 && negb (bool_decide (is_Some (Py.kw_get "close" kw))))
       || (1 <? length kw)%nat
    then raise (TypeError "unexpected keyword argument for this function")
    else
      match points with
      | [] => ret tt
      | first :: rest =>
          modify (BezierPath.moveTo first) ;;
          forM_ rest (fun xy =>
            p <- lift (Py.unpack2 xy) ;;
            modify (BezierPath.lineTo (PTuple [fst p; snd p]))) ;;
          if Py.truthy doClose then modify BezierPath.closePath else ret tt
      end.

(** [DrawBotDrawingTool.line] and [DrawBotDrawingTool.polygon]: a new path,
    the method of the path, then [drawPath]. *)
Definition DrawBotDrawingTool_line (point1 point2 : pyval) : M DrawBotDrawingTool.st unit :=
  l <- DrawBotDrawingTool.world (alloc BezierPath.__init__) ;;
  DrawBotDrawingTool.world (in_path l (BezierPath_line point1 point2)) ;;
  DrawBotDrawingTool.drawPath (PPath l).

Definition DrawBotDrawingTool_polygon (points : list pyval) (kw : Py.kwargs)
  : M DrawBotDrawingTool.st unit :=
  l <- DrawBotDrawingTool.world (alloc BezierPath.__init__) ;;
  DrawBotDrawingTool.world (in_path l (BezierPath_polygon points kw)) ;;
  DrawBotDrawingTool.drawPath (PPath l).

(** [with savedState(): body]: [save()], the body, and [restore()] also when
    the body raises; an error of [restore()] is the one that leaves the
    block, otherwise that of the body. *)
Definition DrawBotDrawingTool_savedState (body : M DrawBotDrawingTool.st unit)
  : M DrawBotDrawingTool.st unit :=
  DrawBotDrawingTool.save ;;
  fun s =>
    match body s with
    | (Returned _, s') => DrawBotDrawingTool.restore s'
    | (Raised e, s') =>
        match DrawBotDrawingTool.restore s' with
        | (Returned _, s'') => (Raised e, s'')
        | (Raised e', s'') => (Raised e', s'')
        end
    end.

(** ** Calls on a context

    What a context is asked to do during a replay, or by a program that
    drives it directly: methods looked up by name and applied to positional
    and keyword arguments.  As in [Script.run], a call that raises is
    survived, and the next one runs on what it left. *)

Module Calls.

Definition call : Type := attribute * list pyval * Py.kwargs.

(** [save()] and [restore()] called as they are declared, without
    arguments. *)
Definition is_save (c : call) : bool :=
  match c with (m_save, [], []) => true | _ => false end.
Definition is_restore (c : call) : bool :=
  match c with (m_restore, [], []) => true | _ => false end.


Section Run.

Variable cmyk2rgb : pyval -> pyval -> pyval -> pyval -> pyval * pyval * pyval.

Definition apply (c : call) : M BaseContext.st unit :=
  bound cmyk2rgb (fst (fst c)) (snd (fst c)) (snd c).

Fixpoint run (cs : list call) (s : BaseContext.st) : BaseContext.st :=
  match cs with
  | [] => s
  | c :: r => run r (snd (apply c s))
  end.

(** Whether every [save()] among the calls returns. *)
Fixpoint saves_return (cs : list call) (s : BaseContext.st) : bool :=
  match cs with
  | [] => true
  | c :: r =>
      (if is_save c
       then match fst (apply c s) with Returned _ => true | Raised _ => false end
       else true) && saves_return r (snd (apply c s))
  end.

End Run.

End Calls.

(** What a copy of a graphics state is compared on: every attribute but the
    text and the path, the CMYK colours, also those of the shadow and of the
    gradient, by their [NSColor].  [Gradient.copy] tests [self.cmykColors] for
    truth, so an empty list of CMYK colours counts as none. *)
Definition Shadow_plain (s : Shadow.t) : pyval * pyval * Color.t * option (option NSColor) :=
  (Shadow.offset s, Shadow.blur s, Shadow.color s,
   CMYKColor._color <$> Shadow.cmykColor s).

Definition CMYKColors_plain (ks : option (list CMYKColor.t))
  : option (list (option NSColor)) :=
  match ks with
  | Some (k :: r) => Some (map CMYKColor._color (k :: r))
  | _ => None
  end.

Definition Gradient_plain (g : Gradient.t)
  : string * list Color.t * option (list (option NSColor)) * list pyval *
    pyval * pyval * pyval * pyval :=
  (Gradient.gradientType g, Gradient.colors g, CMYKColors_plain (Gradient.cmykColors g),
   Gradient.positions g,
   Gradient.start g, Gradient.end_ g, Gradient.startRadius g, Gradient.endRadius g).

Record plain_state := {
  p_colorSpace : NSColorSpace;
  p_blendMode : pyval;
  p_opacity : pyval;
  p_fillColor : option Color.t;
  p_strokeColor : option Color.t;
  p_cmykFillColor : option (option NSColor);
  p_cmykStrokeColor : option (option NSColor);
  p_shadow : option (pyval * pyval * Color.t * option (option NSColor));
  p_gradient : option (string * list Color.t * option (list (option NSColor)) *
                       list pyval * pyval * pyval * pyval * pyval);
  p_strokeWidth : pyval;
  p_lineDash : option (list pyval);
  p_lineDashOffset : pyval;
  p_lineCap : option CGLineCap;
  p_lineJoin : option CGLineJoin;
  p_miterLimit : pyval;
  p_hyphenation : pyval
}.

Definition plain (s : GraphicsState.t) : plain_state :=
  {| p_colorSpace := GraphicsState.colorSpace s;
     p_blendMode := GraphicsState.blendMode s;
     p_opacity := GraphicsState.opacity s;
     p_fillColor := GraphicsState.fillColor s;
     p_strokeColor := GraphicsState.strokeColor s;
     p_cmykFillColor := CMYKColor._color <$> GraphicsState.cmykFillColor s;
     p_cmykStrokeColor := CMYKColor._color <$> GraphicsState.cmykStrokeColor s;
     p_shadow := Shadow_plain <$> GraphicsState.shadow s;
     p_gradient := Gradient_plain <$> GraphicsState.gradient s;
     p_strokeWidth := GraphicsState.strokeWidth s;
     p_lineDash := GraphicsState.lineDash s;
     p_lineDashOffset := GraphicsState.lineDashOffset s;
     p_lineCap := GraphicsState.lineCap s;
     p_lineJoin := GraphicsState.lineJoin s;
     p_miterLimit := GraphicsState.miterLimit s;
     p_hyphenation := GraphicsState.hyphenation s |}.

(** The calls that extend the current path, and the element each one
    appends. *)
Inductive segment :=
| seg_moveTo (pt : pyval)
| seg_lineTo (pt : pyval)
| seg_curveTo (pt1 pt2 pt : pyval)
| seg_arc (center radius startAngle endAngle clockwise : pyval)
| seg_arcTo (pt1 pt2 radius : pyval)
| seg_closePath.

Definition segment_call (g : segment) : M BaseContext.st unit :=
  match g with
  | seg_moveTo pt => BaseContext.moveTo pt
  | seg_lineTo pt => BaseContext.lineTo pt
  | seg_curveTo pt1 pt2 pt => BaseContext.curveTo pt1 pt2 pt
  | seg_arc c r a b cw => BaseContext.arc c r a b cw
  | seg_arcTo pt1 pt2 r => BaseContext.arcTo pt1 pt2 r
  | seg_closePath => BaseContext.closePath
  end.

Definition segment_element (g : segment) : BezierPath.element :=
  match g with
  | seg_moveTo pt => BezierPath.moveToPoint_ pt
  | seg_lineTo pt => BezierPath.lineToPoint_ pt
  | seg_curveTo pt1 pt2 pt => BezierPath.curveToPoint_controlPoint1_controlPoint2_ pt pt1 pt2
  | seg_arc c r a b cw =>
      BezierPath.appendBezierPathWithArcWithCenter_radius_startAngle_endAngle_clockwise_
        c r a b cw
  | seg_arcTo pt1 pt2 r => BezierPath.appendBezierPathWithArcFromPoint_toPoint_radius_ pt1 pt2 r
  | seg_closePath => BezierPath.closePath_
  end.

(** The colours of a text state exclude each other: not both the RGB and the
    CMYK colour of a role are true. *)
Definition text_colours_exclusive (s : FormattedString.t) : bool :=
  negb (Py.truthy (FormattedString._fill s) && Py.truthy (FormattedString._cmykFill s)) &&
  negb (Py.truthy (FormattedString._stroke s) && Py.truthy (FormattedString._cmykStroke s)).

(** The values the setters of the text state store when each single-valued
    setter is given one value that is not a sequence: a colour is [None] or
    the tuple of its components, tabs are [None] or a list that starts with a
    tab, an underline, strikethrough or writing direction is [None] or a key
    of its map. *)
Definition text_value_ok (k : FormattedString.key) (v : pyval) : bool :=
  match k with
  | FormattedString.K_fontSize | FormattedString.K_strokeWidth
  | FormattedString.K_lineHeight | FormattedString.K_tracking
  | FormattedString.K_baselineShift | FormattedString.K_url =>
      negb (Py.is_sequence v)
  | FormattedString.K_underline | FormattedString.K_strikethrough =>
      Py.is_None v || FormattedString.in_textUnderlineMap v
  | FormattedString.K_writingDirection =>
      Py.is_None v || FormattedString.in_writingDirectionMap v
  | FormattedString.K_tabs =>
      match v with
      | PNone => true
      | PList (tab :: _) => negb (Py.is_None tab)
      | _ => false
      end
  | FormattedString.K_fill | FormattedString.K_stroke =>
      match v with
      | PNone => true
      | PTuple (_ :: rest) => (length rest <=? 3)%nat
      | _ => false
      end
  | FormattedString.K_cmykFill | FormattedString.K_cmykStroke =>
      match v with
      | PNone => true
      | PTuple [_; _; _; _; _] => true
      | _ => false
      end
  end.

Definition text_well_formed (s : FormattedString.t) : bool :=
  forallb (fun k => text_value_ok k (FormattedString.getattr k s)) FormattedString.keys &&
  (Py.is_None (FormattedString._fill s) || Py.is_None (FormattedString._cmykFill s)) &&
  (Py.is_None (FormattedString._stroke s) || Py.is_None (FormattedString._cmykStroke s)).


(** ** States of which a copy can be taken

    [Color.copy] asks the [NSColor] of the colour for its copy, so a colour
    made without components has none to give.  A state is [copyable] when
    each of its colour objects holds an [NSColor], its path is [None], a list
    or one of the first [n] path objects of the store, and its text is as the
    setters store it. *)

Definition Color_held (c : Color.t) : bool :=
  match Color._color c with Some _ => true | None => false end.

Definition CMYKColor_held (k : CMYKColor.t) : bool :=
  match CMYKColor._color k with Some _ => true | None => false end.

Definition held_opt {A} (held : A -> bool) (x : option A) : bool :=
  match x with Some a => held a | None => true end.

Definition Shadow_held (s : Shadow.t) : bool :=
  Color_held (Shadow.color s) && held_opt CMYKColor_held (Shadow.cmykColor s).

Definition Gradient_held (g : Gradient.t) : bool :=
  forallb Color_held (Gradient.colors g) &&
  held_opt (forallb CMYKColor_held) (Gradient.cmykColors g).

Definition path_held (n : nat) (p : pyval) : bool :=
  match p with
  | PNone | PList _ => true
  | PPath l => (l <? n)%nat
  | _ => false
  end.

Definition copyable (n : nat) (s : GraphicsState.t) : bool :=
  held_opt Color_held (GraphicsState.fillColor s) &&
  held_opt Color_held (GraphicsState.strokeColor s) &&
  held_opt CMYKColor_held (GraphicsState.cmykFillColor s) &&
  held_opt CMYKColor_held (GraphicsState.cmykStrokeColor s) &&
  held_opt Shadow_held (GraphicsState.shadow s) &&
  held_opt Gradient_held (GraphicsState.gradient s) &&
  path_held n (GraphicsState.path s) &&
  text_well_formed (GraphicsState.text s).

(** The current state and every saved state of a context are copyable, and
    the store holds at least [n0] path objects. *)
Definition all_copyable (n0 : nat) (s : BaseContext.st) : Prop :=
  (n0 <= length (paths (fst s)))%nat /\
  copyable (length (paths (fst s))) (BaseContext._state (snd s)) = true /\
  Forall (fun x => copyable (length (paths (fst s))) x = true)
         (BaseContext._stack (snd s)).

(** The calls that give a context no colour object of their own making and
    no object from outside the store: no shadow and no gradient, a path only
    if it is [None] or one of the first [n0] path objects, and no list or
    tuple where a text setter takes a single value. *)
Definition simple_call (n0 : nat) (c : Calls.call) : bool :=
  let values := snd (fst c) ++ map snd (snd c) in
  match fst (fst c) with
  | m_shadow | m_cmykShadow
  | m_linearGradient | m_cmykLinearGradient
  | m_radialGradient | m_cmykRadialGradient => false
  | m_drawPath | m_clipPath =>
      forallb (fun v => match v with
                        | PNone => true
                        | PPath l => (l <? n0)%nat
                        | _ => false
                        end) values
  | m_fontSize | m_lineHeight | m_tracking | m_baselineShift | m_url
  | m_strokeWidth =>
      forallb (fun v => negb (Py.is_sequence v)) values
  | _ => true
  end.

(** ** The arguments a callback records

    What each callback other than [newPage] and [size] hands to
    [_addInstruction]: its own arguments, after the defaults of [shadow] and
    [cmykShadow], the unpacking of points into [(x, y)], the copy
    [drawPath] takes of a path object, the values [lineDash] and [tabs] keep
    and the matrix of a transformation about its center.  There are none
    where the callback raises before it records. *)

Section Recorded.

Variable transformationAtCenter : pyval -> pyval -> pyval.

Definition recorded_point (xy : pyval) : option pyval :=
  match Py.unpack2 xy with
  | Returned p => Some (PTuple [fst p; snd p])
  | Raised _ => None
  end.

Definition recorded_matrix (matrix center : pyval) : pyval :=
  if negb (Py.eqb center (PTuple [PInt 0; PInt 0]))
  then transformationAtCenter matrix center
  else matrix.

Definition recorded_arguments (c : Script.call) (s : DrawBotDrawingTool.st)
  : option (list pyval) :=
  match c with
  | Script.NewPage _ _ | Script.Size _ _ => None
  | Script.Save | Script.Restore | Script.NewPath | Script.ClosePath => Some []
  | Script.Rect x y w h | Script.Oval x y w h => Some [x; y; w; h]
  | Script.MoveTo xy | Script.LineTo xy =>
      match recorded_point xy with
      | Some p => Some [p]
      | None => None
      end
  | Script.CurveTo xy1 xy2 xy3 =>
      match recorded_point xy1, recorded_point xy2, recorded_point xy3 with
      | Some p1, Some p2, Some p3 => Some [p1; p2; p3]
      | _, _, _ => None
      end
  | Script.Arc center radius startAngle endAngle clockwise =>
      Some [center; radius; startAngle; endAngle; clockwise]
  | Script.ArcTo xy1 xy2 radius =>
      match recorded_point xy1, recorded_point xy2 with
      | Some p1, Some p2 => Some [p1; p2; radius]
      | _, _ => None
      end
  | Script.DrawPath (PPath l) =>
      match paths (fst s) !! l with
      | Some _ => Some [PPath (length (paths (fst s)))]
      | None => None
      end
  | Script.DrawPath path | Script.ClipPath path => Some [path]
  | Script.ColorSpace v | Script.BlendMode v | Script.Opacity v
  | Script.StrokeWidth v | Script.MiterLimit v | Script.LineJoin v | Script.LineCap v
  | Script.FontSize v | Script.LineHeight v | Script.Tracking v
  | Script.BaselineShift v | Script.Underline v | Script.Strikethrough v
  | Script.Url v | Script.Hyphenation v | Script.WritingDirection v => Some [v]
  | Script.Fill r g b alpha | Script.Stroke r g b alpha => Some [r; g; b; alpha]
  | Script.CmykFill c m y k alpha | Script.CmykStroke c m y k alpha =>
      Some [c; m; y; k; alpha]
  | Script.Shadow offset blur color =>
      Some [offset;
            if Py.is_None blur then PInt 10 else blur;
            if Py.is_None color then PTuple [PInt 0; PInt 0; PInt 0] else color]
  | Script.CmykShadow offset blur color =>
      Some [offset;
            if Py.is_None blur then PInt 10 else blur;
            if Py.is_None color
            then PTuple [PInt 0; PInt 0; PInt 0; PInt 1; PInt 1] else color]
  | Script.LinearGradient startPoint endPoint colors locations
  | Script.CmykLinearGradient startPoint endPoint colors locations =>
      Some [startPoint; endPoint; colors; locations]
  | Script.RadialGradient startPoint endPoint colors locations startRadius endRadius
  | Script.CmykRadialGradient startPoint endPoint colors locations startRadius endRadius =>
      Some [startPoint; endPoint; colors; locations; startRadius; endRadius]
  | Script.LineDash value values offset =>
      Some [PList (match value with
                   | PInt _ | PFloat _ | PBool _ => value :: values
                   | _ => [value]
                   end);
            offset]
  | Script.Transform matrix center => Some [recorded_matrix matrix center]
  | Script.Translate x y => Some [PTuple [PInt 1; PInt 0; PInt 0; PInt 1; x; y]]
  | Script.Scale x y center =>
      Some [recorded_matrix
              (PTuple [x; PInt 0; PInt 0; if Py.is_None y then x else y; PInt 0; PInt 0])
              center]
  | Script.Tabs (PNone :: _) => Some [PNone]
  | Script.Tabs tabs => Some tabs
  end.

End Recorded.
(** * Verification *)

(** ** Lists that grow at their end *)

Lemma alter_last {A} (f : A -> A) (l : list A) (g : A) :
  alter f (length (l ++ [g]) - 1) (l ++ [g]) = l ++ [f g].
Proof.
  rewrite length_app. simpl.
  replace (length l + 1 - 1)%nat with (length l + 0)%nat by lia.
  rewrite alter_app_r. done.
Qed.

Lemma pop_snoc {A} (l : list A) (x : A) : BaseContext.pop (l ++ [x]) = Some (x, l).
Proof.
  unfold BaseContext.pop. rewrite reverse_snoc, reverse_involutive. done.
Qed.

Lemma pop_nil {A} : BaseContext.pop (@nil A) = None.
Proof. reflexivity. Qed.

(** ** The recorder *)

Section RecorderFacts.

Import DrawBotDrawingTool Recorder.

Variable mainScreen_size : pyval * pyval.
Variable transformationAtCenter : pyval -> pyval -> pyval.

#[local] Abbreviation exec := (Script.exec mainScreen_size transformationAtCenter).
#[local] Abbreviation run := (Script.run mainScreen_size transformationAtCenter).
#[local] Abbreviation returns := (Script.returns mainScreen_size transformationAtCenter).
#[local] Abbreviation returned := (Script.returned mainScreen_size transformationAtCenter).

Lemma last_set_snoc f w d l g :
  _instructionsStack d = l ++ [g] ->
  last_set f (w, d) = (Returned tt, (w, set__instructionsStack (l ++ [f g]) d)).
Proof.
  intros E. unfold last_set, bind, self, zoom, gets, modify, raise. simpl.
  rewrite E. rewrite alter_last.
  destruct (l ++ [g]) eqn:E'; [destruct l; discriminate|]. done.
Qed.

Lemma opened_snoc cb stack : exists l g, opened cb stack = l ++ [g].
Proof.
  unfold opened. destruct (String.eqb cb "newPage").
  - exists stack, []. destruct (stack ++ [[]]) eqn:E; [|done].
    destruct stack; discriminate.
  - destruct stack as [|x r _] using rev_ind.
    + exists [], []. done.
    + exists r, x. destruct (r ++ [x]) eqn:E; [|done]. destruct r; discriminate.
Qed.

(** [_addInstruction] always returns, and what it leaves is [added]. *)
Lemma _addInstruction_spec cb args kw w d :
  _addInstruction cb args kw (w, d) = (Returned tt, (w, added cb args kw d)).
Proof.
  destruct (opened_snoc cb (_instructionsStack d)) as (l & g & E).
  unfold added, needs_first_page. rewrite E, !alter_last.
  unfold _addInstruction.
  set (d1 := set__instructionsStack (opened cb (_instructionsStack d)) d).
  assert (H1 : forall k : unit -> M st unit,
     bind (if String.eqb cb "newPage"
           then self (modify (fun d => set__instructionsStack (_instructionsStack d ++ [[]]) d))
           else ret tt)
       (fun _ => bind (self (gets _instructionsStack)) (fun stack =>
          bind (match stack with
                | [] => self (modify (fun d =>
                          set__instructionsStack (_instructionsStack d ++ [[]]) d))
                | _ :: _ => ret tt
                end) k)) (w, d) = k tt (w, d1)).
  { intros k. subst d1. unfold opened, bind, self, zoom, modify, gets, ret. simpl.
    destruct d as [stack dc wd ht rq hp sp]; simpl.
    destruct (String.eqb cb "newPage"); simpl.
    - destruct (stack ++ [[]]) eqn:E'; [destruct stack; discriminate|]. simpl. done.
    - destruct stack; simpl; done. }
  rewrite H1. clear H1.
  assert (E1 : _instructionsStack d1 = l ++ [g]) by (subst d1; destruct d; exact E).
  unfold bind at 1. unfold self at 1, zoom, get. simpl.
  destruct (_requiresNewFirstPage d && negb (_hasPage d)) eqn:F.
  - unfold bind. unfold self at 1, zoom, modify. simpl.
    erewrite last_set_snoc by (simpl; exact E1).
    erewrite last_set_snoc by (simpl; reflexivity).
    subst d1. destruct d; simpl in *. reflexivity.
  - unfold bind, ret. erewrite last_set_snoc by exact E1.
    subst d1. destruct d; simpl in *. reflexivity.
Qed.

Lemma record_spec cb args w d :
  record cb args (w, d) =
  (Returned tt, (w, added cb args [] (set__requiresNewFirstPage true d))).
Proof.
  unfold record, requiresNewFirstPage, bind, self, zoom, modify. simpl.
  apply _addInstruction_spec.
Qed.

(** *** Every callback either raises and leaves the log alone, or records
    exactly one call under its own name *)

Lemma dummy_bind {A} (m : M BaseContext.st A) (k : A -> M st unit) w d :
  bind (dummy m) k (w, d) =
  match m (w, _dummyContext d) with
  | (Returned a, (w', c')) => k a (w', set__dummyContext c' d)
  | (Raised e, (w', c')) => (Raised e, (w', set__dummyContext c' d))
  end.
Proof.
  unfold bind, dummy, zoom. simpl.
  destruct (m (w, _dummyContext d)) as [[a|e] [w' c']]; done.
Qed.

Lemma lift_bind {S A B} (o : outcome A) (k : A -> M S B) s :
  bind (lift o) k s = match o with Returned a => k a s | Raised e => (Raised e, s) end.
Proof. unfold bind, lift. destruct o; done. Qed.

Lemma untouched_refl c d : untouched c d d.
Proof. split; auto. Qed.

Lemma untouched_dummy c d x : untouched c d (set__dummyContext x d).
Proof. destruct d; split; auto. Qed.

Lemma point_cases xy (k : pyval -> M st unit) s :
  bind (point xy) k s =
  match Py.unpack2 xy with
  | Returned p => k (PTuple [fst p; snd p]) s
  | Raised e => (Raised e, s)
  end.
Proof. unfold point. unfold bind, lift, ret. destruct (Py.unpack2 xy); done. Qed.

Ltac rec_case :=
  rewrite record_spec; eexists _, _; split; [reflexivity|];
  split; simpl; auto.

Ltac text_case :=
  rewrite dummy_bind;
  match goal with
  | |- context [?m (?w, _dummyContext ?d)] =>
      destruct (m (w, _dummyContext d)) as [[[]|e] [w' c']]
  end;
  [ rewrite _addInstruction_spec; eexists _, _; split; [reflexivity|];
    split; simpl; auto
  | apply untouched_dummy ].

Ltac stack_case :=
  rewrite dummy_bind;
  match goal with
  | |- context [?m (?w, _dummyContext ?d)] =>
      destruct (m (w, _dummyContext d)) as [[[]|e] [w' c']]
  end;
  [ unfold requiresNewFirstPage, bind, self, zoom, modify; simpl;
    rewrite _addInstruction_spec; eexists _, _; split; [reflexivity|];
    split; simpl; auto
  | apply untouched_dummy ].

Lemma newPage_shape c width height w d :
  is_page_call c = true -> callback c = "newPage" ->
  match newPage mainScreen_size width height (w, d) with
  | (Raised _, (_, d')) => untouched c d d'
  | (Returned _, (_, d')) =>
      exists d'' args, d' = added (callback c) args [] d'' /\ prepared c d d''
  end.
Proof.
  intros Hp Hc. pose proof (page_call_flag := Hp).
  unfold newPage. unfold bind at 1. unfold self at 1, zoom, get. simpl.
  destruct (_isSinglePage d) eqn:Hs; [apply untouched_refl|].
  rewrite lift_bind. destruct (named_size _ _ _) as [wh|e]; [|apply untouched_refl].
  unfold bind, self, world, zoom, modify, total, DummyContext. simpl.
  rewrite _addInstruction_spec. rewrite Hc. eexists _, _. split; [reflexivity|].
  assert (Hd : is_drawing_call c = false) by (destruct c; simpl in *; congruence).
  destruct d; split; simpl in *; rewrite ?Hp, ?Hd; auto.
Qed.

Lemma transform_shape c matrix center w d :
  is_page_call c = false -> is_drawing_call c = true -> callback c = "transform" ->
  match transform transformationAtCenter matrix center (w, d) with
  | (Raised _, (_, d')) => untouched c d d'
  | (Returned _, (_, d')) =>
      exists d'' args, d' = added (callback c) args [] d'' /\ prepared c d d''
  end.
Proof.
  intros Hp Hd Hc. unfold transform, requiresNewFirstPage, bind, self, zoom, modify. simpl.
  rewrite _addInstruction_spec. eexists _, _. rewrite Hc. split; [reflexivity|].
  destruct d; split; simpl; rewrite ?Hp, ?Hd; auto.
Qed.

Lemma exec_shape c w d :
  match exec c (w, d) with
  | (Raised _, (_, d')) => untouched c d d'
  | (Returned _, (_, d')) =>
      exists d'' args, d' = added (callback c) args [] d'' /\ prepared c d d''
  end.
Proof.
  destruct c; simpl.
  all: try (unfold rect, oval, newPath, arc, closePath, clipPath, colorSpace, fill, stroke,
    cmykFill, cmykStroke, opacity, shadow, cmykShadow, linearGradient, cmykLinearGradient,
    radialGradient, cmykRadialGradient, strokeWidth, miterLimit, lineJoin, lineCap, lineDash;
    rec_case).
  all: try (unfold fontSize, lineHeight, tracking, baselineShift, underline, strikethrough,
    url, hyphenation, writingDirection; text_case).
  all: try (unfold moveTo, lineTo, curveTo, arcTo; rewrite ?point_cases;
    repeat (match goal with |- context [Py.unpack2 ?x] => destruct (Py.unpack2 x) end;
            rewrite ?point_cases);
    try apply untouched_refl; rec_case).
  - (* newPage *) apply (newPage_shape (Script.NewPage _ _)); done.
  - (* size *)
    unfold size. unfold bind at 1. unfold self at 1, zoom, get. simpl.
    destruct (_isSinglePage d) eqn:Hs; [apply untouched_refl|].
    rewrite lift_bind. destruct (named_size _ _ _) as [wh|e]; [|apply untouched_refl].
    set (wh' := if Py.is_None wh.2 && Py.is_float wh.1 then (wh.1, wh.1) else wh).
    unfold bind at 1. unfold self at 1, zoom, modify. simpl.
    unfold bind at 1. unfold self at 1, zoom, modify. simpl.
    destruct (_instructionsStack d) eqn:Hst.
    + lazymatch goal with
      | |- context [untouched ?c] =>
          pose proof (newPage_shape c wh'.1 wh'.2 w
                        (set__height wh'.2 (set__width wh'.1 d)) eq_refl eq_refl) as H
      end.
      destruct (newPage _ _ _ _) as [[[]|e] [w' d']].
      * destruct H as (d'' & args & -> & [H1 H2 H3 H4]). exists d'', args. split; [done|].
        destruct d; split; simpl in *; auto; try congruence.
      * destruct H as [H1 H2 H3 H4 H5].
        destruct d; split; simpl in *; auto; try congruence.
    + destruct d; split; simpl in *; auto; try congruence.
  - (* save *) unfold save. stack_case.
  - (* restore *) unfold restore. stack_case.
  - (* drawPath *)
    unfold drawPath. destruct path; try (unfold bind at 1, ret; rec_case).
    unfold bind at 1. unfold bind at 1. unfold world at 1, zoom. simpl.
    destruct (copy_path l w) as [[l'|e] w']; simpl; [|apply untouched_refl].
    unfold ret. rec_case.
  - (* blendMode *)
    unfold blendMode. destruct (negb (Py.hashable operation)); [apply untouched_refl|].
    destruct (negb _); [apply untouched_refl|]. rec_case.
  - (* transform *) apply (transform_shape (Script.Transform _ _)); done.
  - (* translate *) apply (transform_shape (Script.Translate _ _)); done.
  - (* scale *) apply (transform_shape (Script.Scale _ _ _)); done.
  - (* tabs *)
    unfold tabs. destruct tabs0 as [|[] ?]; text_case.
Qed.

(** *** What [added] does to the log *)

Lemma callback_newPage c : String.eqb (callback c) "newPage" = is_page_call c.
Proof. destruct c; reflexivity. Qed.

Lemma recorded_not_newPage c args :
  is_page_call c = false -> is_newPage (callback c, args, []) = false.
Proof. intros H. unfold is_newPage. simpl. rewrite callback_newPage. exact H. Qed.

Lemma tail_snoc_no_newPage (g : list instruction) i :
  existsb is_newPage (tail g) = false -> is_newPage i = false ->
  existsb is_newPage (tail (g ++ [i])) = false.
Proof.
  intros Hg Hi. destruct g as [|x g]; simpl in *; [done|].
  rewrite existsb_app, Hg. simpl. rewrite Hi. done.
Qed.

Lemma added_stack c args d :
  let i := (callback c, args, []) : instruction in
  exists l g,
    (if is_page_call c then l = _instructionsStack d /\ g = []
     else (_instructionsStack d = [] /\ l = [] /\ g = []) \/
          _instructionsStack d = l ++ [g]) /\
    _instructionsStack (added (callback c) args [] d) =
      l ++ [if needs_first_page d then synthetic d :: g ++ [i] else g ++ [i]] /\
    _hasPage (added (callback c) args [] d) = (needs_first_page d || _hasPage d) /\
    _isSinglePage (added (callback c) args [] d) = _isSinglePage d /\
    _width (added (callback c) args [] d) = _width d /\
    _height (added (callback c) args [] d) = _height d /\
    _requiresNewFirstPage (added (callback c) args [] d) = _requiresNewFirstPage d.
Proof.
  intros i. unfold added, opened. rewrite callback_newPage.
  destruct (is_page_call c).
  - exists (_instructionsStack d), [].
    destruct (_instructionsStack d ++ [[]]) eqn:E;
      [destruct (_instructionsStack d); discriminate|].
    rewrite <- E. rewrite alter_last. rewrite alter_last.
    unfold needs_first_page.
    destruct d as [st dc wd ht [] []]; simpl in *; repeat split; auto.
  - destruct (_instructionsStack d) as [|x r] eqn:E using rev_ind.
    + exists [], []. simpl.
      unfold needs_first_page.
      destruct d as [st dc wd ht [] []]; simpl in *; repeat split; auto.
    + clear IHr. exists r, x.
      destruct (r ++ [x]) eqn:E'; [destruct r; discriminate|]. rewrite <- E'.
      rewrite !alter_last.
      unfold needs_first_page.
      destruct d as [st dc wd ht [] []]; simpl in *; repeat split; auto.
Qed.

(** *** The invariant of reachable logs *)

Lemma reachable_added c args d d'' :
  reachable_log d -> prepared c d d'' ->
  reachable_log (added (callback c) args [] d'').
Proof.
  intros [Ht Hn] [P1 P2 P3 P4].
  destruct (added_stack c args d'') as (l & g & Hs & Hst & Hp & _).
  split; rewrite Hst.
  - assert (Hi : is_page_call c = false -> is_newPage (callback c, args, []) = false)
      by apply recorded_not_newPage.
    destruct (is_page_call c) eqn:Hc.
    + destruct Hs as [-> ->]. unfold needs_first_page. rewrite P3.
      rewrite andb_false_r. rewrite P1. apply Forall_app. split; [done|].
      constructor; [|constructor]. done.
    + destruct P3 as (P3 & _ & _). specialize (Hi eq_refl).
      destruct (needs_first_page d'') eqn:F.
      * unfold needs_first_page in F. apply andb_true_iff in F as [_ F].
        apply negb_true_iff in F. rewrite P3 in F. destruct (Hn F) as [Hlen Hall].
        rewrite P1 in Hs. destruct Hs as [(E & -> & ->)|E].
        -- constructor; [|constructor]. simpl. rewrite Hi. done.
        -- rewrite E in Hlen, Hall. rewrite length_app in Hlen. simpl in Hlen.
           destruct l; [|simpl in Hlen; lia]. simpl.
           apply Forall_app in Hall as [_ Hall]. inversion Hall; subst.
           constructor; [|constructor]. simpl. rewrite existsb_app. simpl.
           rewrite Hi. rewrite H1. done.
      * rewrite P1 in Hs. destruct Hs as [(E & -> & ->)|E].
        -- constructor; [|constructor]. done.
        -- rewrite E in Ht. apply Forall_app in Ht as [Hl Hg]. inversion Hg; subst.
           apply Forall_app. split; [done|]. constructor; [|constructor].
           apply tail_snoc_no_newPage; done.
  - rewrite Hp. intros H. apply orb_false_iff in H as [F H].
    rewrite F.
    destruct (is_page_call c) eqn:Hc; [congruence|].
    destruct P3 as (P3 & _ & _). rewrite P3 in H. destruct (Hn H) as [Hlen Hall].
    assert (Hi : is_newPage (callback c, args, []) = false)
      by (apply recorded_not_newPage; done).
    rewrite P1 in Hs. destruct Hs as [(E & -> & ->)|E].
    + split; [simpl; lia|]. constructor; [|constructor]. simpl. rewrite Hi. done.
    + rewrite E in Hlen, Hall. rewrite length_app in *. simpl in *.
      split; [lia|]. apply Forall_app in Hall as [Hl Hg]. inversion Hg; subst.
      apply Forall_app. split; [done|]. constructor; [|constructor].
      rewrite existsb_app. simpl. rewrite Hi, H2. done.
Qed.

Lemma reachable_untouched c d d' : reachable_log d -> untouched c d d' -> reachable_log d'.
Proof.
  intros [Ht Hn] [U1 U2 U3 U4 U5]. split; rewrite U1; [done|]. rewrite U3. done.
Qed.

Lemma reachable_exec c w d : reachable_log d -> reachable_log (snd (snd (exec c (w, d)))).
Proof.
  intros HI. pose proof (exec_shape c w d) as H.
  destruct (exec c (w, d)) as [[[]|e] [w' d']]; simpl.
  - destruct H as (d'' & args & -> & Hp). eapply reachable_added; eauto.
  - eapply reachable_untouched; eauto.
Qed.

Lemma reachable_run cs s : reachable_log (snd s) -> reachable_log (snd (run cs s)).
Proof.
  revert s. induction cs as [|c cs IH]; intros [w d] HI; simpl; [done|].
  apply IH. apply reachable_exec. done.
Qed.

Lemma reachable_session w : reachable_log (snd (Script.session w)).
Proof. split; simpl; [constructor|]. intros _. split; [lia|constructor]. Qed.

Lemma reachable_script w cs : reachable_log (snd (run cs (Script.session w))).
Proof. apply reachable_run, reachable_session. Qed.

(** *** Counting *)

Lemma count_added c args d :
  instruction_count (added (callback c) args [] d) =
  (instruction_count d + 1 + (if needs_first_page d then 1 else 0))%nat.
Proof.
  unfold instruction_count, instructions.
  destruct (added_stack c args d) as (l & g & Hs & Hst & _). rewrite Hst.
  rewrite concat_app. simpl. rewrite app_nil_r.
  assert (E : concat (_instructionsStack d) = concat l ++ g).
  { destruct (is_page_call c).
    - destruct Hs as [-> ->]. rewrite app_nil_r. done.
    - destruct Hs as [(-> & -> & ->) | ->]; [done|].
      rewrite concat_app. simpl. rewrite app_nil_r. done. }
  rewrite E. destruct (needs_first_page d); simpl; rewrite !length_app; simpl;
    rewrite ?length_app; simpl; lia.
Qed.

Lemma prepared_count c d d'' : prepared c d d'' -> instruction_count d'' = instruction_count d.
Proof. intros [P1 _ _ _]. unfold instruction_count, instructions. rewrite P1. done. Qed.

Lemma prepared_has_page c d d'' :
  prepared c d d'' -> _hasPage d = true -> needs_first_page d'' = false /\ _hasPage d'' = true.
Proof.
  intros [_ _ P3 _] H. unfold needs_first_page.
  destruct (is_page_call c).
  - rewrite P3. rewrite andb_false_r. done.
  - destruct P3 as (-> & _). rewrite H, andb_false_r. done.
Qed.

(** Once a page exists it exists for the rest of the session, and from then
    on the log grows by exactly the calls that return. *)
Lemma run_with_page cs s :
  _hasPage (snd s) = true ->
  _hasPage (snd (run cs s)) = true /\
  instruction_count (snd (run cs s)) = (instruction_count (snd s) + returned cs s)%nat.
Proof.
  revert s. induction cs as [|c cs IH]; intros [w d] H; simpl in *; [split; [done|lia]|].
  pose proof (exec_shape c w d) as Hsh. unfold Script.returns.
  destruct (exec c (w, d)) as [[[]|e] [w' d']]; simpl in *.
  - destruct Hsh as (d'' & args & -> & Hp).
    destruct (prepared_has_page _ _ _ Hp H) as [F Hq].
    destruct (added_stack c args d'') as (_ & _ & _ & _ & Hh & _).
    destruct (IH (w', added (callback c) args [] d'')) as [I1 I2].
    { simpl. rewrite Hh, Hq. apply orb_true_r. }
    split; [done|]. rewrite I2. simpl. rewrite count_added, F.
    rewrite (prepared_count _ _ _ Hp). lia.
  - destruct Hsh as [U1 _ U3 _ _].
    destruct (IH (w', d')) as [I1 I2]; [simpl; congruence|].
    split; [done|]. rewrite I2. simpl. unfold instruction_count, instructions.
    rewrite U1. lia.
Qed.

(** In any session the log holds one instruction for each call that
    returned, and at most one more. *)
Lemma log_length cs s :
  (instruction_count (snd s) + returned cs s <= instruction_count (snd (run cs s)) <=
   instruction_count (snd s) + returned cs s + 1)%nat.
Proof.
  revert s. induction cs as [|c cs IH]; intros [w d]; simpl in *; [lia|].
  pose proof (exec_shape c w d) as Hsh. unfold Script.returns.
  destruct (exec c (w, d)) as [[[]|e] [w' d']] eqn:E; simpl in *.
  - destruct Hsh as (d'' & args & -> & Hp).
    pose proof (count_added c args d'') as Hc. rewrite (prepared_count _ _ _ Hp) in Hc.
    destruct (needs_first_page d'') eqn:F.
    + destruct (added_stack c args d'') as (_ & _ & _ & _ & Hh & _).
      rewrite F in Hh. simpl in Hh.
      destruct (run_with_page cs (w', added (callback c) args [] d'') Hh) as [_ I].
      rewrite I. simpl. lia.
    + specialize (IH (w', added (callback c) args [] d'')). simpl in IH. lia.
  - destruct Hsh as [U1 _ _ _ _]. specialize (IH (w', d')). simpl in IH.
    unfold instruction_count, instructions in *. rewrite U1 in IH. lia.
Qed.

(** A session without a page call leaves the page size unset. *)
Lemma size_unset cs s :
  forallb (fun c => negb (is_page_call c)) cs = true ->
  _width (snd (run cs s)) = _width (snd s) /\ _height (snd (run cs s)) = _height (snd s).
Proof.
  revert s. induction cs as [|c cs IH]; intros [w d] H; simpl in *; [done|].
  apply andb_true_iff in H as [Hc H]. apply negb_true_iff in Hc.
  pose proof (exec_shape c w d) as Hsh.
  destruct (exec c (w, d)) as [[[]|e] [w' d']]; simpl in *.
  - destruct Hsh as (d'' & args & -> & [_ _ P3 _]). rewrite Hc in P3.
    destruct P3 as (_ & Pw & Ph).
    destruct (added_stack c args d'') as (_ & _ & _ & _ & _ & _ & Hw & Hh & _).
    destruct (IH (w', added (callback c) args [] d'') H) as [I1 I2]. simpl in *.
    split; congruence.
  - destruct Hsh as [_ _ _ _ U5]. destruct (U5 Hc) as [Uw Uh].
    destruct (IH (w', d') H) as [I1 I2]. simpl in *. split; congruence.
Qed.

(** *** The claims about the recorder *)

Lemma pages_starts d :
  reachable_log d ->
  pages d = filter (fun g => starts_with_newPage g) (_instructionsStack d).
Proof.
  intros [Ht _]. unfold pages. induction Ht as [|g l Hg Hl IH]; [done|].
  rewrite !filter_cons. rewrite IH.
  assert (E : existsb is_newPage g = starts_with_newPage g).
  { destruct g; simpl in *; [done|]. rewrite Hg. apply orb_false_r. }
  rewrite E. done.
Qed.

(** C3.  In a session in which no page exists yet, a drawing call that
    returns leaves a log of one page group whose first instruction is the
    made-up [newPage(width(), height())], followed by what had been recorded
    and by the call itself; [width()] and [height()] are the stored size or
    1000 where none is stored, and both are 1000 when the session has made no
    page call.  From then on a page exists, and the log grows by exactly one
    instruction for each call that returns: the insertion happens once. *)
Theorem synthetic_first_page (w : World) (cs : list Script.call) (c : Script.call) :
  let s := run cs (Script.session w) in
  let s' := snd (exec c s) in
  is_drawing_call c = true ->
  _hasPage (snd s) = false ->
  returns c s = true ->
  (exists args,
     _instructionsStack (snd s') =
       [("newPage", [width (snd s); height (snd s)], []) ::
          instructions (snd s) ++ [(callback c, args, [])]]) /\
  width (snd s) = (if Py.is_None (_width (snd s)) then PInt 1000 else _width (snd s)) /\
  height (snd s) = (if Py.is_None (_height (snd s)) then PInt 1000 else _height (snd s)) /\
  (forallb (fun c => negb (is_page_call c)) cs = true ->
   width (snd s) = PInt 1000 /\ height (snd s) = PInt 1000) /\
  _hasPage (snd s') = true /\
  (forall cs', instruction_count (snd (run cs' s')) =
               (instruction_count (snd s') + returned cs' s')%nat).
Proof.
  cbv zeta. intros Hd Hp Hr.
  pose proof (reachable_script w cs) as HI.
  remember (run cs (Script.session w)) as s eqn:Es.
  destruct s as [w0 d]. simpl in *.
  pose proof (exec_shape c w0 d) as Hsh. unfold Script.returns in Hr.
  destruct (exec c (w0, d)) as [[[]|e] [w' d']]; simpl in *; [|discriminate].
  destruct Hsh as (d'' & args & -> & [P1 P2 P3 P4]).
  assert (Hc : is_page_call c = false) by (destruct c; simpl in *; congruence).
  rewrite Hc in P3. rewrite Hd in P4. destruct P3 as (P3 & Pw & Ph).
  assert (F : needs_first_page d'' = true).
  { unfold needs_first_page. rewrite P4, P3, Hp. done. }
  destruct (added_stack c args d'') as (l & g & Hs & Hst & Hh & _).
  rewrite Hc in Hs. rewrite F in Hst, Hh.
  destruct HI as [_ Hn]. destruct (Hn Hp) as [Hlen _].
  assert (Hsyn : synthetic d'' = ("newPage", [width d; height d], [])).
  { unfold synthetic, width, height. rewrite Pw, Ph. done. }
  assert (Hl : l = [] /\ instructions d = g).
  { unfold instructions. rewrite P1 in Hs. destruct Hs as [(E & -> & ->) | E].
    - rewrite E. done.
    - rewrite E in Hlen |- *. rewrite length_app in Hlen. simpl in Hlen.
      destruct l; [|simpl in Hlen; lia]. simpl. rewrite app_nil_r. done. }
  destruct Hl as [-> Hg].
  split; [|split; [reflexivity|split; [reflexivity|split; [|split]]]].
  - exists args. rewrite Hst, Hsyn, Hg. done.
  - intros Hcs. pose proof (size_unset cs (Script.session w) Hcs) as [Hw Hh'].
    rewrite <- Es in Hw, Hh'. simpl in Hw, Hh'. unfold width, height.
    rewrite Hw, Hh'. done.
  - done.
  - intros cs'. apply run_with_page. done.
Qed.

Lemma newPage_spec w d width height wh :
  _isSinglePage d = false ->
  named_size mainScreen_size width height = Returned wh ->
  let size := if Py.is_None (fst wh) && Py.is_None (snd wh)
              then (DrawBotDrawingTool.width d, DrawBotDrawingTool.height d)
              else wh in
  newPage mainScreen_size width height (w, d) =
  (Returned tt,
   (snd (DummyContext w),
    added "newPage" [fst size; snd size] []
      (set__dummyContext (fst (DummyContext w))
         (set__hasPage true (set__height (snd size) (set__width (fst size) d)))))).
Proof.
  intros Hs Hn size.
  unfold newPage. unfold bind at 1. unfold self at 1, zoom, get. simpl.
  rewrite Hs. rewrite lift_bind, Hn.
  unfold bind, self, world, zoom, modify, total, DummyContext. simpl.
  rewrite _addInstruction_spec. reflexivity.
Qed.

Lemma newPage_group w d width height wh :
  _isSinglePage d = false ->
  named_size mainScreen_size width height = Returned wh ->
  let size := if Py.is_None (fst wh) && Py.is_None (snd wh)
              then (DrawBotDrawingTool.width d, DrawBotDrawingTool.height d)
              else wh in
  let r := newPage mainScreen_size width height (w, d) in
  fst r = Returned tt /\
  _instructionsStack (snd (snd r)) =
    _instructionsStack d ++ [[("newPage", [fst size; snd size], [])]] /\
  pageCount (snd (snd r)) = S (pageCount d).
Proof.
  intros Hs Hn size r.
  pose proof (newPage_spec w d width height wh Hs Hn) as E. fold size in E.
  subst r. rewrite E. simpl.
  destruct d as [stack dc wd0 ht0 rq hp sp]. simpl.
  unfold added, opened, needs_first_page. simpl. rewrite andb_false_r.
  destruct (stack ++ [[]]) eqn:E'; [destruct stack; discriminate|].
  rewrite <- E'. rewrite !alter_last. simpl.
  split; [done|]. split; [done|].
  unfold pageCount. simpl. rewrite length_app. simpl. apply Nat.add_1_r.
Qed.

(** C5.  Recording "newPage" always returns and adds a page group, whatever
    the log and its last group hold, and the new group ends with the call;
    the public [newPage] adds the group that holds just that call; and after
    [rect; newPage(w, h); oval] the page count is 2, the first group holding
    the made-up first page and the rectangle, the second the page and the
    oval. *)
Theorem newPage_starts_a_page_group :
  (forall (w : World) (d : t) (args : list pyval) (kw : Py.kwargs),
     exists d' g,
       _addInstruction "newPage" args kw (w, d) = (Returned tt, (w, d')) /\
       _instructionsStack d' = _instructionsStack d ++ [g] /\
       last g = Some ("newPage", args, kw) /\
       pageCount d' = S (pageCount d)) /\
  (forall (w : World) (d : t) (width height : pyval) (wh : pyval * pyval),
     _isSinglePage d = false ->
     named_size mainScreen_size width height = Returned wh ->
     let size := if Py.is_None (fst wh) && Py.is_None (snd wh)
                 then (DrawBotDrawingTool.width d, DrawBotDrawingTool.height d)
                 else wh in
     let r := newPage mainScreen_size width height (w, d) in
     fst r = Returned tt /\
     _instructionsStack (snd (snd r)) =
       _instructionsStack d ++ [[("newPage", [fst size; snd size], [])]] /\
     pageCount (snd (snd r)) = S (pageCount d)) /\
  (forall (w : World) (x y w1 h1 pw ph x' y' w2 h2 : pyval),
     is_number pw = true -> is_number ph = true ->
     let d := snd (run [Script.Rect x y w1 h1; Script.NewPage pw ph;
                        Script.Oval x' y' w2 h2] (Script.session w)) in
     _instructionsStack d =
       [[("newPage", [PInt 1000; PInt 1000], []); ("rect", [x; y; w1; h1], [])];
        [("newPage", [pw; ph], []); ("oval", [x'; y'; w2; h2], [])]] /\
     pageCount d = 2%nat).
Proof.
  split; [|split].
  - intros w d args kw. rewrite _addInstruction_spec.
    unfold added, opened. simpl.
    destruct (_instructionsStack d ++ [[]]) eqn:E;
      [destruct (_instructionsStack d); discriminate|].
    rewrite <- E. rewrite !alter_last.
    destruct (needs_first_page d).
    + eexists _, _. split; [reflexivity|]. destruct d; simpl. split; [reflexivity|].
      split; [done|]. unfold pageCount. simpl. rewrite length_app. simpl. apply Nat.add_1_r.
    + eexists _, _. split; [reflexivity|]. destruct d; simpl. split; [reflexivity|].
      split; [done|]. unfold pageCount. simpl. rewrite length_app. simpl. apply Nat.add_1_r.
  - intros w d wd ht wh Hs Hn. exact (newPage_group w d wd ht wh Hs Hn).
  - intros w x y w1 h1 pw ph x' y' w2 h2 Hw Hh.
    destruct pw; try discriminate; destruct ph; try discriminate; split; reflexivity.
Qed.

(** C8.  In every session [pages()] is the list, in recorded order, of the
    page groups whose first instruction is "newPage"; a group that starts
    with anything else is left out, as is the group that a session of a
    single [fontSize] call records, which [pageCount()] counts. *)
Theorem pages_are_the_groups_starting_with_newPage (w : World) (cs : list Script.call) :
  let d := snd (run cs (Script.session w)) in
  pages d = filter (fun g => starts_with_newPage g) (_instructionsStack d) /\
  (forall g, g ∈ _instructionsStack d -> starts_with_newPage g = false -> g ∉ pages d) /\
  pageCount d = length (_instructionsStack d) /\
  (forall v : pyval,
     let d0 := snd (run [Script.FontSize v] (Script.session w)) in
     _instructionsStack d0 = [[("fontSize", [v], [])]] /\
     pages d0 = [] /\ pageCount d0 = 1%nat).
Proof.
  intros d. pose proof (pages_starts d (reachable_script w cs)) as E.
  split; [exact E|]. split; [|split; [reflexivity|]].
  - intros g Hg Hs Hin. rewrite E in Hin. apply list_elem_of_filter in Hin as [Hp _].
    rewrite Hs in Hp. done.
  - intros v. repeat split.
Qed.

(** C10.  After drawing has begun, [size(w, h)] with two numbers raises, and
    the state it raises from has both numbers stored: [width()] and
    [height()] return them, a later [newPage()] without arguments records
    them, and so does the made-up first page when none exists yet. *)
Theorem size_after_drawing_has_begun (w : World) (d : t) (width height : pyval) :
  _isSinglePage d = false ->
  _instructionsStack d <> [] ->
  is_number width = true ->
  is_number height = true ->
  let d' := set__height height (set__width width d) in
  size mainScreen_size width height (w, d) =
    (Raised (DrawBotError
       "Can't use 'size()' after drawing has begun. Try to move it to the top of your script."),
     (w, d')) /\
  DrawBotDrawingTool.width d' = width /\
  DrawBotDrawingTool.height d' = height /\
  _instructionsStack (snd (snd (newPage mainScreen_size PNone PNone (w, d')))) =
    _instructionsStack d ++ [[("newPage", [width; height], [])]] /\
  (_hasPage d = false ->
   forall cb args, String.eqb cb "newPage" = false ->
   exists l g,
     _instructionsStack d = l ++ [g] /\
     _instructionsStack (snd (snd (record cb args (w, d')))) =
       l ++ [("newPage", [width; height], []) :: g ++ [(cb, args, [])]]).
Proof.
  intros Hs Hne Hw Hh d'.
  assert (Hn : named_size mainScreen_size width height = Returned (width, height)).
  { destruct width; try discriminate; reflexivity. }
  assert (Hwd : DrawBotDrawingTool.width d' = width).
  { subst d'. destruct d; destruct width; try discriminate; reflexivity. }
  assert (Hht : DrawBotDrawingTool.height d' = height).
  { subst d'. destruct d; destruct height; try discriminate; reflexivity. }
  split; [|split; [exact Hwd|split; [exact Hht|split]]].
  - unfold size. unfold bind at 1. unfold self at 1, zoom, get. simpl.
    rewrite Hs, lift_bind, Hn. simpl.
    assert (E : Py.is_None height && Py.is_float width = false)
      by (destruct height; try discriminate; reflexivity).
    rewrite E. unfold bind, self, zoom, modify, raise. simpl.
    destruct (_instructionsStack d) eqn:Est; [congruence|].
    subst d'. destruct d; simpl in *. reflexivity.
  - pose proof (newPage_group w d' PNone PNone (PNone, PNone)) as H.
    destruct H as (_ & H & _).
    + subst d'. destruct d; exact Hs.
    + reflexivity.
    + simpl in H. rewrite H, Hwd, Hht. subst d'. destruct d; reflexivity.
  - intros Hp cb args Hcb.
    destruct (_instructionsStack d) as [|g l _] eqn:Est using rev_ind; [congruence|].
    exists l, g. split; [done|]. rewrite record_spec. simpl.
    unfold added, opened, needs_first_page. rewrite Hcb.
    assert (Est' : _instructionsStack (set__requiresNewFirstPage true d') = l ++ [g])
      by (subst d'; destruct d; exact Est).
    assert (Hp' : _hasPage (set__requiresNewFirstPage true d') = false)
      by (subst d'; destruct d; exact Hp).
    rewrite Est', Hp'. simpl.
    destruct (l ++ [g]) eqn:E; [destruct l; discriminate|]. rewrite <- E.
    rewrite alter_last. simpl. unfold synthetic.
    replace (DrawBotDrawingTool.width (set__requiresNewFirstPage true d')) with width
      by (rewrite <- Hwd; subst d'; destruct d; reflexivity).
    replace (DrawBotDrawingTool.height (set__requiresNewFirstPage true d')) with height
      by (rewrite <- Hht; subst d'; destruct d; reflexivity).
    done.
Qed.

End RecorderFacts.

(** ** The graphics-state stack *)

(** C2.  [restore] on a context whose stack of saved states is empty raises
    the [DrawBotError] for the missing [save()] and leaves world and context
    as they were; the public [restore], which tries the call on the dummy
    context first, raises the same error from there, before it sets the flag
    or records anything: tool and world are as they were. *)
Theorem restore_on_empty_stack
    (w : World) (c : BaseContext.t) (d : DrawBotDrawingTool.t) :
  BaseContext._stack c = [] ->
  BaseContext._stack (DrawBotDrawingTool._dummyContext d) = [] ->
  BaseContext.restore (w, c) =
    (Raised (DrawBotError "can't restore graphics state: no matching save()"), (w, c)) /\
  DrawBotDrawingTool.restore (w, d) =
    (Raised (DrawBotError "can't restore graphics state: no matching save()"), (w, d)).
Proof.
  intros Hc Hd.
  assert (H : forall c', BaseContext._stack c' = [] ->
            BaseContext.restore (w, c') =
            (Raised (DrawBotError "can't restore graphics state: no matching save()"),
             (w, c'))).
  { intros c' E. unfold BaseContext.restore, bind, BaseContext.self, zoom, gets. simpl.
    rewrite E. simpl. destruct c'; reflexivity. }
  split; [apply H, Hc|].
  unfold DrawBotDrawingTool.restore, bind, DrawBotDrawingTool.dummy, zoom. simpl.
  rewrite (H _ Hd). simpl. destruct d; reflexivity.
Qed.

(** C9.  [lineJoin(None)] and [lineCap(None)] raise a [DrawBotError] from
    every context, and only after the assignment: the state they raise from
    has the attribute [None] and is the state before in everything else, so a
    context that held a style is not the one it was.  A style set by a call
    that returned is lost in this way. *)
Theorem lineJoin_lineCap_None (s : BaseContext.st) :
  let rj := BaseContext.lineJoin PNone s in
  let rc := BaseContext.lineCap PNone s in
  (fst rj =
     Raised (DrawBotError "lineJoin() argument must be 'bevel', 'miter' or 'round'") /\
   GraphicsState.lineJoin (current (snd rj)) = None /\
   snd rj =
     (fst s, BaseContext.set__state
               (GraphicsState.set_lineJoin None (current s)) (snd s)) /\
   (forall j, GraphicsState.lineJoin (current s) = Some j -> snd rj <> s)) /\
  (fst rc =
     Raised (DrawBotError "lineCap() argument must be 'butt', 'square' or 'round'") /\
   GraphicsState.lineCap (current (snd rc)) = None /\
   snd rc =
     (fst s, BaseContext.set__state
               (GraphicsState.set_lineCap None (current s)) (snd s)) /\
   (forall k, GraphicsState.lineCap (current s) = Some k -> snd rc <> s)) /\
  (let s1 := snd (BaseContext.lineJoin (PStr "round") s) in
   GraphicsState.lineJoin (current s1) = Some kCGLineJoinRound /\
   GraphicsState.lineJoin (current (snd (BaseContext.lineJoin PNone s1))) = None) /\
  (let s1 := snd (BaseContext.lineCap (PStr "round") s) in
   GraphicsState.lineCap (current s1) = Some kCGLineCapRound /\
   GraphicsState.lineCap (current (snd (BaseContext.lineCap PNone s1))) = None).
Proof.
  destruct s as [w [wd ht hp stack st]]. cbv zeta. unfold current.
  split; [|split; [|split]].
  - split; [reflexivity|]. split; [destruct st; reflexivity|]. split; [reflexivity|].
    intros j Hj H. apply (f_equal (fun x => GraphicsState.lineJoin (current x))) in H.
    unfold current in H. simpl in H, Hj. destruct st; simpl in *. congruence.
  - split; [reflexivity|]. split; [destruct st; reflexivity|]. split; [reflexivity|].
    intros k Hk H. apply (f_equal (fun x => GraphicsState.lineCap (current x))) in H.
    unfold current in H. simpl in H, Hk. destruct st; simpl in *. congruence.
  - destruct st; split; reflexivity.
  - destruct st; split; reflexivity.
Qed.

Lemma gradient_bind (w : World) (c : BaseContext.t) kind sp ep colors locs sr er
    (k : Gradient.t -> M BaseContext.st unit) :
  bind (BaseContext._gradientClass kind sp ep colors locs sr er) k (w, c) =
  match Gradient.__init__ (Color_colorSpace w) kind sp ep colors locs sr er with
  | Returned g => k g (w, c)
  | Raised e => (Raised e, (w, c))
  end.
Proof.
  unfold BaseContext._gradientClass, bind, BaseContext.world, zoom, gets, lift. simpl.
  destruct (Gradient.__init__ _ _ _ _ _ _ _ _); destruct c; reflexivity.
Qed.

(** C4, as amended.  [fill] with a colour sets the plain fill and removes
    the CMYK fill and the gradient.  A gradient setter called with a start
    point and an accepted list of colours sets the gradient and removes the
    plain and the CMYK fill; called without a start point it removes the
    gradient and sets the fill to black; where the gradient is not accepted
    it raises and changes nothing.  After each call that returns exactly one
    of plain fill and gradient is active, and after a gradient setter
    followed by [fill(1, 0, 0)] it is the plain fill. *)
Theorem fill_and_gradient_setters (w : World) (c : BaseContext.t) :
  (forall r g b a,
     r <> PNone ->
     let res := BaseContext.fill r g b a (w, c) in
     fst res = Returned tt /\
     GraphicsState.fillColor (current (snd res)) =
       Some (Color.__init__ (Color_colorSpace w) r g b a) /\
     GraphicsState.cmykFillColor (current (snd res)) = None /\
     GraphicsState.gradient (current (snd res)) = None /\
     active_fill_mode (current (snd res)) = PlainFill) /\
  (forall sp ep colors locs gr,
     sp <> PNone ->
     Gradient.__init__ (Color_colorSpace w) "linear" sp ep colors locs PNone PNone
       = Returned gr ->
     let res := BaseContext.linearGradient sp ep colors locs (w, c) in
     fst res = Returned tt /\
     GraphicsState.gradient (current (snd res)) = Some gr /\
     GraphicsState.fillColor (current (snd res)) = None /\
     GraphicsState.cmykFillColor (current (snd res)) = None /\
     active_fill_mode (current (snd res)) = GradientFill) /\
  (forall sp ep colors locs sr er gr,
     sp <> PNone ->
     Gradient.__init__ (Color_colorSpace w) "radial" sp ep colors locs sr er
       = Returned gr ->
     let res := BaseContext.radialGradient sp ep colors locs sr er (w, c) in
     fst res = Returned tt /\
     GraphicsState.gradient (current (snd res)) = Some gr /\
     GraphicsState.fillColor (current (snd res)) = None /\
     GraphicsState.cmykFillColor (current (snd res)) = None /\
     active_fill_mode (current (snd res)) = GradientFill) /\
  (forall ep colors locs sr er,
     let black := Some (Color.__init__ (Color_colorSpace w) (PInt 0) PNone PNone (PInt 1)) in
     let lin := BaseContext.linearGradient PNone ep colors locs (w, c) in
     let rad := BaseContext.radialGradient PNone ep colors locs sr er (w, c) in
     fst lin = Returned tt /\ fst rad = Returned tt /\ snd lin = snd rad /\
     GraphicsState.gradient (current (snd lin)) = None /\
     GraphicsState.fillColor (current (snd lin)) = black /\
     active_fill_mode (current (snd lin)) = PlainFill) /\
  (forall sp ep colors locs sr er e,
     sp <> PNone ->
     (Gradient.__init__ (Color_colorSpace w) "linear" sp ep colors locs PNone PNone
        = Raised e ->
      BaseContext.linearGradient sp ep colors locs (w, c) = (Raised e, (w, c))) /\
     (Gradient.__init__ (Color_colorSpace w) "radial" sp ep colors locs sr er
        = Raised e ->
      BaseContext.radialGradient sp ep colors locs sr er (w, c) = (Raised e, (w, c)))) /\
  (forall sp ep colors locs,
     let s1 := snd (BaseContext.linearGradient sp ep colors locs (w, c)) in
     active_fill_mode
       (current (snd (BaseContext.fill (PInt 1) (PInt 0) (PInt 0) (PInt 1) s1)))
       = PlainFill).
Proof.
  repeat apply conj.
  - intros r g b a Hr. destruct r; try congruence; repeat split.
  - intros sp ep colors locs gr Hs Hg res. subst res.
    unfold BaseContext.linearGradient.
    destruct sp; try congruence; simpl; rewrite gradient_bind, Hg; repeat split.
  - intros sp ep colors locs sr er gr Hs Hg res. subst res.
    unfold BaseContext.radialGradient.
    destruct sp; try congruence; simpl; rewrite gradient_bind, Hg; repeat split.
  - intros ep colors locs sr er. repeat split.
  - intros sp ep colors locs sr er e Hs. split; intros Hg.
    + unfold BaseContext.linearGradient.
      destruct sp; try congruence; simpl; rewrite gradient_bind, Hg; reflexivity.
    + unfold BaseContext.radialGradient.
      destruct sp; try congruence; simpl; rewrite gradient_bind, Hg; reflexivity.
  - intros sp ep colors locs s1. destruct s1 as [w1 c1]. reflexivity.
Qed.

(** The claim C4 as it is written fails where a gradient setter is called
    without a start point: on a new context [linearGradient()] returns and
    the plain fill colour is not removed, it is black. *)
Lemma linearGradient_without_start_point_keeps_a_fill :
  let res := BaseContext.linearGradient PNone PNone PNone PNone (new_context World_init) in
  fst res = Returned tt /\
  GraphicsState.fillColor (current (snd res)) =
    Some (Color.__init__ genericRGBColorSpace (PInt 0) PNone PNone (PInt 1)) /\
  GraphicsState.fillColor (current (snd res)) <> None.
Proof. repeat split. discriminate. Qed.

Section Colours.

Variable cmyk2rgb : pyval -> pyval -> pyval -> pyval -> pyval * pyval * pyval.

(** C7, as amended.  After [fill] or [stroke] with a colour the RGB colour
    of the role is set and the CMYK colour is [None]; after [cmykFill] or
    [cmykStroke] with a colour the CMYK colour is set and the RGB colour is
    set too, to the colour made from [cmyk2rgb]; with [None] as first
    argument both are [None].  In the text attributes of the state the two
    exclude each other. *)
Theorem rgb_and_cmyk_colours (w : World) (ctx : BaseContext.t) :
  (forall r g b a,
     r <> PNone ->
     let f := current (snd (BaseContext.fill r g b a (w, ctx))) in
     let s := current (snd (BaseContext.stroke r g b a (w, ctx))) in
     GraphicsState.fillColor f = Some (Color.__init__ (Color_colorSpace w) r g b a) /\
     GraphicsState.cmykFillColor f = None /\
     FormattedString._cmykFill (GraphicsState.text f) = PNone /\
     GraphicsState.strokeColor s = Some (Color.__init__ (Color_colorSpace w) r g b a) /\
     GraphicsState.cmykStrokeColor s = None /\
     FormattedString._cmykStroke (GraphicsState.text s) = PNone) /\
  (forall c m y k a,
     c <> PNone ->
     let rgb := let '(r, g, b) := cmyk2rgb c m y k in
                Color.__init__ (Color_colorSpace w) r g b a in
     let f := current (snd (BaseContext.cmykFill cmyk2rgb c m y k a (w, ctx))) in
     let s := current (snd (BaseContext.cmykStroke cmyk2rgb c m y k a (w, ctx))) in
     GraphicsState.cmykFillColor f = Some (CMYKColor.__init__ c m y k a) /\
     GraphicsState.fillColor f = Some rgb /\
     FormattedString._fill (GraphicsState.text f) = PNone /\
     GraphicsState.cmykStrokeColor s = Some (CMYKColor.__init__ c m y k a) /\
     GraphicsState.strokeColor s = Some rgb /\
     FormattedString._stroke (GraphicsState.text s) = PNone) /\
  (forall g b a m y k,
     let f1 := current (snd (BaseContext.fill PNone g b a (w, ctx))) in
     let f2 := current (snd (BaseContext.cmykFill cmyk2rgb PNone m y k a (w, ctx))) in
     let s1 := current (snd (BaseContext.stroke PNone g b a (w, ctx))) in
     let s2 := current (snd (BaseContext.cmykStroke cmyk2rgb PNone m y k a (w, ctx))) in
     GraphicsState.fillColor f1 = None /\ GraphicsState.cmykFillColor f1 = None /\
     GraphicsState.fillColor f2 = None /\ GraphicsState.cmykFillColor f2 = None /\
     GraphicsState.strokeColor s1 = None /\ GraphicsState.cmykStrokeColor s1 = None /\
     GraphicsState.strokeColor s2 = None /\ GraphicsState.cmykStrokeColor s2 = None).
Proof.
  repeat apply conj.
  - intros r g b a Hr. destruct r; try congruence; repeat split.
  - intros c m y k a Hc.
    unfold BaseContext.cmykFill, BaseContext.cmykStroke.
    destruct c; try congruence; simpl;
      destruct (cmyk2rgb _ m y k) as [[r0 g0] b0]; repeat split.
  - intros g b a m y k. repeat split.
Qed.

End Colours.

(** The claim C7 as it is written fails after [cmykFill]: on a new context
    [cmykFill(0, 0, 0, 1)] leaves both the CMYK and the RGB fill colour
    set. *)
Lemma cmykFill_sets_both_colours :
  let s := current (snd (BaseContext.cmykFill sample_cmyk2rgb
                           (PInt 0) (PInt 0) (PInt 0) (PInt 1) (PInt 1)
                           (new_context World_init))) in
  GraphicsState.cmykFillColor s <> None /\ GraphicsState.fillColor s <> None.
Proof. split; discriminate. Qed.

(** C1, the failing input.  On a new context [cmykFill(0, 0, 0, 1)], then
    [save()], then [restore()]: both return, and the CMYK fill colour, which
    carried its components in [_cmyka] before the [save()], has no [_cmyka]
    after the [restore()], so the state is not the one saved. *)
Theorem save_restore_drops_cmyka :
  let s1 := snd (BaseContext.cmykFill sample_cmyk2rgb
                   (PInt 0) (PInt 0) (PInt 0) (PInt 1) (PInt 1)
                   (new_context World_init)) in
  let saved := BaseContext.save s1 in
  let restored := BaseContext.restore (snd saved) in
  fst saved = Returned tt /\
  fst restored = Returned tt /\
  CMYKColor._cmyka <$> GraphicsState.cmykFillColor (current s1) =
    Some (Some (PInt 0, PInt 0, PInt 0, PInt 1, PInt 1)) /\
  CMYKColor._cmyka <$> GraphicsState.cmykFillColor (current (snd restored)) = Some None /\
  current (snd restored) <> current s1.
Proof.
  cbv zeta. repeat apply conj; try (vm_compute; reflexivity).
  intros E.
  apply (f_equal (fun s => CMYKColor._cmyka <$> GraphicsState.cmykFillColor s)) in E.
  vm_compute in E. discriminate.
Qed.

(** ** Replay *)

Section Replay.

Import DrawBotDrawingTool Recorder.

Lemma forM__app {S A} (l1 l2 : list A) (f : A -> M S unit) (s : S) :
  forM_ (l1 ++ l2) f s =
  match forM_ l1 f s with
  | (Returned _, s') => forM_ l2 f s'
  | (Raised e, s') => (Raised e, s')
  end.
Proof.
  revert s. induction l1 as [|x l1 IH]; intros s; simpl; [done|].
  unfold bind. destruct (f x s) as [[[]|e] s']; [apply IH|done].
Qed.

Lemma note_group (g : list instruction) (w : World) (seen : list instruction) :
  forM_ g (fun '(callback, args, kw) =>
    match noting_canvas callback with
    | Some attr => attr args kw
    | None => raise (AttributeError callback)
    end) (w, seen) = (Returned tt, (w, seen ++ g)).
Proof.
  revert seen. induction g as [|[[cb args] kw] g IH]; intros seen; simpl.
  - rewrite app_nil_r. done.
  - unfold bind, modify. simpl. rewrite IH. rewrite <- app_assoc. done.
Qed.

(** Replay hands the canvas every recorded call, in the order of the log and
    with the recorded arguments, and nothing else; it is given the tool to
    read and has no tool to return. *)
Lemma replay_notes_the_log (d : t) (w : World) :
  _drawInContext noting_canvas d (w, []) = (Returned tt, (w, instructions d)).
Proof.
  unfold _drawInContext, instructions.
  assert (H : forall stack seen,
    forM_ stack (fun instructionSet : list instruction =>
      forM_ instructionSet (fun '(callback, args, kw) =>
        match noting_canvas callback with
        | Some attr => attr args kw
        | None => raise (AttributeError callback)
        end)) (w, seen) = (Returned tt, (w, seen ++ concat stack))).
  { induction stack as [|g stack IH]; intros seen; simpl.
    - rewrite app_nil_r. done.
    - unfold bind. rewrite note_group. rewrite IH. rewrite <- app_assoc. done. }
  apply (H _ []).
Qed.

(** So a session of calls that return is replayed as those calls, one canvas
    call each, and at most one made-up page more. *)
Lemma replay_length mainScreen_size transformationAtCenter (w : World)
    (cs : list Script.call) :
  let s := Script.run mainScreen_size transformationAtCenter cs (Script.session w) in
  let n := Script.returned mainScreen_size transformationAtCenter cs (Script.session w) in
  exists calls,
    _drawInContext noting_canvas (snd s) (fst s, []) = (Returned tt, (fst s, calls)) /\
    (n <= length calls <= n + 1)%nat.
Proof.
  intros s n. exists (instructions (snd s)). split; [apply replay_notes_the_log|].
  pose proof (log_length mainScreen_size transformationAtCenter cs (Script.session w)) as H.
  unfold instruction_count in H. simpl in H. subst s n. lia.
Qed.

End Replay.

(** C6, the failing input.  A script holds a path with a rectangle
    (location 0) and calls [drawPath(path)] and [lineTo((200, 200))].  The
    log then holds the made-up page, [drawPath] with the recorded copy of the
    path (location 1) and [lineTo].  Replayed on a new context, [drawPath]
    makes the recorded object the current path and [lineTo] extends it: after
    the replay the recorded path has one element more.  A second replay on
    another new context hands [drawPath] that longer path, extends it again,
    and ends with a current path other than that of the first replay. *)
Theorem replay_extends_the_recorded_path :
  let rectangle :=
    BezierPath.rect (PInt 0) (PInt 0) (PInt 100) (PInt 100) BezierPath.__init__ in
  let pt := PTuple [PInt 200; PInt 200] in
  let s := Script.run sample_mainScreen_size sample_transformationAtCenter
             [Script.DrawPath (PPath 0); Script.LineTo pt]
             (Script.session (set_paths [rectangle] World_init)) in
  let replay := DrawBotDrawingTool._drawInContext (BaseContext_getattr sample_cmyk2rgb) in
  let first := replay (snd s) (new_context (fst s)) in
  let second := replay (snd s) (new_context (fst (snd first))) in
  DrawBotDrawingTool._instructionsStack (snd s) =
    [[("newPage", [PInt 1000; PInt 1000], []);
      ("drawPath", [PPath 1], []);
      ("lineTo", [pt], [])]] /\
  paths (fst s) !! 1%nat = Some rectangle /\
  fst first = Returned tt /\
  paths (fst (snd first)) !! 1%nat = Some (BezierPath.lineTo pt rectangle) /\
  fst second = Returned tt /\
  paths (fst (snd second)) !! 1%nat =
    Some (BezierPath.lineTo pt (BezierPath.lineTo pt rectangle)) /\
  deref (fst (snd first)) (GraphicsState.path (current (snd first))) <>
  deref (fst (snd second)) (GraphicsState.path (current (snd second))).
Proof.
  cbv zeta. repeat apply conj; try (vm_compute; reflexivity).
  vm_compute. discriminate.
Qed.

(** ** The statements on concrete inputs *)

(** [restore()] as the first call on a new context and on a new tool. *)
Lemma restore_on_empty_stack_witness :
  let c := fst (BaseContext.__init__ World_init) in
  let d := fst (DrawBotDrawingTool.__init__ World_init) in
  BaseContext._stack c = [] /\
  BaseContext._stack (DrawBotDrawingTool._dummyContext d) = [] /\
  BaseContext.restore (World_init, c) =
    (Raised (DrawBotError "can't restore graphics state: no matching save()"),
     (World_init, c)) /\
  DrawBotDrawingTool.restore (World_init, d) =
    (Raised (DrawBotError "can't restore graphics state: no matching save()"),
     (World_init, d)).
Proof.
  cbv zeta. split; [reflexivity|]. split; [reflexivity|].
  apply (restore_on_empty_stack World_init
           (fst (BaseContext.__init__ World_init))
           (fst (DrawBotDrawingTool.__init__ World_init))); reflexivity.
Defined.

(** [fontSize(12)], then [rect(0, 0, 10, 10)] as the first drawing call. *)
Lemma synthetic_first_page_witness :
  let c := Script.Rect (PInt 0) (PInt 0) (PInt 10) (PInt 10) in
  let s := Script.run sample_mainScreen_size sample_transformationAtCenter
             [Script.FontSize (PInt 12)] (Script.session World_init) in
  let s' := snd (Script.exec sample_mainScreen_size sample_transformationAtCenter c s) in
  Recorder.is_drawing_call c = true /\
  DrawBotDrawingTool._hasPage (snd s) = false /\
  Script.returns sample_mainScreen_size sample_transformationAtCenter c s = true /\
  (exists args,
     DrawBotDrawingTool._instructionsStack (snd s') =
       [[("newPage", [PInt 1000; PInt 1000], []);
         ("fontSize", [PInt 12], []);
         ("rect", args, [])]]) /\
  DrawBotDrawingTool._hasPage (snd s') = true.
Proof.
  cbv zeta. split; [reflexivity|]. split; [reflexivity|]. split; [reflexivity|].
  pose proof (synthetic_first_page sample_mainScreen_size sample_transformationAtCenter
                World_init [Script.FontSize (PInt 12)]
                (Script.Rect (PInt 0) (PInt 0) (PInt 10) (PInt 10))
                eq_refl eq_refl eq_refl) as H.
  split; [exact (proj1 H)|exact (proj1 (proj2 (proj2 (proj2 (proj2 H)))))].
Defined.

(** [newPage(200, 300)] on a new tool, and [rect; newPage(200, 300); oval]. *)
Lemma newPage_starts_a_page_group_witness :
  let d := fst (DrawBotDrawingTool.__init__ World_init) in
  let r := DrawBotDrawingTool.newPage sample_mainScreen_size (PInt 200) (PInt 300)
             (World_init, d) in
  let d3 := snd (Script.run sample_mainScreen_size sample_transformationAtCenter
                   [Script.Rect (PInt 0) (PInt 0) (PInt 10) (PInt 10);
                    Script.NewPage (PInt 200) (PInt 300);
                    Script.Oval (PInt 5) (PInt 5) (PInt 20) (PInt 20)]
                   (Script.session World_init)) in
  DrawBotDrawingTool._isSinglePage d = false /\
  DrawBotDrawingTool.named_size sample_mainScreen_size (PInt 200) (PInt 300)
    = Returned (PInt 200, PInt 300) /\
  is_number (PInt 200) = true /\ is_number (PInt 300) = true /\
  DrawBotDrawingTool.pageCount (snd (snd r)) = 1%nat /\
  DrawBotDrawingTool.pageCount d3 = 2%nat.
Proof.
  cbv zeta. split; [reflexivity|]. split; [reflexivity|].
  split; [reflexivity|]. split; [reflexivity|].
  destruct (newPage_starts_a_page_group sample_mainScreen_size
              sample_transformationAtCenter) as (_ & H2 & H3).
  split.
  - exact (proj2 (proj2 (H2 World_init (fst (DrawBotDrawingTool.__init__ World_init))
                           (PInt 200) (PInt 300) (PInt 200, PInt 300) eq_refl eq_refl))).
  - exact (proj2 (H3 World_init (PInt 0) (PInt 0) (PInt 10) (PInt 10)
                     (PInt 200) (PInt 300) (PInt 5) (PInt 5) (PInt 20) (PInt 20)
                     eq_refl eq_refl)).
Defined.

(** [rect(0, 0, 10, 10)], then [size(200, 300)]. *)
Lemma size_after_drawing_has_begun_witness :
  let s := Script.run sample_mainScreen_size sample_transformationAtCenter
             [Script.Rect (PInt 0) (PInt 0) (PInt 10) (PInt 10)]
             (Script.session World_init) in
  let r := DrawBotDrawingTool.size sample_mainScreen_size (PInt 200) (PInt 300) s in
  DrawBotDrawingTool._isSinglePage (snd s) = false /\
  DrawBotDrawingTool._instructionsStack (snd s) <> [] /\
  is_number (PInt 200) = true /\ is_number (PInt 300) = true /\
  fst r = Raised (DrawBotError
    "Can't use 'size()' after drawing has begun. Try to move it to the top of your script.") /\
  DrawBotDrawingTool.width (snd (snd r)) = PInt 200 /\
  DrawBotDrawingTool.height (snd (snd r)) = PInt 300.
Proof.
  cbv zeta. split; [reflexivity|]. split; [discriminate|].
  split; [reflexivity|]. split; [reflexivity|].
  pose proof (size_after_drawing_has_begun sample_mainScreen_size
    (fst (Script.run sample_mainScreen_size sample_transformationAtCenter
            [Script.Rect (PInt 0) (PInt 0) (PInt 10) (PInt 10)]
            (Script.session World_init)))
    (snd (Script.run sample_mainScreen_size sample_transformationAtCenter
            [Script.Rect (PInt 0) (PInt 0) (PInt 10) (PInt 10)]
            (Script.session World_init)))
    (PInt 200) (PInt 300) eq_refl ltac:(discriminate) eq_refl eq_refl) as (H1 & H2 & H3 & _).
  split; [exact (f_equal fst H1)|]. split; [exact H2 | exact H3].
Defined.

(** On a new context: [fill(1, 0, 0)]; [linearGradient((0, 0), (100, 100),
    [(1, 0, 0), (0, 0, 1)])]; and the same with a single colour, which is
    not accepted. *)
Lemma fill_and_gradient_setters_witness :
  let s := new_context World_init in
  let colors := PList [PTuple [PInt 1; PInt 0; PInt 0]; PTuple [PInt 0; PInt 0; PInt 1]] in
  let sp := PTuple [PInt 0; PInt 0] in
  let ep := PTuple [PInt 100; PInt 100] in
  PInt 1 <> PNone /\ sp <> PNone /\
  (exists gr, Gradient.__init__ genericRGBColorSpace "linear" sp ep colors PNone PNone PNone
                = Returned gr) /\
  active_fill_mode (current (snd (BaseContext.fill (PInt 1) (PInt 0) (PInt 0) (PInt 1) s)))
    = PlainFill /\
  active_fill_mode (current (snd (BaseContext.linearGradient sp ep colors PNone s)))
    = GradientFill /\
  BaseContext.linearGradient sp ep (PList [PTuple [PInt 1; PInt 0; PInt 0]]) PNone s =
    (Raised (DrawBotError "Gradient needs at least 2 colors"), s).
Proof.
  cbv zeta. split; [discriminate|]. split; [discriminate|].
  split; [eexists; vm_compute; reflexivity|].
  destruct (fill_and_gradient_setters World_init (fst (BaseContext.__init__ World_init)))
    as (H1 & H2 & _ & _ & H5 & _).
  split; [|split].
  - exact (proj2 (proj2 (proj2 (proj2
             (H1 (PInt 1) (PInt 0) (PInt 0) (PInt 1) ltac:(discriminate)))))).
  - exact (proj2 (proj2 (proj2 (proj2
             (H2 (PTuple [PInt 0; PInt 0]) (PTuple [PInt 100; PInt 100])
                 (PList [PTuple [PInt 1; PInt 0; PInt 0]; PTuple [PInt 0; PInt 0; PInt 1]])
                 PNone _ ltac:(discriminate) eq_refl))))).
  - exact (proj1 (H5 (PTuple [PInt 0; PInt 0]) (PTuple [PInt 100; PInt 100])
                     (PList [PTuple [PInt 1; PInt 0; PInt 0]]) PNone PNone PNone _
                     ltac:(discriminate)) eq_refl).
Defined.

(** On a new context: [fill(1, 0, 0)] and [cmykFill(0, 0, 0, 1)]. *)
Lemma rgb_and_cmyk_colours_witness :
  let s := new_context World_init in
  let f := current (snd (BaseContext.fill (PInt 1) (PInt 0) (PInt 0) (PInt 1) s)) in
  let k := current (snd (BaseContext.cmykFill sample_cmyk2rgb
                           (PInt 0) (PInt 0) (PInt 0) (PInt 1) (PInt 1) s)) in
  PInt 1 <> PNone /\ PInt 0 <> PNone /\
  GraphicsState.cmykFillColor f = None /\
  GraphicsState.cmykFillColor k =
    Some (CMYKColor.__init__ (PInt 0) (PInt 0) (PInt 0) (PInt 1) (PInt 1)) /\
  GraphicsState.fillColor k =
    Some (Color.__init__ genericRGBColorSpace (PFloat 0) (PFloat 0) (PFloat 0) (PInt 1)).
Proof.
  cbv zeta. split; [discriminate|]. split; [discriminate|].
  destruct (rgb_and_cmyk_colours sample_cmyk2rgb World_init
              (fst (BaseContext.__init__ World_init))) as (H1 & H2 & _).
  split; [|split].
  - exact (proj1 (proj2 (H1 (PInt 1) (PInt 0) (PInt 0) (PInt 1) ltac:(discriminate)))).
  - exact (proj1 (H2 (PInt 0) (PInt 0) (PInt 0) (PInt 1) (PInt 1) ltac:(discriminate))).
  - exact (proj1 (proj2 (H2 (PInt 0) (PInt 0) (PInt 0) (PInt 1) (PInt 1)
                           ltac:(discriminate)))).
Defined.

(** * Further properties *)

(** ** The recorder, call by call *)

Section RecorderCalls.

Import DrawBotDrawingTool Recorder.

Variable mainScreen_size : pyval * pyval.
Variable transformationAtCenter : pyval -> pyval -> pyval.

#[local] Abbreviation exec := (Script.exec mainScreen_size transformationAtCenter).
#[local] Abbreviation run := (Script.run mainScreen_size transformationAtCenter).
#[local] Abbreviation returned := (Script.returned mainScreen_size transformationAtCenter).

(** X1.  A public callback that raises has recorded nothing: the log, and
    with it [pageCount()] and [pages()], is as before the call, and so is
    [_hasPage]; unless the call is [size] or [newPage], [width()] and
    [height()] are as before too. *)
Theorem failed_call_records_nothing (c : Script.call) (s : st) (e : exn) :
  fst (exec c s) = Raised e ->
  let s' := snd (exec c s) in
  _instructionsStack (snd s') = _instructionsStack (snd s) /\
  pageCount (snd s') = pageCount (snd s) /\
  pages (snd s') = pages (snd s) /\
  _hasPage (snd s') = _hasPage (snd s) /\
  (is_page_call c = false ->
   width (snd s') = width (snd s) /\ height (snd s') = height (snd s)).
Proof.
  destruct s as [w d]. intros He. cbv zeta.
  pose proof (exec_shape mainScreen_size transformationAtCenter c w d) as H.
  destruct (exec c (w, d)) as [[[]|e'] [w' d']]; simpl in *; [discriminate|].
  destruct H as [U1 U2 U3 U4 U5].
  unfold pageCount, pages, width, height. rewrite U1.
  split; [done|]. split; [done|]. split; [done|]. split; [done|].
  intros Hc. destruct (U5 Hc) as [-> ->]. done.
Qed.

(** *** What a returning callback has recorded *)

Ltac recorded_case :=
  rewrite record_spec; eexists _, _; split; [reflexivity|];
  split; [split; simpl; auto|reflexivity].

Ltac checked_case :=
  rewrite dummy_bind;
  match goal with
  | |- context [?m (?w, _dummyContext ?d)] =>
      destruct (m (w, _dummyContext d)) as [[[]|e] [w' c']]
  end;
  [ rewrite _addInstruction_spec; eexists _, _; split; [reflexivity|];
    split; [split; simpl; auto|reflexivity]
  | exact I ].

Ltac stacked_case :=
  rewrite dummy_bind;
  match goal with
  | |- context [?m (?w, _dummyContext ?d)] =>
      destruct (m (w, _dummyContext d)) as [[[]|e] [w' c']]
  end;
  [ unfold requiresNewFirstPage, bind, self, zoom, modify; simpl;
    rewrite _addInstruction_spec; eexists _, _; split; [reflexivity|];
    split; [split; simpl; auto|reflexivity]
  | exact I ].

Lemma newPage_recorded c width height w d :
  is_page_call c = true -> callback c = "newPage" ->
  match newPage mainScreen_size width height (w, d) with
  | (Returned _, (_, d')) =>
      exists d'' args,
        d' = added (callback c) args [] d'' /\ prepared c d d'' /\
        args = [_width d''; _height d'']
  | (Raised _, _) => True
  end.
Proof.
  intros Hp Hc.
  unfold newPage. unfold bind at 1. unfold self at 1, zoom, get. simpl.
  destruct (_isSinglePage d) eqn:Hs; [exact I|].
  rewrite lift_bind. destruct (named_size _ _ _) as [wh|e]; [|exact I].
  unfold bind, self, world, zoom, modify, total, DummyContext. simpl.
  rewrite _addInstruction_spec. rewrite Hc. eexists _, _. split; [reflexivity|].
  assert (Hd : is_drawing_call c = false) by (destruct c; simpl in *; congruence).
  split; [|destruct d; reflexivity].
  destruct d; split; simpl in *; rewrite ?Hp, ?Hd; auto.
Qed.

Lemma transform_recorded c matrix center w d :
  is_page_call c = false -> is_drawing_call c = true -> callback c = "transform" ->
  match transform transformationAtCenter matrix center (w, d) with
  | (Returned _, (_, d')) =>
      exists d'',
        d' = added (callback c) [recorded_matrix transformationAtCenter matrix center] [] d'' /\
        prepared c d d''
  | (Raised _, _) => True
  end.
Proof.
  intros Hp Hd Hc. unfold transform, requiresNewFirstPage, bind, self, zoom, modify. simpl.
  rewrite _addInstruction_spec. eexists. rewrite Hc. split; [reflexivity|].
  destruct d; split; simpl; rewrite ?Hp, ?Hd; auto.
Qed.

(** A callback that returns has recorded one call under its own name, with
    the arguments of [recorded_arguments], or with the page size it has
    stored if it is [newPage] or [size]. *)
Lemma exec_recorded c w d :
  match exec c (w, d) with
  | (Returned _, (_, d')) =>
      exists d'' args,
        d' = added (callback c) args [] d'' /\ prepared c d d'' /\
        if is_page_call c then args = [_width d''; _height d'']
        else recorded_arguments transformationAtCenter c (w, d) = Some args
  | (Raised _, _) => True
  end.
Proof.
  destruct c; cbn [Script.exec callback is_page_call recorded_arguments fst snd].
  all: try (unfold rect, oval, newPath, arc, closePath, clipPath, colorSpace, fill, stroke,
    cmykFill, cmykStroke, opacity, shadow, cmykShadow, linearGradient, cmykLinearGradient,
    radialGradient, cmykRadialGradient, strokeWidth, miterLimit, lineJoin, lineCap, lineDash;
    recorded_case).
  all: try (unfold fontSize, lineHeight, tracking, baselineShift, underline, strikethrough,
    url, hyphenation, writingDirection; checked_case).
  all: try (unfold moveTo, lineTo, curveTo, arcTo, recorded_point; rewrite ?point_cases;
    repeat (match goal with |- context [Py.unpack2 ?x] => destruct (Py.unpack2 x) end;
            rewrite ?point_cases);
    try exact I; recorded_case).
  - (* newPage *)
    pose proof (newPage_recorded (Script.NewPage width0 height0) width0 height0 w d
                  eq_refl eq_refl) as H.
    destruct (newPage _ _ _ _) as [[[]|e] [w' d']]; [|exact I].
    destruct H as (d'' & args & H1 & H2 & H3). exists d'', args. done.
  - (* size *)
    unfold size. unfold bind at 1. unfold self at 1, zoom, get. simpl.
    destruct (_isSinglePage d) eqn:Hs; [exact I|].
    rewrite lift_bind. destruct (named_size _ _ _) as [wh|e]; [|exact I].
    set (wh' := if Py.is_None wh.2 && Py.is_float wh.1 then (wh.1, wh.1) else wh).
    unfold bind at 1. unfold self at 1, zoom, modify. simpl.
    unfold bind at 1. unfold self at 1, zoom, modify. simpl.
    destruct (_instructionsStack d) eqn:Hst; [|exact I].
    lazymatch goal with
    | |- context [Script.Size ?a ?b] =>
        pose proof (newPage_recorded (Script.Size a b) wh'.1 wh'.2 w
                      (set__height wh'.2 (set__width wh'.1 d)) eq_refl eq_refl) as H
    end.
    destruct (newPage _ _ _ _) as [[[]|e] [w' d']]; [|exact I].
    destruct H as (d'' & args & -> & [H1 H2 H3 H4] & H5). exists d'', args.
    split; [done|]. split; [|exact H5].
    destruct d; split; simpl in *; auto; try congruence.
  - (* save *) unfold save. stacked_case.
  - (* restore *) unfold restore. stacked_case.
  - (* drawPath *)
    unfold drawPath. destruct path; try (unfold bind at 1, ret; recorded_case).
    unfold bind at 1. unfold bind at 1. unfold world at 1, zoom. simpl.
    unfold copy_path.
    match goal with
    | |- context [@lookup ?a ?b ?c ?i ?k (paths w)] =>
        destruct (@lookup a b c i k (paths w)) as [p|]
    end; simpl; [|exact I].
    unfold ret. recorded_case.
  - (* blendMode *)
    unfold blendMode. destruct (negb (Py.hashable operation)); [exact I|].
    destruct (negb _); [exact I|]. recorded_case.
  - (* transform *)
    pose proof (transform_recorded (Script.Transform matrix center) matrix center w d
                  eq_refl eq_refl eq_refl) as H.
    destruct (transform _ _ _ _) as [[[]|e] [w' d']]; [|exact I].
    destruct H as (d'' & H1 & H2). eexists d'', _.
    split; [exact H1|]. split; [exact H2|reflexivity].
  - (* translate *)
    unfold translate.
    pose proof (transform_recorded (Script.Translate x y)
                  (PTuple [PInt 1; PInt 0; PInt 0; PInt 1; x; y])
                  (PTuple [PInt 0; PInt 0]) w d eq_refl eq_refl eq_refl) as H.
    destruct (transform _ _ _ _) as [[[]|e] [w' d']]; [|exact I].
    destruct H as (d'' & H1 & H2). eexists d'', _.
    split; [exact H1|]. split; [exact H2|reflexivity].
  - (* scale *)
    unfold scale.
    lazymatch goal with
    | |- context [transform _ ?m ?ctr _] =>
        pose proof (transform_recorded (Script.Scale x y center) m ctr w d
                      eq_refl eq_refl eq_refl) as H
    end.
    destruct (transform _ _ _ _) as [[[]|e] [w' d']]; [|exact I].
    destruct H as (d'' & H1 & H2). eexists d'', _.
    split; [exact H1|]. split; [exact H2|reflexivity].
  - (* tabs *)
    unfold tabs. destruct tabs0 as [|[] ?]; checked_case.
Qed.

(** X2.  A public callback that returns has put one instruction at the end
    of the last group of the log, or, if it is [newPage] or [size], as the
    only one of a new group: the call under its own name, with the arguments
    of [recorded_arguments] or the page size stored.  The groups before are as
    they were, and the only other change is the page made up in front of the
    last group, a "newPage" of [width()] and [height()], exactly when the call
    is not [newPage] or [size], no page exists and the call is a drawing call
    or the flag was raised before; [_hasPage] is true afterwards in that case
    and after [newPage] and [size], and as before otherwise. *)
Theorem returning_call_is_appended (c : Script.call) (s : st) :
  fst (exec c s) = Returned tt ->
  let d := snd s in
  let d' := snd (snd (exec c s)) in
  let made_up :=
    negb (is_page_call c) && negb (_hasPage d) &&
    (is_drawing_call c || _requiresNewFirstPage d) in
  exists args l g,
    (if is_page_call c then args = [_width d'; _height d']
     else recorded_arguments transformationAtCenter c s = Some args) /\
    (if is_page_call c then l = _instructionsStack d /\ g = []
     else (_instructionsStack d = [] /\ l = [] /\ g = []) \/
          _instructionsStack d = l ++ [g]) /\
    _instructionsStack d' =
      l ++ [if made_up
            then ("newPage", [width d; height d], []) :: g ++ [(callback c, args, [])]
            else g ++ [(callback c, args, [])]] /\
    _hasPage d' = (is_page_call c || made_up || _hasPage d).
Proof.
  destruct s as [w d]. intros He. cbv zeta. cbn [fst snd] in *.
  pose proof (exec_recorded c w d) as H.
  destruct (exec c (w, d)) as [[[]|e'] [w' d']]; simpl in *; [|discriminate].
  destruct H as (d'' & args & -> & [P1 P2 P3 P4] & Ha).
  destruct (added_stack c args d'') as (l & g & Hs & Hst & Hh & _ & Hwd & Hht & _).
  exists args, l, g.
  assert (Hn : needs_first_page d'' =
               negb (is_page_call c) && negb (_hasPage d) &&
               (is_drawing_call c || _requiresNewFirstPage d)).
  { unfold needs_first_page. destruct (is_page_call c) eqn:Hp.
    - rewrite P3. simpl. apply andb_false_r.
    - destruct P3 as (-> & _ & _). simpl.
      destruct (is_drawing_call c); rewrite P4; simpl;
        destruct (_hasPage d), (_requiresNewFirstPage d); reflexivity. }
  split; [|split; [|split]].
  - destruct (is_page_call c); [|exact Ha]. rewrite Hwd, Hht. exact Ha.
  - rewrite <- P1. exact Hs.
  - rewrite Hst, Hn.
    destruct (negb (is_page_call c) && negb (_hasPage d) &&
              (is_drawing_call c || _requiresNewFirstPage d)) eqn:Em; [|reflexivity].
    destruct (is_page_call c) eqn:Hp; [discriminate|]. destruct P3 as (_ & Pw & Ph).
    unfold synthetic, width, height. rewrite Pw, Ph. reflexivity.
  - rewrite Hh, Hn. destruct (is_page_call c) eqn:Hp.
    + rewrite P3. reflexivity.
    + destruct P3 as (-> & _ & _). reflexivity.
Qed.

Lemma added_snoc cb args kw d :
  exists l g,
    opened cb (_instructionsStack d) = l ++ [g] /\
    _instructionsStack (added cb args kw d) =
      l ++ [(if needs_first_page d then synthetic d :: g else g) ++ [(cb, args, kw)]] /\
    _dummyContext (added cb args kw d) = _dummyContext d /\
    _width (added cb args kw d) = _width d /\
    _height (added cb args kw d) = _height d /\
    _isSinglePage (added cb args kw d) = _isSinglePage d.
Proof.
  destruct (opened_snoc cb (_instructionsStack d)) as (l & g & E).
  exists l, g. split; [exact E|]. unfold added. rewrite E, !alter_last.
  destruct (needs_first_page d); destruct d; simpl; repeat split.
Qed.

Lemma added_last cb args kw d :
  last (instructions (added cb args kw d)) = Some (cb, args, kw).
Proof.
  destruct (added_snoc cb args kw d) as (l & g & _ & E & _).
  unfold instructions. rewrite E, concat_app. simpl. rewrite app_nil_r.
  rewrite app_assoc. apply last_snoc.
Qed.

Lemma added_not_empty cb args kw d : _instructionsStack (added cb args kw d) <> [].
Proof.
  destruct (added_snoc cb args kw d) as (l & g & _ & E & _). rewrite E.
  destruct l; discriminate.
Qed.

Lemma run_keeps_a_log cs (s : st) :
  _instructionsStack (snd s) <> [] -> _instructionsStack (snd (run cs s)) <> [].
Proof.
  revert s. induction cs as [|c cs IH]; intros [w d] H; simpl in *; [done|].
  apply IH.
  pose proof (exec_shape mainScreen_size transformationAtCenter c w d) as Hsh.
  destruct (exec c (w, d)) as [[[]|e] [w' d']]; simpl.
  - destruct Hsh as (d'' & args & -> & _). apply added_not_empty.
  - destruct Hsh as [U1 _ _ _ _]. rewrite U1. done.
Qed.

Lemma returned_opens_the_log cs (s : st) :
  (0 < returned cs s)%nat -> _instructionsStack (snd (run cs s)) <> [].
Proof.
  revert s. induction cs as [|c cs IH]; intros [w d] H; simpl in *; [lia|].
  unfold Script.returns in H.
  pose proof (exec_shape mainScreen_size transformationAtCenter c w d) as Hsh.
  destruct (exec c (w, d)) as [[[]|e] [w' d']]; simpl in *.
  - destruct Hsh as (d'' & args & -> & _). apply run_keeps_a_log. simpl.
    apply added_not_empty.
  - apply IH. exact H.
Qed.

Lemma size_on_a_log width height w d :
  _instructionsStack d <> [] ->
  exists e d',
    size mainScreen_size width height (w, d) = (Raised e, (w, d')) /\
    _instructionsStack d' = _instructionsStack d /\
    _hasPage d' = _hasPage d.
Proof.
  intros Hne. unfold size. unfold bind at 1. unfold self at 1, zoom, get. simpl.
  destruct (_isSinglePage d); [eexists _, d; split; [destruct d; reflexivity|done]|].
  rewrite lift_bind. destruct (named_size _ _ _) as [wh|e];
    [|eexists _, d; split; [reflexivity|done]].
  unfold bind, self, zoom, modify, raise. simpl.
  destruct (_instructionsStack d) eqn:E; [congruence|].
  eexists _, _. split; [reflexivity|]. destruct d; simpl in *. done.
Qed.

(** X3.  [size()] returns only while nothing is recorded: once a callback of
    the session has returned, every further [size()] raises, whatever its
    arguments, and records nothing. *)
Theorem size_only_before_anything_is_recorded
    (w : World) (cs : list Script.call) (width height : pyval) :
  (0 < returned cs (Script.session w))%nat ->
  let s := run cs (Script.session w) in
  exists e,
    fst (size mainScreen_size width height s) = Raised e /\
    _instructionsStack (snd (snd (size mainScreen_size width height s))) =
      _instructionsStack (snd s).
Proof.
  intros H s. pose proof (returned_opens_the_log cs _ H) as Hne. fold s in Hne.
  destruct s as [w1 d1]. simpl in Hne.
  destruct (size_on_a_log width height w1 d1 Hne) as (e & d' & E & Hs & _).
  exists e. rewrite E. simpl. done.
Qed.

Lemma size_first width height w d :
  _instructionsStack d = [] -> _isSinglePage d = false ->
  is_number width = true ->
  let h := if Py.is_None height && Py.is_float width then width else height in
  size mainScreen_size width height (w, d) =
  (Returned tt,
   (snd (DummyContext w),
    set__instructionsStack [[("newPage", [width; h], [])]]
      (set__dummyContext (fst (DummyContext w))
         (set__hasPage true (set__height h (set__width width d)))))).
Proof.
  intros Hst Hs Hw h.
  assert (Hn : forall x, named_size mainScreen_size width x = Returned (width, x))
    by (intros x; destruct width; try discriminate; reflexivity).
  unfold size. unfold bind at 1. unfold self at 1, zoom, get. simpl.
  rewrite Hs, lift_bind, Hn. simpl. fold h.
  assert (E : (if Py.is_None height && Py.is_float width then (width, width)
               else (width, height)) = (width, h))
    by (subst h; destruct (Py.is_None height && Py.is_float width); reflexivity).
  rewrite E. simpl.
  unfold bind at 1. unfold self at 1, zoom, modify. simpl.
  unfold bind at 1. unfold self at 1, zoom, modify. simpl.
  rewrite Hst.
  rewrite (newPage_spec mainScreen_size w _ width h (width, h));
    [|destruct d; exact Hs|apply Hn].
  simpl. replace (Py.is_None width) with false by (destruct width; done). simpl.
  f_equal. f_equal. unfold added, opened, needs_first_page. simpl.
  rewrite andb_false_r. destruct d; simpl in *. subst. reflexivity.
Qed.

(** X4.  [size(w)] with one number on a tool that has recorded nothing: a
    float gives a square page of that side; an int leaves the height unset, so
    that [height()] is 1000 while the page is recorded as [newPage(w, None)],
    which a context that has no height yet refuses on replay. *)
Theorem size_with_one_number (w : World) (d : t) :
  _instructionsStack d = [] ->
  _isSinglePage d = false ->
  (forall q : Q,
     let r := size mainScreen_size (PFloat q) PNone (w, d) in
     fst r = Returned tt /\
     _instructionsStack (snd (snd r)) = [[("newPage", [PFloat q; PFloat q], [])]] /\
     width (snd (snd r)) = PFloat q /\ height (snd (snd r)) = PFloat q) /\
  (forall n : Z,
     let r := size mainScreen_size (PInt n) PNone (w, d) in
     fst r = Returned tt /\
     _instructionsStack (snd (snd r)) = [[("newPage", [PInt n; PNone], [])]] /\
     width (snd (snd r)) = PInt n /\ height (snd (snd r)) = PInt 1000 /\
     forall cmyk2rgb (cx : BaseContext.st),
       BaseContext.height (snd cx) = PNone ->
       _drawInContext (BaseContext_getattr cmyk2rgb) (snd (snd r)) cx =
         (Raised (DrawBotError "A page must have a height"), cx)).
Proof.
  intros Hst Hs. split.
  - intros q r. subst r. rewrite (size_first (PFloat q) PNone w d Hst Hs eq_refl).
    simpl. repeat split.
  - intros n r. subst r. rewrite (size_first (PInt n) PNone w d Hst Hs eq_refl).
    simpl. repeat split.
    intros cmyk2rgb [wx c] Hh. simpl in Hh.
    unfold _drawInContext. simpl. unfold bind, def. simpl.
    unfold BaseContext.newPage, bind, BaseContext.self, zoom, get. simpl.
    rewrite Hh. simpl. rewrite andb_false_r. reflexivity.
Qed.

Lemma paper_sizes_table :
  Forall (fun kv =>
            _paperSizes (fst kv) = Some (snd kv) /\
            _paperSizes (fst kv ++ "Landscape")%string = Some (snd (snd kv), fst (snd kv)))
         _paperSizes_portrait.
Proof. repeat constructor. Qed.

Lemma named_paper_size name pw ph height :
  _paperSizes name = Some (pw, ph) ->
  named_size mainScreen_size (PStr name) height = Returned (PInt pw, PInt ph).
Proof. intros E. unfold named_size. simpl. rewrite E. reflexivity. Qed.

(** X5.  Every name of the paper-size table stands for its size, and the
    name with "Landscape" appended for the same size turned; [newPage] with
    such a name takes both dimensions from the table, whatever is passed as
    height. *)
Theorem paper_size_names (name : string) (pw ph : Z) (h : pyval) (s : st) :
  In (name, (pw, ph)) _paperSizes_portrait ->
  _isSinglePage (snd s) = false ->
  _paperSizes name = Some (pw, ph) /\
  _paperSizes (name ++ "Landscape")%string = Some (ph, pw) /\
  (let r := newPage mainScreen_size (PStr name) h s in
   fst r = Returned tt /\
   width (snd (snd r)) = PInt pw /\ height (snd (snd r)) = PInt ph /\
   last (instructions (snd (snd r))) = Some ("newPage", [PInt pw; PInt ph], [])) /\
  (let r := newPage mainScreen_size (PStr (name ++ "Landscape")) h s in
   fst r = Returned tt /\
   width (snd (snd r)) = PInt ph /\ height (snd (snd r)) = PInt pw /\
   last (instructions (snd (snd r))) = Some ("newPage", [PInt ph; PInt pw], [])).
Proof.
  intros Hin Hs. destruct s as [w d]. simpl in Hs.
  pose proof (proj1 (List.Forall_forall _ _) paper_sizes_table _ Hin) as [H1 H2].
  simpl in H1, H2. split; [exact H1|]. split; [exact H2|].
  assert (G : forall nm a b, _paperSizes nm = Some (a, b) ->
    let r := newPage mainScreen_size (PStr nm) h (w, d) in
    fst r = Returned tt /\
    width (snd (snd r)) = PInt a /\ height (snd (snd r)) = PInt b /\
    last (instructions (snd (snd r))) = Some ("newPage", [PInt a; PInt b], [])).
  { intros nm a b E r. subst r.
    rewrite (newPage_spec mainScreen_size w d (PStr nm) h (PInt a, PInt b) Hs
               (named_paper_size nm a b h E)).
    cbn [fst snd Py.is_None andb]. split; [done|].
    match goal with
    | |- context [added ?cb ?args ?kw ?d0] =>
        destruct (added_snoc cb args kw d0) as (_ & _ & _ & _ & _ & Hw & Hh & _)
    end.
    unfold width, height. rewrite Hw, Hh. destruct d; simpl.
    split; [done|]. split; [done|]. apply added_last. }
  split; apply G; assumption.
Qed.

Lemma newPage_returns width height w d :
  fst (newPage mainScreen_size width height (w, d)) = Returned tt ->
  _isSinglePage d = false /\
  exists wh, named_size mainScreen_size width height = Returned wh.
Proof.
  unfold newPage. unfold bind at 1. unfold self at 1, zoom, get. simpl.
  destruct (_isSinglePage d); [discriminate|].
  rewrite lift_bind. destruct (named_size _ _ _) as [wh|e]; [|discriminate].
  intros _. split; [done|]. exists wh. done.
Qed.

Lemma restore_without_save w d :
  BaseContext._stack (_dummyContext d) = [] ->
  restore (w, d) =
    (Raised (DrawBotError "can't restore graphics state: no matching save()"), (w, d)).
Proof.
  intros E. unfold restore. rewrite dummy_bind.
  unfold BaseContext.restore, bind, BaseContext.self, zoom, gets. simpl.
  rewrite E. simpl. destruct d as [? []]; reflexivity.
Qed.

Lemma newPage_dummy width height w d :
  fst (newPage mainScreen_size width height (w, d)) = Returned tt ->
  BaseContext._stack
    (_dummyContext (snd (snd (newPage mainScreen_size width height (w, d))))) = [].
Proof.
  intros H. destruct (newPage_returns _ _ _ _ H) as (Hs & wh & Hn).
  rewrite (newPage_spec mainScreen_size w d width height wh Hs Hn).
  cbn [fst snd].
  match goal with
  | |- context [added ?cb ?args ?kw ?d0] =>
      destruct (added_snoc cb args kw d0) as (_ & _ & _ & _ & -> & _)
  end.
  destruct d; reflexivity.
Qed.

(** X6.  [newPage] gives the tool a new dummy context, so the states saved
    before it are gone for the recorder: a [restore()] that follows a page
    break raises and is not recorded, and a [with savedState():] block whose
    body is a [newPage] ends in that error. *)
Theorem newPage_forgets_the_saved_states (width height : pyval) (s : st) :
  fst (newPage mainScreen_size width height s) = Returned tt ->
  let s' := snd (newPage mainScreen_size width height s) in
  BaseContext._stack (_dummyContext (snd s')) = [] /\
  restore s' =
    (Raised (DrawBotError "can't restore graphics state: no matching save()"), s') /\
  (fst (save s) = Returned tt ->
   fst (DrawBotDrawingTool_savedState (newPage mainScreen_size width height) s) =
     Raised (DrawBotError "can't restore graphics state: no matching save()")).
Proof.
  destruct s as [w d]. intros H. cbv zeta.
  pose proof (newPage_dummy _ _ _ _ H) as Hd.
  split; [exact Hd|]. split.
  - destruct (newPage _ _ _ _) as [o [w' d']]. apply restore_without_save. exact Hd.
  - intros Hsave. unfold DrawBotDrawingTool_savedState. unfold bind at 1.
    pose proof (exec_shape mainScreen_size transformationAtCenter Script.Save w d) as Hsh.
    simpl in Hsh. destruct (save (w, d)) as [[[]|e] [w1 d1]]; [|discriminate].
    destruct Hsh as (d'' & args & Ed & [_ P2 _ _]).
    destruct (newPage_returns _ _ _ _ H) as (Hs & wh & Hn).
    assert (Hs1 : _isSinglePage d1 = false).
    { rewrite Ed.
      match goal with
      | |- context [added ?cb ?a ?kw ?d0] =>
          destruct (added_snoc cb a kw d0) as (_ & _ & _ & _ & _ & _ & _ & ->)
      end. congruence. }
    clear Ed.
    pose proof (newPage_spec mainScreen_size w1 d1 width height wh Hs1 Hn) as E.
    assert (H1 : fst (newPage mainScreen_size width height (w1, d1)) = Returned tt)
      by (rewrite E; reflexivity).
    pose proof (newPage_dummy _ _ _ _ H1) as Hd1.
    destruct (newPage mainScreen_size width height (w1, d1)) as [[[]|e] [w2 d2]];
      [|discriminate].
    rewrite (restore_without_save w2 d2 Hd1). reflexivity.
Qed.

Lemma drawPath_spec w d l p :
  paths w !! l = Some p ->
  drawPath (PPath l) (w, d) =
  (Returned tt,
   (set_paths (paths w ++ [p]) w,
    added "drawPath" [PPath (length (paths w))] [] (set__requiresNewFirstPage true d))).
Proof.
  intros Hl. unfold drawPath. unfold bind at 1. unfold bind at 1.
  unfold world at 1, zoom, copy_path. cbn [fst snd]. rewrite Hl.
  unfold alloc, ret. cbn [fst snd]. rewrite record_spec.
  destruct p; reflexivity.
Qed.

(** X7.  [drawPath(path)] records a copy of the path, a new object that has
    the elements the path has at the time of the call, so what the caller does
    to the path afterwards does not reach the log; [clipPath(path)] records
    the caller's object itself, and what is done to it afterwards is what a
    replay will see. *)
Theorem drawPath_records_a_copy (w : World) (d : t) (l : loc) (p : BezierPath.t) :
  paths w !! l = Some p ->
  let r := drawPath (PPath l) (w, d) in
  let r' := clipPath (PPath l) (w, d) in
  (fst r = Returned tt /\
   paths (fst (snd r)) = paths w ++ [p] /\
   last (instructions (snd (snd r))) =
     Some ("drawPath", [PPath (length (paths w))], []) /\
   forall f,
     paths (snd (on_path l f (fst (snd r)))) !! l = Some (f p) /\
     paths (snd (on_path l f (fst (snd r)))) !! length (paths w) = Some p) /\
  (fst r' = Returned tt /\
   fst (snd r') = w /\
   last (instructions (snd (snd r'))) = Some ("clipPath", [PPath l], []) /\
   forall f, paths (snd (on_path l f (fst (snd r')))) !! l = Some (f p)).
Proof.
  intros Hl. cbv zeta.
  assert (Hlt : (l < length (paths w))%nat) by (eapply lookup_lt_Some; eauto).
  split.
  - rewrite (drawPath_spec w d l p Hl). cbn [fst snd].
    split; [done|]. split; [done|]. split; [apply added_last|].
    intros f. unfold on_path, modify. cbn [fst snd set_paths paths]. split.
    + rewrite list_lookup_alter, decide_True by done.
      rewrite lookup_app_l by done. exact (f_equal (fmap f) Hl).
    + rewrite list_lookup_alter_ne by lia.
      rewrite lookup_app_r by lia. rewrite Nat.sub_diag. done.
  - unfold clipPath. rewrite record_spec. cbn [fst snd].
    split; [done|]. split; [done|]. split; [apply added_last|].
    intros f. unfold on_path, modify. cbn [fst snd set_paths paths].
    rewrite list_lookup_alter, decide_True by done. exact (f_equal (fmap f) Hl).
Qed.

(** X9.  [lineDash(value, *values, offset)] always records, and what a
    context makes of the recorded call depends on the first value: for [None]
    the dash is cleared and the dash offset is left as it is; for a number
    the dash is all the values and the offset is set; for anything else the
    dash is that one value and the further values are dropped. *)
Theorem lineDash_recorded_and_replayed
    (value : pyval) (values : list pyval) (offset : pyval) (s : st)
    (cmyk2rgb : pyval -> pyval -> pyval -> pyval -> pyval * pyval * pyval)
    (cx : BaseContext.st) :
  let r := lineDash value values offset s in
  fst r = Returned tt /\
  exists dash,
    last (instructions (snd (snd r))) = Some ("lineDash", [PList dash; offset], []) /\
    let rx := bound cmyk2rgb m_lineDash [PList dash; offset] [] cx in
    fst rx = Returned tt /\
    match value with
    | PNone =>
        GraphicsState.lineDash (current (snd rx)) = None /\
        GraphicsState.lineDashOffset (current (snd rx)) =
          GraphicsState.lineDashOffset (current cx)
    | PInt _ | PFloat _ | PBool _ =>
        GraphicsState.lineDash (current (snd rx)) = Some (value :: values) /\
        GraphicsState.lineDashOffset (current (snd rx)) = offset
    | _ =>
        GraphicsState.lineDash (current (snd rx)) = Some [value] /\
        GraphicsState.lineDashOffset (current (snd rx)) = offset
    end.
Proof.
  destruct s as [w d]. destruct cx as [wx c]. cbv zeta.
  unfold lineDash. rewrite record_spec. cbn [fst snd]. split; [done|].
  eexists. split; [apply added_last|].
  destruct value; simpl; repeat split.
Qed.

(** *** Groups and pages *)

Lemma later_groups_added c args d d'' :
  Forall (fun g => starts_with_newPage g = true) (tail (_instructionsStack d)) ->
  prepared c d d'' ->
  Forall (fun g => starts_with_newPage g = true)
    (tail (_instructionsStack (added (callback c) args [] d''))).
Proof.
  intros Hinv [P1 P2 P3 P4].
  destruct (added_stack c args d'') as (l & g & Hs & Hst & _). rewrite Hst.
  rewrite P1 in Hs. destruct (is_page_call c) eqn:Hc.
  - destruct Hs as [-> ->]. unfold needs_first_page. rewrite P3, andb_false_r.
    assert (Hi : starts_with_newPage [(callback c, args, []) : instruction] = true).
    { simpl. unfold is_newPage. simpl. rewrite callback_newPage. exact Hc. }
    destruct (_instructionsStack d) as [|x r]; simpl in *; [constructor|].
    apply Forall_app. split; [exact Hinv|]. constructor; [exact Hi|constructor].
  - destruct Hs as [(_ & -> & ->)|E]; [simpl; constructor|].
    rewrite E in Hinv. destruct l as [|x r]; simpl in *; [constructor|].
    apply Forall_app in Hinv as [Hr Hg]. apply Forall_app. split; [exact Hr|].
    inversion Hg as [|? ? Hg1 _]; subst. constructor; [|constructor].
    destruct (needs_first_page d''); [reflexivity|].
    destruct g; [discriminate|]. exact Hg1.
Qed.

Lemma later_groups_run cs (s : st) :
  Forall (fun g => starts_with_newPage g = true) (tail (_instructionsStack (snd s))) ->
  Forall (fun g => starts_with_newPage g = true)
    (tail (_instructionsStack (snd (run cs s)))).
Proof.
  revert s. induction cs as [|c cs IH]; intros [w d] H; simpl in *; [done|].
  apply IH.
  pose proof (exec_shape mainScreen_size transformationAtCenter c w d) as Hsh.
  destruct (exec c (w, d)) as [[[]|e] [w' d']]; simpl.
  - destruct Hsh as (d'' & args & -> & Hp). eapply later_groups_added; eauto.
  - destruct Hsh as [U1 _ _ _ _]. rewrite U1. done.
Qed.

(** X10.  In every session [pageCount()] is the number of pages that
    [pages()] returns, or one more: the one group that can be counted without
    being a page is the first, when it starts with a text setting made
    before the first page; while no page exists [pages()] is empty. *)
Theorem pageCount_and_pages (w : World) (cs : list Script.call) :
  let d := snd (run cs (Script.session w)) in
  (length (pages d) <= pageCount d <= length (pages d) + 1)%nat /\
  (pageCount d = (length (pages d) + 1)%nat <->
   exists g l, _instructionsStack d = g :: l /\ starts_with_newPage g = false) /\
  (_hasPage d = false -> pages d = []).
Proof.
  intros d.
  pose proof (reachable_script mainScreen_size transformationAtCenter w cs) as HI.
  fold d in HI. rewrite (pages_starts d HI).
  assert (HL : Forall (fun g => starts_with_newPage g = true) (tail (_instructionsStack d))).
  { subst d. apply later_groups_run. simpl. constructor. }
  assert (HF : forall l, Forall (fun g => starts_with_newPage g = true) l ->
                 filter (fun g => starts_with_newPage g) l = l).
  { induction l as [|x l IHl]; intros Hl; [done|]. inversion Hl; subst.
    rewrite filter_cons. rewrite decide_True by (apply Is_true_true_2; done).
    rewrite IHl by done. done. }
  unfold pageCount. destruct (_instructionsStack d) as [|g l] eqn:E.
  - simpl. split; [lia|]. split; [|done]. split; [lia|].
    intros (g & l & H & _). discriminate.
  - simpl in HL. rewrite filter_cons, (HF l HL).
    destruct (starts_with_newPage g) eqn:Hg.
    + rewrite decide_True by (apply Is_true_true_2; done). simpl. split; [lia|]. split.
      * split; [lia|]. intros (g' & l' & H & Hf). injection H as <- <-. congruence.
      * intros Hp. destruct HI as [_ Hn]. destruct (Hn Hp) as [_ Hall].
        rewrite E in Hall. inversion Hall; subst.
        destruct g as [|i g]; [discriminate|]. simpl in *.
        apply orb_false_iff in H1 as [H1 _]. congruence.
    + rewrite decide_False by (apply Is_true_false_2; done). simpl. split; [lia|]. split.
      * split; [|lia]. intros _. exists g, l. done.
      * intros Hp. destruct HI as [_ Hn]. destruct (Hn Hp) as [Hlen _].
        rewrite E in Hlen. simpl in Hlen. destruct l; [done|]. simpl in Hlen. lia.
Qed.

End RecorderCalls.

(** ** Replay *)

Section ReplayOrder.

Import DrawBotDrawingTool Recorder.

Context {B : Type}.
Variable getattr : string -> option (list pyval -> Py.kwargs -> M (World * B) unit).

(** One recorded call on the canvas. *)
#[local] Abbreviation play := (fun i : instruction =>
  let '(callback, args, kw) := i in
  match getattr callback with
  | Some attr => attr args kw
  | None => raise (AttributeError callback)
  end).

Lemma forM__concat {S A} (ls : list (list A)) (f : A -> M S unit) (s : S) :
  forM_ ls (fun l => forM_ l f) s = forM_ (concat ls) f s.
Proof.
  revert s. induction ls as [|l ls IH]; intros s; simpl; [done|].
  rewrite forM__app. unfold bind.
  destruct (forM_ l f s) as [[[]|e] s']; [apply IH|done].
Qed.

(** X11.  A replay does not depend on how the log is cut into page groups:
    it plays the recorded instructions one after the other.  It stops at the
    first one that raises, or whose name the canvas does not have, in the
    state that call has left, and plays nothing after it. *)
Theorem replay_is_sequential (d : t) (s : World * B) :
  _drawInContext getattr d s = forM_ (instructions d) play s /\
  forall pre i post s1 e s2,
    instructions d = pre ++ i :: post ->
    forM_ pre play s = (Returned tt, s1) ->
    play i s1 = (Raised e, s2) ->
    _drawInContext getattr d s = (Raised e, s2).
Proof.
  assert (E : _drawInContext getattr d s = forM_ (instructions d) play s).
  { unfold _drawInContext, instructions. rewrite <- forM__concat. reflexivity. }
  split; [exact E|].
  intros pre i post s1 e s2 Hd Hpre Hi. rewrite E, Hd, forM__app, Hpre.
  simpl. unfold bind. rewrite Hi. reflexivity.
Qed.

End ReplayOrder.

(** ** Lines and polygons *)

Section Shapes.

Import DrawBotDrawingTool Recorder.

(** The points of a polygon after the first, as the pairs they are unpacked
    into. *)
#[local] Abbreviation as_points := (map (fun xy : pyval * pyval => PTuple [fst xy; snd xy])).

Lemma polygon_lines (pairs : list (pyval * pyval)) (p : BezierPath.t) :
  forM_ (as_points pairs) (fun xy =>
    q <- lift (Py.unpack2 xy) ;;
    modify (BezierPath.lineTo (PTuple [fst q; snd q]))) p =
  (Returned tt,
   {| BezierPath._path :=
        BezierPath._path p ++ map (fun xy => BezierPath.lineToPoint_ (PTuple [fst xy; snd xy])) pairs;
      BezierPath.svgID := BezierPath.svgID p;
      BezierPath.svgClass := BezierPath.svgClass p;
      BezierPath.svgLink := BezierPath.svgLink p |}).
Proof.
  revert p. induction pairs as [|[x y] pairs IH]; intros p; simpl.
  - rewrite app_nil_r. destruct p; reflexivity.
  - unfold bind at 1. unfold bind at 1. unfold lift, modify. simpl.
    rewrite IH. simpl. rewrite <- app_assoc. reflexivity.
Qed.

Lemma in_path_new {A} (w : World) (m : M BezierPath.t A) :
  in_path (length (paths w)) m (set_paths (paths w ++ [BezierPath.__init__]) w) =
  (fst (m BezierPath.__init__),
   set_paths (paths w ++ [snd (m BezierPath.__init__)]) w).
Proof.
  unfold in_path. cbn [paths set_paths].
  rewrite lookup_app_r by lia. rewrite Nat.sub_diag. simpl.
  destruct (m BezierPath.__init__) as [o p']. simpl. f_equal.
  unfold set_paths. simpl. f_equal.
  rewrite insert_app_r_alt by lia. rewrite Nat.sub_diag. reflexivity.
Qed.

(** The tool after [drawPath] of an object made for the call: the object
    and its copy are the last two of the store. *)
Lemma drawn_shape (w : World) (d : t) (m : M BezierPath.t unit) (p : BezierPath.t) :
  m BezierPath.__init__ = (Returned tt, p) ->
  (l <- world (alloc BezierPath.__init__) ;;
   world (in_path l m) ;;
   drawPath (PPath l)) (w, d) =
  (Returned tt,
   (set_paths (paths w ++ [p; p]) w,
    added "drawPath" [PPath (S (length (paths w)))] [] (set__requiresNewFirstPage true d))).
Proof.
  intros Hm. unfold bind at 1. unfold world at 1, zoom, alloc. cbn [fst snd].
  unfold bind at 1. unfold world at 1, zoom. cbn [fst snd].
  rewrite in_path_new, Hm. cbn [fst snd].
  erewrite drawPath_spec.
  2:{ cbn [paths set_paths]. rewrite lookup_app_r by lia. rewrite Nat.sub_diag. reflexivity. }
  cbn [paths set_paths]. rewrite length_app. simpl.
  rewrite <- app_assoc. simpl. rewrite Nat.add_1_r. reflexivity.
Qed.

Lemma failed_shape (w : World) (d : t) (m : M BezierPath.t unit) (e : exn) (p : BezierPath.t) :
  m BezierPath.__init__ = (Raised e, p) ->
  (l <- world (alloc BezierPath.__init__) ;;
   world (in_path l m) ;;
   drawPath (PPath l)) (w, d) =
  (Raised e, (set_paths (paths w ++ [p]) w, d)).
Proof.
  intros Hm. unfold bind at 1. unfold world at 1, zoom, alloc. cbn [fst snd].
  unfold bind at 1. unfold world at 1, zoom. cbn [fst snd].
  rewrite in_path_new, Hm. reflexivity.
Qed.

(** X12.  [line(p1, p2)] records [drawPath] of a new path that moves to
    [p1] and draws a line to [p2].  [polygon] with fewer than two points
    raises a [TypeError] and records nothing; with a first point and further
    points that are pairs it records [drawPath] of a path through the points
    in their order, closed unless [close] is given as something false. *)
Theorem line_and_polygon_record_a_path (w : World) (d : t) :
  (forall p1 p2,
     let r := DrawBotDrawingTool_line p1 p2 (w, d) in
     fst r = Returned tt /\
     last (instructions (snd (snd r))) =
       Some ("drawPath", [PPath (S (length (paths w)))], []) /\
     BezierPath._path <$> (paths (fst (snd r)) !! S (length (paths w))) =
       Some [BezierPath.moveToPoint_ p1; BezierPath.lineToPoint_ p2]) /\
  (forall points kw,
     (length points <= 1)%nat ->
     let r := DrawBotDrawingTool_polygon points kw (w, d) in
     fst r = Raised (TypeError "polygon() expects more than a single point") /\
     snd (snd r) = d) /\
  (forall first pairs kw,
     pairs <> [] ->
     kw = [] \/ (exists v, kw = [("close", v)]) ->
     let r := DrawBotDrawingTool_polygon (first :: as_points pairs) kw (w, d) in
     fst r = Returned tt /\
     last (instructions (snd (snd r))) =
       Some ("drawPath", [PPath (S (length (paths w)))], []) /\
     BezierPath._path <$> (paths (fst (snd r)) !! S (length (paths w))) =
       Some (BezierPath.moveToPoint_ first ::
             map (fun xy => BezierPath.lineToPoint_ (PTuple [fst xy; snd xy])) pairs ++
             (if Py.truthy (default (PBool true) (Py.kw_get "close" kw))
              then [BezierPath.closePath_] else []))).
Proof.
  assert (Hlook : forall (ps : list BezierPath.t) (p : BezierPath.t),
            (ps ++ [p; p]) !! S (length ps) = Some p).
  { intros ps p. rewrite lookup_app_r by lia.
    replace (S (length ps) - length ps)%nat with 1%nat by lia. reflexivity. }
  split; [|split].
  - intros p1 p2 r. subst r. unfold DrawBotDrawingTool_line.
    erewrite drawn_shape by reflexivity. cbn [fst snd paths set_paths].
    split; [done|]. split; [apply added_last|]. rewrite Hlook. reflexivity.
  - intros points kw Hlen r. subst r. unfold DrawBotDrawingTool_polygon.
    erewrite failed_shape; [split; reflexivity|].
    unfold BezierPath_polygon. apply Nat.leb_le in Hlen. rewrite Hlen. reflexivity.
  - intros first pairs kw Hne Hkw r. subst r. unfold DrawBotDrawingTool_polygon.
    set (close := if Py.truthy (default (PBool true) (Py.kw_get "close" kw))
                  then [BezierPath.closePath_] else []).
    assert (Hm : BezierPath_polygon (first :: as_points pairs) kw BezierPath.__init__ =
      (Returned tt,
       {| BezierPath._path :=
            BezierPath.moveToPoint_ first ::
            map (fun xy => BezierPath.lineToPoint_ (PTuple [fst xy; snd xy])) pairs ++ close;
          BezierPath.svgID := None; BezierPath.svgClass := None;
          BezierPath.svgLink := None |})).
    { unfold BezierPath_polygon.
      assert (Hl : (length (first :: as_points pairs) <=? 1)%nat = false).
      { apply Nat.leb_gt. simpl. rewrite length_map. destruct pairs; [done|simpl; lia]. }
      rewrite Hl.
      assert (Hk : (Nat.eqb (length kw) 1 && negb (bool_decide (is_Some (Py.kw_get "close" kw))))
                   || (1 <? length kw)%nat = false).
      { destruct Hkw as [->|[v ->]]; reflexivity. }
      rewrite Hk. unfold bind at 1. unfold modify at 1. cbn [fst snd].
      unfold bind at 1. rewrite polygon_lines. cbn [fst snd].
      subst close. destruct (Py.truthy _); unfold modify, ret; simpl;
        rewrite ?app_nil_r; reflexivity. }
    erewrite drawn_shape by exact Hm. cbn [fst snd paths set_paths].
    split; [done|]. split; [apply added_last|]. rewrite Hlook. reflexivity.
Qed.

End Shapes.

(** ** The stack of graphics states *)

(** *** What a copy keeps *)

Lemma Color_copy_same c c' : Color.copy c = Returned c' -> c' = c.
Proof.
  unfold Color.copy. destruct c as [[ns|]]; simpl; [|discriminate].
  intros H. injection H as <-. reflexivity.
Qed.

Lemma CMYKColor_copy_color k k' :
  CMYKColor.copy k = Returned k' -> CMYKColor._color k' = CMYKColor._color k.
Proof.
  unfold CMYKColor.copy. destruct k as [[ns|] ?]; simpl; [|discriminate].
  intros H. injection H as <-. reflexivity.
Qed.

Lemma Colors_copy_same l l' : mapM_outcome Color.copy l = Returned l' -> l' = l.
Proof.
  revert l'. induction l as [|c l IH]; intros l'; simpl.
  - intros H. injection H as <-. reflexivity.
  - destruct (Color.copy c) as [c'|] eqn:Ec; simpl; [|discriminate].
    destruct (mapM_outcome Color.copy l) as [l1|]; simpl; [|discriminate].
    intros H. injection H as <-. rewrite (Color_copy_same _ _ Ec), (IH l1); reflexivity.
Qed.

Lemma CMYKColors_copy_color l l' :
  mapM_outcome CMYKColor.copy l = Returned l' ->
  map CMYKColor._color l' = map CMYKColor._color l /\ length l' = length l.
Proof.
  revert l'. induction l as [|k l IH]; intros l'; simpl.
  - intros H. injection H as <-. done.
  - destruct (CMYKColor.copy k) as [k'|] eqn:Ek; simpl; [|discriminate].
    destruct (mapM_outcome CMYKColor.copy l) as [l1|]; simpl; [|discriminate].
    intros H. injection H as <-. simpl.
    destruct (IH l1 eq_refl) as [-> ->]. rewrite (CMYKColor_copy_color _ _ Ek). done.
Qed.

Lemma Shadow_copy_plain s s' : Shadow.copy s = Returned s' -> Shadow_plain s' = Shadow_plain s.
Proof.
  unfold Shadow.copy. destruct (Color.copy (Shadow.color s)) as [c|] eqn:Ec; simpl;
    [|discriminate].
  apply Color_copy_same in Ec. subst c. unfold Shadow_plain.
  destruct (Shadow.cmykColor s) as [k|].
  - destruct (CMYKColor.copy k) as [k'|] eqn:Ek; simpl; [|discriminate].
    intros H. injection H as <-. simpl. rewrite (CMYKColor_copy_color _ _ Ek). reflexivity.
  - intros H. injection H as <-. reflexivity.
Qed.

Lemma Gradient_copy_plain g g' :
  Gradient.copy g = Returned g' -> Gradient_plain g' = Gradient_plain g.
Proof.
  unfold Gradient.copy.
  destruct (mapM_outcome Color.copy (Gradient.colors g)) as [cs|] eqn:Ec;
    cbn [outcome_bind]; [|discriminate].
  apply Colors_copy_same in Ec. subst cs. unfold Gradient_plain.
  destruct (Gradient.cmykColors g) as [[|k ks]|].
  - cbn [outcome_bind]. intros H. injection H as <-. reflexivity.
  - destruct (mapM_outcome CMYKColor.copy (k :: ks)) as [ks'|] eqn:Ek;
      cbn [outcome_bind]; [|discriminate].
    intros H. injection H as <-. cbn [Gradient.gradientType Gradient.colors
      Gradient.cmykColors Gradient.positions Gradient.start Gradient.end_
      Gradient.startRadius Gradient.endRadius].
    destruct (CMYKColors_copy_color _ _ Ek) as [Hc Hl].
    destruct ks' as [|k' ks']; [discriminate|].
    unfold CMYKColors_plain. rewrite Hc. reflexivity.
  - cbn [outcome_bind]. intros H. injection H as <-. reflexivity.
Qed.

Lemma copy_opt_fmap {A B} (copy : A -> outcome A) (f : A -> B) (x y : option A) :
  (forall a a', copy a = Returned a' -> f a' = f a) ->
  GraphicsState.copy_opt copy x None = Returned y -> f <$> y = f <$> x.
Proof.
  intros Hf. unfold GraphicsState.copy_opt. destruct x as [a|].
  - destruct (copy a) as [a'|] eqn:E; simpl; [|discriminate].
    intros H. injection H as <-. simpl. rewrite (Hf _ _ E). reflexivity.
  - intros H. injection H as <-. reflexivity.
Qed.

(** [GraphicsState.copy], when it returns: every attribute but the text and
    the path is as in the original, the CMYK colours up to [_cmyka]; the text
    is the copy of the text; the path, if there is one, is a new object with
    the elements of the original. *)
Lemma GraphicsState_copy_spec (s s' : GraphicsState.t) (w w' : World) :
  GraphicsState.copy s w = (Returned s', w') ->
  plain s' = plain s /\
  FormattedString.copy (GraphicsState.text s) = Returned (GraphicsState.text s') /\
  Color_colorSpace w' = Color_colorSpace w /\
  match GraphicsState.path s with
  | PNone => GraphicsState.path s' = PNone /\ w' = w
  | PList items => GraphicsState.path s' = PList items /\ w' = w
  | PPath l =>
      exists p, paths w !! l = Some p /\
                GraphicsState.path s' = PPath (length (paths w)) /\
                paths w' = paths w ++ [p]
  | _ => False
  end.
Proof.
  unfold GraphicsState.copy. unfold bind at 1. unfold gets at 1. cbn [fst snd].
  rewrite lift_bind.
  destruct (GraphicsState.copy_opt Color.copy (GraphicsState.fillColor s) None)
    as [fc|] eqn:E1; [|discriminate].
  rewrite lift_bind.
  destruct (GraphicsState.copy_opt Color.copy (GraphicsState.strokeColor s) _)
    as [sc|] eqn:E2; [|discriminate].
  rewrite lift_bind.
  destruct (GraphicsState.copy_opt CMYKColor.copy (GraphicsState.cmykFillColor s) _)
    as [cfc|] eqn:E3; [|discriminate].
  rewrite lift_bind.
  destruct (GraphicsState.copy_opt CMYKColor.copy (GraphicsState.cmykStrokeColor s) _)
    as [csc|] eqn:E4; [|discriminate].
  rewrite lift_bind.
  destruct (GraphicsState.copy_opt Shadow.copy (GraphicsState.shadow s) _)
    as [sh|] eqn:E5; [|discriminate].
  rewrite lift_bind.
  destruct (GraphicsState.copy_opt Gradient.copy (GraphicsState.gradient s) _)
    as [gr|] eqn:E6; [|discriminate].
  simpl in E2, E3, E4, E5, E6.
  assert (P1 : id <$> fc = id <$> GraphicsState.fillColor s)
    by (eapply copy_opt_fmap; [|exact E1]; intros a a' H; apply Color_copy_same in H;
        congruence).
  assert (P2 : id <$> sc = id <$> GraphicsState.strokeColor s)
    by (eapply copy_opt_fmap; [|exact E2]; intros a a' H; apply Color_copy_same in H;
        congruence).
  pose proof (copy_opt_fmap _ CMYKColor._color _ _ CMYKColor_copy_color E3) as P3.
  pose proof (copy_opt_fmap _ CMYKColor._color _ _ CMYKColor_copy_color E4) as P4.
  pose proof (copy_opt_fmap _ Shadow_plain _ _ Shadow_copy_plain E5) as P5.
  pose proof (copy_opt_fmap _ Gradient_plain _ _ Gradient_copy_plain E6) as P6.
  rewrite !option_fmap_id in P1, P2.
  unfold bind at 1.
  assert (Hplain : forall p txt,
    plain {| GraphicsState.colorSpace := GraphicsState.colorSpace s;
             GraphicsState.blendMode := GraphicsState.blendMode s;
             GraphicsState.opacity := GraphicsState.opacity s;
             GraphicsState.fillColor := fc;
             GraphicsState.strokeColor := sc;
             GraphicsState.cmykFillColor := cfc;
             GraphicsState.cmykStrokeColor := csc;
             GraphicsState.shadow := sh;
             GraphicsState.gradient := gr;
             GraphicsState.strokeWidth := GraphicsState.strokeWidth s;
             GraphicsState.lineDash :=
               match GraphicsState.lineDash s with
               | Some d => Some d
               | None => GraphicsState.lineDash (GraphicsState.__init__ w)
               end;
             GraphicsState.lineDashOffset := GraphicsState.lineDashOffset s;
             GraphicsState.lineCap := GraphicsState.lineCap s;
             GraphicsState.lineJoin := GraphicsState.lineJoin s;
             GraphicsState.miterLimit := GraphicsState.miterLimit s;
             GraphicsState.text := txt;
             GraphicsState.hyphenation := GraphicsState.hyphenation s;
             GraphicsState.path := p |} = plain s).
  { intros p txt. unfold plain. simpl. rewrite P1, P2, P3, P4, P5, P6.
    destruct (GraphicsState.lineDash s); reflexivity. }
  destruct (GraphicsState.path s) as [| | | | | | |l] eqn:Ep; simpl.
  all: try (unfold raise; discriminate).
  - (* no path *)
    unfold ret at 1. rewrite lift_bind.
    destruct (FormattedString.copy (GraphicsState.text s)) as [txt|]; [|discriminate].
    unfold ret. intros H. injection H as <- <-. simpl. rewrite Hplain. done.
  - (* a list *)
    unfold ret at 1. rewrite lift_bind.
    destruct (FormattedString.copy (GraphicsState.text s)) as [txt|]; [|discriminate].
    unfold ret. intros H. injection H as <- <-. simpl. rewrite Hplain. done.
  - (* a path object *)
    unfold bind at 1. unfold copy_path.
    destruct (paths w !! l) as [p|] eqn:El; [|discriminate].
    unfold alloc, ret at 1. rewrite lift_bind.
    destruct (FormattedString.copy (GraphicsState.text s)) as [txt|]; [|discriminate].
    unfold ret. intros H. injection H as <- <-. simpl. rewrite Hplain.
    split; [done|]. split; [done|]. split; [done|].
    exists p. split; [done|]. split; [done|]. destruct p; reflexivity.
Qed.

(** *** Methods that leave the stack alone *)

Section KeepsTheStack.

Variable cmyk2rgb : pyval -> pyval -> pyval -> pyval -> pyval * pyval * pyval.

(** The computation ends, returning or raising, with the stack of saved
    states it started with. *)
#[local] Abbreviation keeps := (fun A (m : M BaseContext.st A) =>
  forall s, BaseContext._stack (snd (snd (m s))) = BaseContext._stack (snd s)).

Lemma keeps_ret {A} (a : A) : keeps A (ret a).
Proof. done. Qed.

Lemma keeps_raise {A} e : keeps A (raise e).
Proof. done. Qed.

Lemma keeps_lift {A} (o : outcome A) : keeps A (lift o).
Proof. done. Qed.

Lemma keeps_bind {A B} (m : M BaseContext.st A) (k : A -> M BaseContext.st B) :
  keeps A m -> (forall a, keeps B (k a)) -> keeps B (bind m k).
Proof.
  intros Hm Hk s. unfold bind. specialize (Hm s).
  destruct (m s) as [[a|e] s']; simpl in *; [|done]. rewrite Hk. done.
Qed.

Lemma keeps_state f : keeps unit (BaseContext.state f).
Proof. intros [w [? ? ? ? ?]]. reflexivity. Qed.

Lemma keeps_text {A} (m : M FormattedString.t A) : keeps A (BaseContext.text m).
Proof.
  intros [w [? ? ? ? st]]. unfold BaseContext.text, BaseContext.self, zoom. simpl.
  destruct (m (GraphicsState.text st)). reflexivity.
Qed.

Lemma keeps_world {A} (m : M World A) : keeps A (BaseContext.world m).
Proof.
  intros [w c]. unfold BaseContext.world, zoom. simpl. destruct (m w). reflexivity.
Qed.

Lemma keeps_self_gets {A} (f : BaseContext.t -> A) : keeps A (BaseContext.self (gets f)).
Proof. intros [w c]. reflexivity. Qed.

Lemma keeps_self_get : keeps BaseContext.t (BaseContext.self get).
Proof. intros [w c]. reflexivity. Qed.

Lemma keeps_set_width v : keeps unit (BaseContext.self (modify (BaseContext.set_width v))).
Proof. intros [w []]. reflexivity. Qed.
Lemma keeps_set_height v : keeps unit (BaseContext.self (modify (BaseContext.set_height v))).
Proof. intros [w []]. reflexivity. Qed.
Lemma keeps_set_hasPage v : keeps unit (BaseContext.self (modify (BaseContext.set_hasPage v))).
Proof. intros [w []]. reflexivity. Qed.
Lemma keeps_set__state v : keeps unit (BaseContext.self (modify (BaseContext.set__state v))).
Proof. intros [w []]. reflexivity. Qed.

Create HintDb keeps.
#[local] Hint Resolve keeps_ret keeps_raise keeps_lift keeps_state keeps_text keeps_world
  keeps_self_gets keeps_self_get keeps_set_width keeps_set_height keeps_set_hasPage
  keeps_set__state : keeps.

Ltac keeps_step :=
  lazymatch goal with
  | |- forall s, BaseContext._stack (snd (snd (bind _ _ s))) = _ =>
      apply keeps_bind; [|intros ?]
  | |- forall s, BaseContext._stack (snd (snd ((if ?b then _ else _) s))) = _ =>
      destruct b; cbv beta iota
  | |- forall s, BaseContext._stack (snd (snd ((match ?x with _ => _ end) s))) = _ =>
      destruct x; cbv beta iota
  | |- _ => solve [auto with keeps]
  end.

Ltac keeps_all := repeat keeps_step.

Lemma keeps_def params body args kw :
  (forall vs m, body vs = Some m -> keeps unit m) ->
  keeps unit (def params body args kw).
Proof.
  intros H. unfold def. destruct (Py.bind_params params args kw) as [vs|e]; [|done].
  destruct (body vs) as [m|] eqn:E; [|done]. eapply H. exact E.
Qed.

Lemma keeps_fill r g b a : keeps unit (BaseContext.fill r g b a).
Proof. unfold BaseContext.fill, BaseContext._colorClass. keeps_all. Qed.

Lemma keeps_stroke r g b a : keeps unit (BaseContext.stroke r g b a).
Proof. unfold BaseContext.stroke, BaseContext._colorClass. keeps_all. Qed.

#[local] Hint Resolve keeps_fill keeps_stroke : keeps.

Lemma keeps_state_path name f : keeps unit (BaseContext.state_path name f).
Proof. unfold BaseContext.state_path. keeps_all. Qed.

#[local] Hint Resolve keeps_state_path : keeps.

Lemma keeps_drawPath p : keeps unit (BaseContext.drawPath p).
Proof. unfold BaseContext.drawPath. keeps_all. Qed.

#[local] Hint Resolve keeps_drawPath : keeps.

(** Every method but [save] and [restore] leaves the stack of saved states
    as it is, whether it returns or raises. *)
Lemma setters_keep_the_stack (c : Calls.call) :
  Calls.is_save c = false -> Calls.is_restore c = false ->
  keeps unit (Calls.apply cmyk2rgb c).
Proof.
  destruct c as [[a args] kw]. unfold Calls.apply. cbn [fst snd]. intros Hs Hr.
  destruct a; cbn [bound]; unfold def0, def1, def4.
  3:{ (* save with arguments *)
      unfold def. destruct args; [destruct kw; [discriminate|]|]; done. }
  3:{ (* restore with arguments *)
      unfold def. destruct args; [destruct kw; [discriminate|]|]; done. }
  all: try (apply keeps_def; intros vs m Hb;
            first [ injection Hb as <-
                  | do 7 (try (destruct vs as [|? vs]; try discriminate));
                    injection Hb as <- ]).
  all: try (unfold BaseContext.size, BaseContext.newPage, BaseContext.rect,
    BaseContext.oval, BaseContext.newPath, BaseContext.moveTo, BaseContext.lineTo,
    BaseContext.curveTo, BaseContext.arc, BaseContext.arcTo, BaseContext.closePath,
    BaseContext.clipPath, BaseContext.colorSpace, GraphicsState.setColorSpace,
    BaseContext.blendMode, BaseContext.opacity,
    BaseContext.cmykFill, BaseContext.cmykStroke, BaseContext.shadow,
    BaseContext.cmykShadow, BaseContext._shadowClass, BaseContext.linearGradient,
    BaseContext.radialGradient, BaseContext.cmykLinearGradient,
    BaseContext.cmykRadialGradient, BaseContext.no_gradient, BaseContext._gradientClass,
    BaseContext._colorClass,
    BaseContext.strokeWidth, BaseContext.miterLimit, BaseContext.lineJoin,
    BaseContext.lineCap, BaseContext.lineDash, BaseContext.transform,
    BaseContext.fontSize, BaseContext.lineHeight, BaseContext.tracking,
    BaseContext.baselineShift, BaseContext.underline, BaseContext.strikethrough,
    BaseContext.url, BaseContext.hyphenation, BaseContext.tabs,
    BaseContext.writingDirection;
    solve [keeps_all]).
Qed.

End KeepsTheStack.

(** *** [save] and [restore] *)

Lemma save_spec (s : BaseContext.st) :
  match BaseContext.save s with
  | (Returned _, s') =>
      exists x, GraphicsState.copy (current s) (fst s) = (Returned x, fst s') /\
                snd s' = BaseContext.set__stack (BaseContext._stack (snd s) ++ [x]) (snd s)
  | (Raised _, s') => snd s' = snd s
  end.
Proof.
  destruct s as [w c]. unfold BaseContext.save, current.
  unfold bind at 1. unfold BaseContext.self at 1, zoom, gets. cbn [fst snd].
  unfold bind at 1. unfold BaseContext.world at 1, zoom. cbn [fst snd].
  destruct (GraphicsState.copy (BaseContext._state c) w) as [[x|e] w']; [|reflexivity].
  exists x. split; reflexivity.
Qed.

Lemma restore_spec (w : World) (c : BaseContext.t) l x :
  BaseContext._stack c = l ++ [x] ->
  BaseContext.restore (w, c) =
  (Returned tt,
   (set_Color_colorSpace (GraphicsState.colorSpace x) w,
    BaseContext.set__state x (BaseContext.set__stack l c))).
Proof.
  intros E. unfold BaseContext.restore.
  unfold bind at 1. unfold BaseContext.self at 1, zoom, gets. cbn [fst snd].
  rewrite E, pop_snoc. reflexivity.
Qed.

Section Brackets.

Variable cmyk2rgb : pyval -> pyval -> pyval -> pyval -> pyval * pyval * pyval.

Lemma is_save_apply c : Calls.is_save c = true -> Calls.apply cmyk2rgb c = BaseContext.save.
Proof.
  destruct c as [[[] [|? ?]] [|? ?]]; try discriminate. intros _.
  unfold Calls.apply. simpl. reflexivity.
Qed.




(** X14.  [restore()] returns exactly when a state is saved, and then takes
    the one saved last: that state becomes the current one, the states saved
    before it stay, and [Color.colorSpace] becomes the colour space of the
    state taken. *)
Theorem restore_takes_the_last_saved_state (s : BaseContext.st) :
  (fst (BaseContext.restore s) = Returned tt <-> BaseContext._stack (snd s) <> []) /\
  forall l x,
    BaseContext._stack (snd s) = l ++ [x] ->
    let r := BaseContext.restore s in
    fst r = Returned tt /\
    current (snd r) = x /\
    BaseContext._stack (snd (snd r)) = l /\
    Color_colorSpace (fst (snd r)) = GraphicsState.colorSpace x /\
    paths (fst (snd r)) = paths (fst s).
Proof.
  destruct s as [w c]. cbn [fst snd]. split.
  - destruct (BaseContext._stack c) as [|y l _] eqn:E using rev_ind.
    + split; [|done]. unfold BaseContext.restore, bind, BaseContext.self, zoom, gets.
      simpl. rewrite E. simpl. discriminate.
    + rewrite (restore_spec w c l y E). split; [intros _; destruct l; discriminate|done].
  - intros l x E. rewrite (restore_spec w c l x E). cbn [fst snd].
    unfold current. destruct c; simpl. done.
Qed.

(** X15.  No method other than [save] and [restore] reaches the saved
    states: after any sequence of other calls, returning or raising, the
    stack of saved states is the one before. *)
Theorem saved_states_are_out_of_reach (s : BaseContext.st) (cs : list Calls.call) :
  forallb (fun c => negb (Calls.is_save c) && negb (Calls.is_restore c)) cs = true ->
  BaseContext._stack (snd (Calls.run cmyk2rgb cs s)) = BaseContext._stack (snd s).
Proof.
  revert s. induction cs as [|c cs IH]; intros s H; simpl in *; [done|].
  apply andb_true_iff in H as [Hc H]. apply andb_true_iff in Hc as [H1 H2].
  apply negb_true_iff in H1, H2. rewrite (IH _ H).
  apply setters_keep_the_stack; assumption.
Qed.

End Brackets.

(** ** The current path *)

Lemma segment_spec (g : segment) (w : World) (c : BaseContext.t) (l : loc) :
  GraphicsState.path (BaseContext._state c) = PPath l ->
  segment_call g (w, c) =
  (Returned tt,
   (set_paths (alter (BezierPath.append (segment_element g)) l (paths w)) w, c)).
Proof.
  intros E.
  assert (H : forall name f,
    BaseContext.state_path name f (w, c) =
    (Returned tt, (set_paths (alter f l (paths w)) w, c))).
  { intros name f. unfold BaseContext.state_path, bind, BaseContext.self, zoom, gets.
    cbn [fst snd]. rewrite E. reflexivity. }
  destruct g; simpl;
    unfold BaseContext.moveTo, BaseContext.lineTo, BaseContext.curveTo, BaseContext.arc,
      BaseContext.arcTo, BaseContext.closePath; rewrite ?H; try reflexivity.
  unfold bind at 1. unfold BaseContext.self at 1, zoom, gets. cbn [fst snd].
  rewrite E. cbn [Py.is_None]. rewrite H. reflexivity.
Qed.

Lemma segments_spec (segs : list segment) (w : World) (c : BaseContext.t) (l : loc) :
  GraphicsState.path (BaseContext._state c) = PPath l ->
  forM_ segs segment_call (w, c) =
  (Returned tt,
   (set_paths
      (alter (fun p => fold_left (fun p g => BezierPath.append (segment_element g) p) segs p)
             l (paths w)) w, c)).
Proof.
  intros E. revert w. induction segs as [|g segs IH]; intros w; simpl.
  - unfold ret. f_equal. f_equal. destruct w; unfold set_paths; simpl. f_equal.
    symmetry. apply list_alter_id. done.
  - unfold bind. rewrite (segment_spec g w c l E). rewrite IH.
    cbn [paths set_paths Color_colorSpace]. f_equal. f_equal. unfold set_paths. simpl.
    f_equal. rewrite list_alter_alter_eq. reflexivity.
Qed.

Lemma segments_fold (segs : list segment) (p : BezierPath.t) :
  fold_left (fun p g => BezierPath.append (segment_element g) p) segs p =
  {| BezierPath._path := BezierPath._path p ++ map segment_element segs;
     BezierPath.svgID := BezierPath.svgID p;
     BezierPath.svgClass := BezierPath.svgClass p;
     BezierPath.svgLink := BezierPath.svgLink p |}.
Proof.
  revert p. induction segs as [|g segs IH]; intros p; simpl.
  - rewrite app_nil_r. destruct p; reflexivity.
  - rewrite IH. simpl. rewrite <- app_assoc. reflexivity.
Qed.

(** X16.  Without a current path, as in a new context, [moveTo] raises the
    [DrawBotError] that asks for a new path and the other path calls raise an
    [AttributeError]; each leaves the context as it is, so a sequence of path
    calls ends at its first call.  A path made after a [save()] is gone with
    the [restore()]: the state then has no path again, and the path calls
    raise as before. *)
Theorem path_calls_need_a_path (s : BaseContext.st) :
  GraphicsState.path (current s) = PNone ->
  (forall pt, BaseContext.moveTo pt s =
              (Raised (DrawBotError "Create a new path first"), s)) /\
  (forall g, (forall pt, g <> seg_moveTo pt) ->
             exists name, segment_call g s = (Raised (AttributeError name), s)) /\
  (forall g segs, exists e, forM_ (g :: segs) segment_call s = (Raised e, s)) /\
  (fst (BaseContext.save s) = Returned tt ->
   let r := (BaseContext.save ;; BaseContext.newPath ;; BaseContext.restore) s in
   fst r = Returned tt /\
   GraphicsState.path (current (snd r)) = PNone /\
   BaseContext._stack (snd (snd r)) = BaseContext._stack (snd s) /\
   forall g segs, exists e,
     forM_ (g :: segs) segment_call (snd r) = (Raised e, snd r)).
Proof.
  assert (Hnone : forall s' : BaseContext.st,
    GraphicsState.path (current s') = PNone ->
    forall g, exists e, segment_call g s' = (Raised e, s')).
  { intros [w c] E g. unfold current in E. cbn [fst snd] in E.
    assert (H : forall name f,
      BaseContext.state_path name f (w, c) = (Raised (AttributeError name), (w, c))).
    { intros name f. unfold BaseContext.state_path, bind, BaseContext.self, zoom, gets.
      cbn [fst snd]. rewrite E. reflexivity. }
    destruct g; simpl; try (eexists; apply H).
    eexists. unfold BaseContext.moveTo, bind, BaseContext.self, zoom, gets.
    cbn [fst snd]. rewrite E. reflexivity. }
  assert (Hseq : forall s' : BaseContext.st,
    GraphicsState.path (current s') = PNone ->
    forall g segs, exists e, forM_ (g :: segs) segment_call s' = (Raised e, s')).
  { intros s' E g segs. destruct (Hnone s' E g) as [e He]. exists e.
    simpl. unfold bind. rewrite He. reflexivity. }
  intros E. split; [|split; [|split]].
  - intros pt. destruct s as [w c]. unfold current in E. cbn [fst snd] in E.
    unfold BaseContext.moveTo, bind, BaseContext.self, zoom, gets.
    cbn [fst snd]. rewrite E. reflexivity.
  - intros g Hg. destruct s as [w c]. unfold current in E. cbn [fst snd] in E.
    assert (H : forall name f,
      BaseContext.state_path name f (w, c) = (Raised (AttributeError name), (w, c))).
    { intros name f. unfold BaseContext.state_path, bind, BaseContext.self, zoom, gets.
      cbn [fst snd]. rewrite E. reflexivity. }
    destruct g; simpl; try (eexists; apply H). exfalso. eapply Hg. reflexivity.
  - apply Hseq. exact E.
  - destruct s as [w c]. unfold current in E. cbn [fst snd] in *.
    intros Hsave. cbv zeta.
    pose proof (save_spec (w, c)) as Hs.
    destruct (BaseContext.save (w, c)) as [[[]|e] [w1 c1]] eqn:Es; [|discriminate].
    cbn [fst snd] in Hs. destruct Hs as (x & Hcopy & Ec1).
    destruct (GraphicsState_copy_spec _ _ _ _ Hcopy) as (_ & _ & _ & Hpath).
    unfold current in Hpath. cbn [fst snd] in Hpath.
    rewrite E in Hpath. destruct Hpath as [Hx Hw].
    assert (Er : (BaseContext.newPath ;; BaseContext.restore) (w1, c1) =
      (Returned tt,
       (set_Color_colorSpace (GraphicsState.colorSpace x)
          (set_paths (paths w1 ++ [BezierPath.__init__]) w1),
        BaseContext.set__state x
          (BaseContext.set__stack (BaseContext._stack c)
             (BaseContext.set__state
                (GraphicsState.set_path (PPath (length (paths w1)))
                   (BaseContext._state c1)) c1))))).
    { unfold bind at 1. unfold BaseContext.newPath. unfold bind at 1.
      unfold BaseContext.world at 1, zoom, alloc. cbn [fst snd].
      unfold BaseContext.state, BaseContext.self, zoom, modify. cbn [fst snd].
      apply restore_spec. rewrite Ec1. destruct c; reflexivity. }
    assert (Eall : (BaseContext.save ;; BaseContext.newPath ;; BaseContext.restore) (w, c) =
                   (BaseContext.newPath ;; BaseContext.restore) (w1, c1)).
    { unfold bind at 1. rewrite Es. reflexivity. }
    rewrite Eall, Er. cbn [fst snd]. unfold current. cbn [fst snd].
    assert (Ex : GraphicsState.path
                   (BaseContext._state
                      (BaseContext.set__state x
                         (BaseContext.set__stack (BaseContext._stack c)
                            (BaseContext.set__state
                               (GraphicsState.set_path (PPath (length (paths w1)))
                                  (BaseContext._state c1)) c1)))) = PNone).
    { destruct c1; exact Hx. }
    split; [reflexivity|]. split; [exact Ex|]. split; [destruct c1; reflexivity|].
    apply Hseq. exact Ex.
Qed.

(** X17.  [save()] stores a copy of the current path, an object of its own:
    the path calls that follow extend the current path and not the copy, and
    [restore()] makes the copy the current path, with the elements the path
    had at the [save()]. *)
Theorem path_edits_are_undone_by_restore
    (s : BaseContext.st) (l : loc) (p : BezierPath.t) (segs : list segment) :
  GraphicsState.path (current s) = PPath l ->
  paths (fst s) !! l = Some p ->
  fst (BaseContext.save s) = Returned tt ->
  let r1 := forM_ segs segment_call (snd (BaseContext.save s)) in
  let r2 := BaseContext.restore (snd r1) in
  fst r1 = Returned tt /\
  GraphicsState.path (current (snd r1)) = PPath l /\
  BezierPath._path <$> paths (fst (snd r1)) !! l =
    Some (BezierPath._path p ++ map segment_element segs) /\
  fst r2 = Returned tt /\
  GraphicsState.path (current (snd r2)) = PPath (length (paths (fst s))) /\
  paths (fst (snd r2)) !! length (paths (fst s)) = Some p.
Proof.
  destruct s as [w c]. unfold current. cbn [fst snd]. intros Ep Hl Hsave. cbv zeta.
  assert (Hlt : (l < length (paths w))%nat) by (eapply lookup_lt_Some; eauto).
  pose proof (save_spec (w, c)) as Hs.
  destruct (BaseContext.save (w, c)) as [[[]|e] [w1 c1]]; [|discriminate].
  cbn [fst snd] in *. destruct Hs as (x & Hcopy & Ec1).
  destruct (GraphicsState_copy_spec _ _ _ _ Hcopy) as (_ & _ & _ & Hpath).
  unfold current in Hpath. cbn [fst snd] in Hpath. rewrite Ep in Hpath.
  destruct Hpath as (p' & Hl' & Hx & Hw1).
  assert (p' = p) by congruence. subst p'.
  assert (Ep1 : GraphicsState.path (BaseContext._state c1) = PPath l)
    by (rewrite Ec1; destruct c; exact Ep).
  rewrite (segments_spec segs w1 c1 l Ep1). cbn [fst snd paths set_paths].
  split; [done|]. split; [exact Ep1|].
  assert (Hst : BaseContext._stack c1 = BaseContext._stack c ++ [x])
    by (rewrite Ec1; destruct c; reflexivity).
  rewrite (restore_spec _ c1 _ _ Hst). cbn [fst snd paths set_paths set_Color_colorSpace].
  rewrite Hw1. split.
  - rewrite list_lookup_alter_eq. rewrite lookup_app_l by done.
    transitivity (BezierPath._path <$>
      (Some (fold_left (fun p g => BezierPath.append (segment_element g) p) segs p))).
    + f_equal. exact (f_equal (fmap _) Hl).
    + simpl. rewrite segments_fold. reflexivity.
  - split; [done|]. split; [destruct c1; exact Hx|].
    rewrite list_lookup_alter_ne by lia.
    rewrite lookup_app_r by lia. rewrite Nat.sub_diag. reflexivity.
Qed.

(** ** Colour space, gradients and text colours *)

(** X18.  [colorSpace(name)] with one of the six names sets the colour
    space of the current state and the class attribute [Color.colorSpace]
    with it, so that the colours made afterwards are in that space; the
    colours the state already holds are not converted.  [None] stands for
    "genericRGB".  Any other hashable name raises a [DrawBotError] and changes
    nothing. *)
Theorem colorSpace_sets_state_and_class (s : BaseContext.st) :
  (forall name cs,
     BaseContext._colorSpaceMap name = Some cs ->
     let r := BaseContext.colorSpace name s in
     fst r = Returned tt /\
     GraphicsState.colorSpace (current (snd r)) = cs /\
     Color_colorSpace (fst (snd r)) = cs /\
     GraphicsState.fillColor (current (snd r)) = GraphicsState.fillColor (current s) /\
     GraphicsState.strokeColor (current (snd r)) = GraphicsState.strokeColor (current s) /\
     forall r0 g b a,
       r0 <> PNone ->
       GraphicsState.fillColor (current (snd (BaseContext.fill r0 g b a (snd r)))) =
         Some (Color.__init__ cs r0 g b a)) /\
  BaseContext.colorSpace PNone s = BaseContext.colorSpace (PStr "genericRGB") s /\
  (forall name,
     name <> PNone -> Py.hashable name = true ->
     BaseContext._colorSpaceMap name = None ->
     exists msg, BaseContext.colorSpace name s = (Raised (DrawBotError msg), s)).
Proof.
  destruct s as [w c]. split; [|split].
  - intros name cs Hn. cbv zeta.
    assert (E : BaseContext.colorSpace name (w, c) =
      (Returned tt,
       (set_Color_colorSpace cs w,
        BaseContext.set__state (GraphicsState.set_colorSpace cs (BaseContext._state c)) c))).
    { unfold BaseContext.colorSpace.
      assert (Hname : Py.is_None name = false) by (destruct name; done).
      rewrite Hname.
      assert (Hh : Py.hashable name = true)
        by (destruct name; try discriminate; reflexivity).
      rewrite Hh, Hn. simpl. destruct c; reflexivity. }
    rewrite E. unfold current. cbn [fst snd].
    destruct c as [? ? ? ? st]. simpl.
    split; [done|]. split; [done|]. split; [done|]. split; [done|]. split; [done|].
    intros r0 g b a Hr. destruct r0; try congruence; reflexivity.
  - reflexivity.
  - intros name Hn Hh Hm. unfold BaseContext.colorSpace.
    assert (Hname : Py.is_None name = false) by (destruct name; done).
    rewrite Hname, Hh, Hm. simpl. eexists. reflexivity.
Qed.

Lemma mapM_outcome_length {A B} (f : A -> outcome B) (l : list A) (l' : list B) :
  mapM_outcome f l = Returned l' -> length l' = length l.
Proof.
  revert l'. induction l as [|x l IH]; intros l'; simpl.
  - intros H. injection H as <-. reflexivity.
  - destruct (f x) as [y|]; simpl; [|discriminate].
    destruct (mapM_outcome f l) as [ys|]; simpl; [|discriminate].
    intros H. injection H as <-. simpl. rewrite (IH ys); reflexivity.
Qed.

Lemma chars_length (s : string) : length (Py.chars s) = String.length s.
Proof. induction s as [|a s IH]; simpl; [done|]. rewrite IH. done. Qed.

Lemma len_items (v : pyval) (n : nat) (l : list pyval) :
  Py.len v = Returned n -> Py.items v = Returned l -> length l = n.
Proof.
  destruct v; simpl; try discriminate; intros H1 H2;
    injection H1 as <-; injection H2 as <-; auto using chars_length.
Qed.

(** X19.  A gradient that [Gradient.__init__] accepts is linear or radial,
    has at least two colours, one for each item of the argument, and as many
    positions as colours; it has no CMYK colours yet. *)
Theorem accepted_gradients
    (cs : NSColorSpace) (gradientType : string)
    (start end_ colors positions startRadius endRadius : pyval) (g : Gradient.t) :
  Gradient.__init__ cs gradientType start end_ colors positions startRadius endRadius
    = Returned g ->
  (gradientType = "linear" \/ gradientType = "radial") /\
  Gradient.gradientType g = gradientType /\
  (2 <= length (Gradient.colors g))%nat /\
  Py.len colors = Returned (length (Gradient.colors g)) /\
  length (Gradient.positions g) = length (Gradient.colors g) /\
  Gradient.cmykColors g = None /\
  (positions = PNone ->
   Gradient.positions g = Gradient.default_positions (length (Gradient.colors g))).
Proof.
  unfold Gradient.__init__.
  destruct (String.eqb gradientType "linear") eqn:E1;
    [|destruct (String.eqb gradientType "radial") eqn:E2]; simpl; try discriminate.
  all: destruct (Py.truthy colors); simpl; try discriminate.
  all: destruct (Py.len colors) as [n|] eqn:En; simpl; try discriminate.
  all: destruct (n <? 2)%nat eqn:E3; try discriminate.
  all: apply Nat.ltb_ge in E3.
  all: destruct (match positions with PNone => _ | _ => _ end) as [ps|] eqn:Eps;
    simpl; try discriminate.
  all: destruct (Nat.eqb n (length ps)) eqn:E4; simpl; try discriminate.
  all: apply Nat.eqb_eq in E4.
  all: unfold Color.getColorsFromList.
  all: destruct (Py.items colors) as [items|] eqn:Ei; simpl; try discriminate.
  all: destruct (mapM_outcome (Color.getColor cs) items) as [cols|] eqn:Ec;
    try discriminate.
  all: intros H; injection H as <-; simpl.
  all: pose proof (mapM_outcome_length _ _ _ Ec) as Hlen.
  all: pose proof (len_items _ _ _ En Ei) as Hn.
  all: assert (Hc : length cols = n) by congruence.
  all: split; [first [left; apply String.eqb_eq; exact E1
                     |right; apply String.eqb_eq; exact E2]|].
  all: split; [done|]. all: split; [lia|]. all: split; [congruence|].
  all: split; [congruence|]. all: split; [done|].
  all: intros ->; injection Eps as <-; congruence.
Qed.

Lemma exclusive_parts (s : FormattedString.t) :
  text_colours_exclusive s = true <->
  Py.truthy (FormattedString._fill s) && Py.truthy (FormattedString._cmykFill s) = false /\
  Py.truthy (FormattedString._stroke s) && Py.truthy (FormattedString._cmykStroke s) = false.
Proof.
  unfold text_colours_exclusive. rewrite andb_true_iff, !negb_true_iff. reflexivity.
Qed.

Lemma exclusive_setattr k v s :
  match k with
  | FormattedString.K_fill | FormattedString.K_cmykFill
  | FormattedString.K_stroke | FormattedString.K_cmykStroke => False
  | _ => True
  end ->
  text_colours_exclusive (FormattedString.setattr k v s) = text_colours_exclusive s.
Proof. destruct k; try done; intros _; destruct s; reflexivity. Qed.

Lemma exclusive_after_colours (s : FormattedString.t) :
  text_colours_exclusive
    ((fun s => if Py.truthy (FormattedString._stroke s)
               then FormattedString.setattr FormattedString.K_cmykStroke PNone s
               else if Py.truthy (FormattedString._cmykStroke s)
                    then FormattedString.setattr FormattedString.K_stroke PNone s
                    else s)
       ((fun s => if Py.truthy (FormattedString._fill s)
                  then FormattedString.setattr FormattedString.K_cmykFill PNone s
                  else if Py.truthy (FormattedString._cmykFill s)
                       then FormattedString.setattr FormattedString.K_fill PNone s
                       else s) s)) = true.
Proof.
  destruct s as [fs f cf st cst sw lh tr bs ul sk url tabs wd]. cbv beta.
  apply exclusive_parts. cbn [FormattedString._fill FormattedString._cmykFill
    FormattedString._stroke FormattedString._cmykStroke].
  destruct (Py.truthy f) eqn:Ef, (Py.truthy cf) eqn:Ecf; simpl;
    destruct (Py.truthy st) eqn:Est, (Py.truthy cst) eqn:Ecst; simpl;
    rewrite ?Ef, ?Ecf, ?Est, ?Ecst; done.
Qed.

Lemma exclusive_rgb (s : FormattedString.t) (k1 k2 : FormattedString.key) (v : pyval) :
  (k1 = FormattedString.K_fill /\ k2 = FormattedString.K_cmykFill) \/
  (k1 = FormattedString.K_cmykFill /\ k2 = FormattedString.K_fill) \/
  (k1 = FormattedString.K_stroke /\ k2 = FormattedString.K_cmykStroke) \/
  (k1 = FormattedString.K_cmykStroke /\ k2 = FormattedString.K_stroke) ->
  text_colours_exclusive s = true ->
  text_colours_exclusive
    (FormattedString.setattr k2 PNone (FormattedString.setattr k1 v s)) = true.
Proof.
  intros Hk H. apply exclusive_parts in H as [H1 H2]. apply exclusive_parts.
  destruct s; simpl in *.
  destruct Hk as [[-> ->]|[[-> ->]|[[-> ->]|[-> ->]]]]; simpl;
    rewrite ?andb_false_r; done.
Qed.

Lemma exclusive_colour_setters (s : FormattedString.t) :
  text_colours_exclusive s = true ->
  (forall r g b a, text_colours_exclusive (snd (FormattedString.fill r g b a s)) = true) /\
  (forall r g b a, text_colours_exclusive (snd (FormattedString.stroke r g b a s)) = true) /\
  (forall c m y k a,
     text_colours_exclusive (snd (FormattedString.cmykFill c m y k a s)) = true) /\
  (forall c m y k a,
     text_colours_exclusive (snd (FormattedString.cmykStroke c m y k a s)) = true).
Proof.
  intros H. repeat split; intros;
    unfold FormattedString.fill, FormattedString.stroke, FormattedString.cmykFill,
      FormattedString.cmykStroke, bind, modify; cbn [fst snd];
    apply exclusive_rgb; auto 6.
Qed.

(** X20.  The text state keeps its colours apart: a new [FormattedString],
    whatever keyword arguments it is made with, does not hold both an RGB and
    a CMYK colour for fill or for stroke, and no method of the text state
    makes it hold both, whether the method returns or raises. *)
Theorem text_colours_stay_apart :
  text_colours_exclusive FormattedString.new = true /\
  (forall kwargs s,
     FormattedString.__init__ kwargs = Returned s -> text_colours_exclusive s = true) /\
  (forall k args s,
     text_colours_exclusive s = true ->
     text_colours_exclusive (snd (FormattedString.method k args s)) = true).
Proof.
  split; [reflexivity|]. split.
  - intros kwargs s. unfold FormattedString.__init__.
    unfold bind at 1.
    destruct (forM_ kwargs _ FormattedString.defaults) as [[[]|e] s1]; [|discriminate].
    unfold bind at 1. unfold FormattedString._setColorAttributes.
    unfold bind at 1.
    destruct (forM_ _ _ s1) as [[[]|e] s2]; [|discriminate].
    unfold bind, modify, get. cbn [fst snd].
    intros H. injection H as <-. apply exclusive_after_colours.
  - intros k args s H.
    destruct (exclusive_colour_setters s H) as (Hf & Hs & Hcf & Hcs).
    assert (Hone : forall (f : pyval -> M FormattedString.t unit),
      (forall v, text_colours_exclusive (snd (f v s)) = true) ->
      text_colours_exclusive
        (snd ((match args with
               | [v] => f v
               | _ => raise (TypeError "takes exactly one positional argument")
               end) s)) = true).
    { intros f Hfv. destruct args as [|v [|? ?]]; [exact H|apply Hfv|exact H]. }
    assert (Hset : forall k' v,
      match k' with
      | FormattedString.K_fill | FormattedString.K_cmykFill
      | FormattedString.K_stroke | FormattedString.K_cmykStroke => False
      | _ => True
      end ->
      text_colours_exclusive (snd (modify (FormattedString.setattr k' v) s)) = true).
    { intros k' v Hk. unfold modify. cbn [snd]. rewrite exclusive_setattr; done. }
    destruct k; unfold FormattedString.method.
    all: try (apply Hone; intros v;
              unfold FormattedString.fontSize, FormattedString.strokeWidth,
                FormattedString.lineHeight, FormattedString.tracking,
                FormattedString.baselineShift, FormattedString.underline,
                FormattedString.strikethrough, FormattedString.url,
                FormattedString.writingDirection;
              repeat match goal with
                     | |- context [if ?b then _ else _] => destruct b
                     end;
              first [exact H | apply Hset; exact I]).
    all: try (destruct (Py.bind_args _ args) as [vs|e]; [|exact H];
              destruct vs as [|? [|? [|? [|? [|? [|? ?]]]]]];
              first [exact H | apply Hf | apply Hs | apply Hcf | apply Hcs]).
    (* tabs *)
    destruct args as [|tab rest]; [exact H|]. unfold FormattedString.tabs.
    destruct (Py.is_None tab); apply Hset; exact I.
Qed.

(** ** The text state and its copy *)

Lemma setAttribute_single k v (t : FormattedString.t) :
  Py.is_sequence v = false ->
  FormattedString._setAttribute k v t = FormattedString.method k [v] t.
Proof. destruct v; try discriminate; reflexivity. Qed.

Lemma setAttribute_plain k v (t : FormattedString.t) :
  match k with
  | FormattedString.K_fill | FormattedString.K_stroke
  | FormattedString.K_cmykFill | FormattedString.K_cmykStroke => False
  | _ => True
  end ->
  text_value_ok k v = true ->
  FormattedString._setAttribute k v t = (Returned tt, FormattedString.setattr k v t).
Proof.
  intros Hk Hv. destruct k; try done; simpl in Hv.
  all: try (apply negb_true_iff in Hv; rewrite (setAttribute_single _ _ _ Hv);
            reflexivity).
  - (* underline *)
    destruct v; try discriminate; try reflexivity.
    simpl in Hv. unfold FormattedString._setAttribute, FormattedString.method,
      FormattedString.underline. simpl. rewrite Hv. reflexivity.
  - (* strikethrough *)
    destruct v; try discriminate; try reflexivity.
    simpl in Hv. unfold FormattedString._setAttribute, FormattedString.method,
      FormattedString.strikethrough. simpl. rewrite Hv. reflexivity.
  - (* tabs *)
    destruct v as [| | | | | |[|tab rest]|]; try discriminate; try reflexivity.
    unfold FormattedString._setAttribute, FormattedString.method, FormattedString.tabs.
    apply negb_true_iff in Hv. rewrite Hv. reflexivity.
  - (* writingDirection *)
    destruct v; try discriminate; try reflexivity.
    simpl in Hv. unfold FormattedString._setAttribute, FormattedString.method,
      FormattedString.writingDirection. simpl. rewrite Hv. reflexivity.
Qed.

Lemma forM_step {S A} (x : A) (rest : list A) (f : A -> M S unit) (t t' : S) :
  f x t = (Returned tt, t') -> forM_ (x :: rest) f t = forM_ rest f t'.
Proof. intros E. simpl. unfold bind. rewrite E. reflexivity. Qed.

(** The copy of a well-formed text state has the attributes of the
    original. *)
Lemma text_copy_same (s : FormattedString.t) :
  text_well_formed s = true -> FormattedString.copy s = Returned s.
Proof.
  destruct s as [fs f cf st cst sw lh tr bs ul sk url tabs wd].
  unfold text_well_formed.
  cbn [forallb FormattedString.keys FormattedString.getattr FormattedString._fontSize
       FormattedString._fill FormattedString._cmykFill FormattedString._stroke
       FormattedString._cmykStroke FormattedString._strokeWidth
       FormattedString._lineHeight FormattedString._tracking
       FormattedString._baselineShift FormattedString._underline
       FormattedString._strikethrough FormattedString._url FormattedString._tabs
       FormattedString._writingDirection].
  rewrite !andb_true_iff.
  intros [[(H1 & H2 & H3 & H4 & H5 & H6 & H7 & H8 & H9 & H10 & H11 & H12 & H13 & H14 & _)
           Hx1] Hx2].
  unfold FormattedString.copy, FormattedString.__init__.
  cbn [map FormattedString.keys FormattedString.getattr FormattedString._fontSize
       FormattedString._fill FormattedString._cmykFill FormattedString._stroke
       FormattedString._cmykStroke FormattedString._strokeWidth
       FormattedString._lineHeight FormattedString._tracking
       FormattedString._baselineShift FormattedString._underline
       FormattedString._strikethrough FormattedString._url FormattedString._tabs
       FormattedString._writingDirection].
  unfold bind at 1.
  destruct f as [| | | | |[|x1 [|x2 [|x3 [|x4 [|? ?]]]]]| |]; try discriminate;
    destruct cf as [| | | | |[|c1 [|c2 [|c3 [|c4 [|c5 [|? ?]]]]]]| |]; try discriminate;
    destruct st as [| | | | |[|y1 [|y2 [|y3 [|y4 [|? ?]]]]]| |]; try discriminate;
    destruct cst as [| | | | |[|k1 [|k2 [|k3 [|k4 [|k5 [|? ?]]]]]]| |]; try discriminate.
  all: do 14 (erewrite forM_step;
              [|first [ apply setAttribute_plain; [exact I|assumption]
                      | reflexivity ]]).
  all: reflexivity.
Qed.

Lemma getattr_setattr (k k' : FormattedString.key) (v : pyval) (s : FormattedString.t) :
  FormattedString.getattr k (FormattedString.setattr k' v s) =
  if decide (k = k') then v else FormattedString.getattr k s.
Proof. destruct k, k'; reflexivity. Qed.

Lemma text_well_formed_iff (s : FormattedString.t) :
  text_well_formed s = true <->
  (forall k, text_value_ok k (FormattedString.getattr k s) = true) /\
  (Py.is_None (FormattedString.getattr FormattedString.K_fill s) = true \/
   Py.is_None (FormattedString.getattr FormattedString.K_cmykFill s) = true) /\
  (Py.is_None (FormattedString.getattr FormattedString.K_stroke s) = true \/
   Py.is_None (FormattedString.getattr FormattedString.K_cmykStroke s) = true).
Proof.
  unfold text_well_formed. rewrite !andb_true_iff, !orb_true_iff, forallb_forall.
  split.
  - intros [[H1 H2] H3]. split; [|done]. intros k. apply H1.
    destruct k; simpl; tauto.
  - intros (H1 & H2 & H3). split; [split|]; [|done|done]. intros k _. apply H1.
Qed.

Lemma well_formed_set (k : FormattedString.key) (v : pyval) (s : FormattedString.t) :
  match k with
  | FormattedString.K_fill | FormattedString.K_stroke
  | FormattedString.K_cmykFill | FormattedString.K_cmykStroke => False
  | _ => True
  end ->
  text_value_ok k v = true ->
  text_well_formed s = true ->
  text_well_formed (FormattedString.setattr k v s) = true.
Proof.
  intros Hk Hv H. apply text_well_formed_iff in H as (H1 & H2 & H3).
  apply text_well_formed_iff. rewrite !getattr_setattr. split; [|split].
  - intros k0. rewrite getattr_setattr. destruct (decide (k0 = k)) as [->|]; auto.
  - destruct k; try done.
  - destruct k; try done.
Qed.

Lemma well_formed_colour (k1 k2 : FormattedString.key) (v : pyval) (s : FormattedString.t) :
  (k1 = FormattedString.K_fill /\ k2 = FormattedString.K_cmykFill) \/
  (k1 = FormattedString.K_cmykFill /\ k2 = FormattedString.K_fill) \/
  (k1 = FormattedString.K_stroke /\ k2 = FormattedString.K_cmykStroke) \/
  (k1 = FormattedString.K_cmykStroke /\ k2 = FormattedString.K_stroke) ->
  text_value_ok k1 v = true ->
  text_well_formed s = true ->
  text_well_formed
    (FormattedString.setattr k2 PNone (FormattedString.setattr k1 v s)) = true.
Proof.
  intros Hk Hv H. apply text_well_formed_iff in H as (H1 & H2 & H3).
  apply text_well_formed_iff. rewrite !getattr_setattr. split; [|split].
  - intros k0. rewrite !getattr_setattr.
    destruct (decide (k0 = k2)) as [->|].
    + destruct Hk as [[-> ->]|[[-> ->]|[[-> ->]|[-> ->]]]]; reflexivity.
    + destruct (decide (k0 = k1)) as [->|]; auto.
  - destruct Hk as [[-> ->]|[[-> ->]|[[-> ->]|[-> ->]]]]; simpl; auto.
  - destruct Hk as [[-> ->]|[[-> ->]|[[-> ->]|[-> ->]]]]; simpl; auto.
Qed.

Lemma components_ok (r : pyval) (l : list pyval) :
  Py.is_None r = false -> (length l <= 3)%nat ->
  text_value_ok FormattedString.K_fill (FormattedString.components (r :: l)) = true.
Proof.
  intros Hr Hl. unfold FormattedString.components. rewrite filter_cons.
  rewrite decide_True by (rewrite Hr; done). simpl.
  apply Nat.leb_le. etransitivity; [apply length_filter|exact Hl].
Qed.

(** Every setter keeps a text state as the setters store it, as long as a
    setter of a single value is not given a list or tuple. *)
Lemma method_well_formed (k : FormattedString.key) (args : list pyval)
    (s : FormattedString.t) :
  text_well_formed s = true ->
  match k with
  | FormattedString.K_fontSize | FormattedString.K_strokeWidth
  | FormattedString.K_lineHeight | FormattedString.K_tracking
  | FormattedString.K_baselineShift | FormattedString.K_url =>
      forall v, args = [v] -> Py.is_sequence v = false
  | _ => True
  end ->
  text_well_formed (snd (FormattedString.method k args s)) = true.
Proof.
  intros H Hargs.
  assert (Hone : forall (f : pyval -> M FormattedString.t unit),
    (forall v, args = [v] -> text_well_formed (snd (f v s)) = true) ->
    text_well_formed
      (snd ((match args with
             | [v] => f v
             | _ => raise (TypeError "takes exactly one positional argument")
             end) s)) = true).
  { intros f Hfv. destruct args as [|v [|? ?]]; [exact H|apply Hfv; reflexivity|exact H]. }
  assert (Hrgb : forall k1 k2 r g b a,
    (k1 = FormattedString.K_fill /\ k2 = FormattedString.K_cmykFill) \/
    (k1 = FormattedString.K_stroke /\ k2 = FormattedString.K_cmykStroke) ->
    text_well_formed
      (FormattedString.setattr k2 PNone
         (FormattedString.setattr k1
            (if Py.is_None r then PNone else FormattedString.components [r; g; b; a])
            s)) = true).
  { intros k1 k2 r g b a Hk. apply well_formed_colour; [tauto| |exact H].
    assert (Hv : text_value_ok FormattedString.K_fill
              (if Py.is_None r then PNone
               else FormattedString.components [r; g; b; a]) = true).
    { destruct (Py.is_None r) eqn:Er; [reflexivity|].
      apply components_ok; [exact Er|simpl; lia]. }
    destruct Hk as [[-> _]|[-> _]]; exact Hv. }
  assert (Hcmyk : forall k1 k2 c m y k0 a,
    (k1 = FormattedString.K_cmykFill /\ k2 = FormattedString.K_fill) \/
    (k1 = FormattedString.K_cmykStroke /\ k2 = FormattedString.K_stroke) ->
    text_well_formed
      (FormattedString.setattr k2 PNone
         (FormattedString.setattr k1
            (if Py.is_None c then PNone else PTuple [c; m; y; k0; a]) s)) = true).
  { intros k1 k2 c m y k0 a Hk. apply well_formed_colour; [tauto| |exact H].
    destruct Hk as [[-> _]|[-> _]]; destruct (Py.is_None c); reflexivity. }
  destruct k; unfold FormattedString.method.
  all: try (apply Hone; intros v Hv;
            unfold FormattedString.fontSize, FormattedString.strokeWidth,
              FormattedString.lineHeight, FormattedString.tracking,
              FormattedString.baselineShift, FormattedString.url, modify; cbn [snd];
            apply well_formed_set; [exact I| |exact H];
            simpl; rewrite (Hargs v Hv); reflexivity).
  all: try (destruct (Py.bind_args _ args) as [vs|e]; [|exact H];
            destruct vs as [|? [|? [|? [|? [|? [|? ?]]]]]]; try exact H;
            unfold FormattedString.fill, FormattedString.stroke,
              FormattedString.cmykFill, FormattedString.cmykStroke, bind, modify;
            cbn [fst snd];
            first [apply Hrgb; tauto | apply Hcmyk; tauto]).
  + (* underline *)
    apply Hone. intros v _. unfold FormattedString.underline.
    destruct (Py.is_None v) eqn:E1;
      [unfold modify; cbn [snd]; apply well_formed_set;
         [exact I|simpl; rewrite E1; reflexivity|exact H]|].
    destruct (negb (Py.hashable v)); [exact H|].
    destruct (FormattedString.in_textUnderlineMap v) eqn:E2; [|exact H].
    unfold modify; cbn [snd negb]. apply well_formed_set;
      [exact I|simpl; rewrite E2; apply orb_true_r|exact H].
  + (* strikethrough *)
    apply Hone. intros v _. unfold FormattedString.strikethrough.
    destruct (Py.is_None v) eqn:E1;
      [unfold modify; cbn [snd]; apply well_formed_set;
         [exact I|simpl; rewrite E1; reflexivity|exact H]|].
    destruct (negb (Py.hashable v)); [exact H|].
    destruct (FormattedString.in_textUnderlineMap v) eqn:E2; [|exact H].
    unfold modify; cbn [snd negb]. apply well_formed_set;
      [exact I|simpl; rewrite E2; apply orb_true_r|exact H].
  + (* tabs *)
    destruct args as [|tab rest]; [exact H|]. unfold FormattedString.tabs.
    destruct (Py.is_None tab) eqn:E1; unfold modify; cbn [snd];
      (apply well_formed_set; [exact I| |exact H]); simpl; rewrite ?E1; reflexivity.
  + (* writingDirection *)
    apply Hone. intros v _. unfold FormattedString.writingDirection.
    destruct (Py.is_None v) eqn:E1;
      [unfold modify; cbn [snd]; apply well_formed_set;
         [exact I|simpl; rewrite E1; reflexivity|exact H]|].
    destruct (negb (Py.hashable v)); [exact H|].
    destruct (FormattedString.in_writingDirectionMap v) eqn:E2; [|exact H].
    unfold modify; cbn [snd negb]. apply well_formed_set;
      [exact I|simpl; rewrite E2; apply orb_true_r|exact H].
Qed.

(** X21.  The copy of a text state, which [save()] takes with the graphics
    state, has the attributes of the original whenever these are as the
    setters store them: a new text state is so, every setter keeps it so as
    long as a setter of a single value is not given a list or tuple, and for
    such a text state [FormattedString.copy] returns the same attributes, so
    that the copy of a graphics state has the text of the original. *)
Theorem text_survives_the_copy :
  text_well_formed FormattedString.new = true /\
  (forall s, text_well_formed s = true -> FormattedString.copy s = Returned s) /\
  (forall k args s,
     text_well_formed s = true ->
     match k with
     | FormattedString.K_fontSize | FormattedString.K_strokeWidth
     | FormattedString.K_lineHeight | FormattedString.K_tracking
     | FormattedString.K_baselineShift | FormattedString.K_url =>
         forall v, args = [v] -> Py.is_sequence v = false
     | _ => True
     end ->
     text_well_formed (snd (FormattedString.method k args s)) = true) /\
  (forall st st' w w',
     text_well_formed (GraphicsState.text st) = true ->
     GraphicsState.copy st w = (Returned st', w') ->
     GraphicsState.text st' = GraphicsState.text st).
Proof.
  split; [reflexivity|]. split; [exact text_copy_same|]. split.
  - intros k args s. apply method_well_formed.
  - intros st st' w w' H Hcopy.
    destruct (GraphicsState_copy_spec _ _ _ _ Hcopy) as (_ & Ht & _).
    rewrite (text_copy_same _ H) in Ht. congruence.
Qed.

(** ** States of which a copy can be taken *)

Lemma Color_copy_held c : Color_held c = true -> Color.copy c = Returned c.
Proof. destruct c as [[ns|]]; [reflexivity|discriminate]. Qed.

Lemma CMYKColor_copy_held k :
  CMYKColor_held k = true ->
  exists k', CMYKColor.copy k = Returned k' /\ CMYKColor_held k' = true.
Proof.
  destruct k as [[ns|] ?]; [|discriminate]. intros _. eexists. split; reflexivity.
Qed.

Lemma Colors_copy_held l :
  forallb Color_held l = true -> mapM_outcome Color.copy l = Returned l.
Proof.
  induction l as [|c l IH]; simpl; [reflexivity|].
  intros H. apply andb_true_iff in H as [H1 H2].
  rewrite (Color_copy_held c H1), (IH H2). reflexivity.
Qed.

Lemma CMYKColors_copy_held l :
  forallb CMYKColor_held l = true ->
  exists l', mapM_outcome CMYKColor.copy l = Returned l' /\
             forallb CMYKColor_held l' = true /\ length l' = length l.
Proof.
  induction l as [|k l IH]; simpl.
  - intros _. exists []. done.
  - intros H. apply andb_true_iff in H as [H1 H2].
    destruct (CMYKColor_copy_held k H1) as (k' & -> & Hk').
    destruct (IH H2) as (l' & -> & Hl' & Hlen). exists (k' :: l'). simpl.
    rewrite Hk', Hl', Hlen. done.
Qed.

Lemma Shadow_copy_held s :
  Shadow_held s = true ->
  exists s', Shadow.copy s = Returned s' /\ Shadow_held s' = true.
Proof.
  unfold Shadow_held, Shadow.copy. intros H. apply andb_true_iff in H as [H1 H2].
  rewrite (Color_copy_held _ H1). simpl.
  destruct (Shadow.cmykColor s) as [k|]; simpl in *.
  - destruct (CMYKColor_copy_held k H2) as (k' & -> & Hk'). simpl.
    eexists. split; [reflexivity|]. simpl. rewrite H1, Hk'. reflexivity.
  - eexists. split; [reflexivity|]. simpl. rewrite H1. reflexivity.
Qed.

Lemma Gradient_copy_held g :
  Gradient_held g = true ->
  exists g', Gradient.copy g = Returned g' /\ Gradient_held g' = true.
Proof.
  unfold Gradient_held, Gradient.copy. intros H. apply andb_true_iff in H as [H1 H2].
  rewrite (Colors_copy_held _ H1). cbn [outcome_bind].
  destruct (Gradient.cmykColors g) as [[|k ks]|]; cbn [held_opt] in H2.
  - eexists. split; [reflexivity|]. simpl. rewrite H1. reflexivity.
  - destruct (CMYKColors_copy_held (k :: ks) H2) as (l' & E & Hl' & _).
    rewrite E. cbn [outcome_bind]. eexists. split; [reflexivity|].
    cbn [Gradient.colors Gradient.cmykColors held_opt]. rewrite H1, Hl'. reflexivity.
  - eexists. split; [reflexivity|]. simpl. rewrite H1. reflexivity.
Qed.

Lemma copy_opt_held {A} (copy : A -> outcome A) (held : A -> bool) (x : option A) :
  (forall a, held a = true -> exists a', copy a = Returned a' /\ held a' = true) ->
  held_opt held x = true ->
  exists y, GraphicsState.copy_opt copy x None = Returned y /\ held_opt held y = true.
Proof.
  intros Hc H. destruct x as [a|]; simpl in *.
  - destruct (Hc a H) as (a' & -> & Ha'). exists (Some a'). done.
  - exists None. done.
Qed.

Lemma path_held_mono n m p : (n <= m)%nat -> path_held n p = true -> path_held m p = true.
Proof.
  intros Hnm. destruct p; simpl; try done.
  intros H. apply Nat.ltb_lt in H. apply Nat.ltb_lt. lia.
Qed.

Lemma copyable_parts n s :
  copyable n s = true <->
  held_opt Color_held (GraphicsState.fillColor s) = true /\
  held_opt Color_held (GraphicsState.strokeColor s) = true /\
  held_opt CMYKColor_held (GraphicsState.cmykFillColor s) = true /\
  held_opt CMYKColor_held (GraphicsState.cmykStrokeColor s) = true /\
  held_opt Shadow_held (GraphicsState.shadow s) = true /\
  held_opt Gradient_held (GraphicsState.gradient s) = true /\
  path_held n (GraphicsState.path s) = true /\
  text_well_formed (GraphicsState.text s) = true.
Proof. unfold copyable. rewrite !andb_true_iff. tauto. Qed.

Lemma copyable_mono n m s : (n <= m)%nat -> copyable n s = true -> copyable m s = true.
Proof.
  intros Hnm. rewrite !copyable_parts. intros (?&?&?&?&?&?&Hp&?).
  repeat (split; [assumption|]). split; [|assumption].
  eapply path_held_mono; eassumption.
Qed.

(** [GraphicsState.copy] returns for a copyable state, and its result is
    copyable; the store grows by the copy of the path, if there is one. *)
Lemma copy_returns (s : GraphicsState.t) (w : World) :
  copyable (length (paths w)) s = true ->
  exists s' w',
    GraphicsState.copy s w = (Returned s', w') /\
    copyable (length (paths w')) s' = true /\
    (length (paths w) <= length (paths w'))%nat.
Proof.
  rewrite copyable_parts. intros (H1 & H2 & H3 & H4 & H5 & H6 & H7 & H8).
  unfold GraphicsState.copy.
  destruct (copy_opt_held Color.copy Color_held (GraphicsState.fillColor s))
    as (fc & E1 & F1); [intros a Ha; exists a; split; [apply Color_copy_held|]; done|done|].
  destruct (copy_opt_held Color.copy Color_held (GraphicsState.strokeColor s))
    as (sc & E2 & F2); [intros a Ha; exists a; split; [apply Color_copy_held|]; done|done|].
  destruct (copy_opt_held CMYKColor.copy CMYKColor_held (GraphicsState.cmykFillColor s))
    as (cfc & E3 & F3); [apply CMYKColor_copy_held|done|].
  destruct (copy_opt_held CMYKColor.copy CMYKColor_held (GraphicsState.cmykStrokeColor s))
    as (csc & E4 & F4); [apply CMYKColor_copy_held|done|].
  destruct (copy_opt_held Shadow.copy Shadow_held (GraphicsState.shadow s))
    as (sh & E5 & F5); [apply Shadow_copy_held|done|].
  destruct (copy_opt_held Gradient.copy Gradient_held (GraphicsState.gradient s))
    as (gr & E6 & F6); [apply Gradient_copy_held|done|].
  unfold bind at 1. unfold gets at 1.
  cbn [GraphicsState.strokeColor GraphicsState.cmykFillColor GraphicsState.cmykStrokeColor
       GraphicsState.shadow GraphicsState.gradient GraphicsState.path
       GraphicsState.lineDash GraphicsState.__init__].
  rewrite E1, E2, E3, E4, E5, E6. unfold lift, bind. cbn [fst snd].
  rewrite (text_copy_same _ H8).
  destruct (GraphicsState.path s) as [| | | | | |items|l] eqn:Ep; simpl in H7; try discriminate.
  - simpl. eexists _, w. split; [reflexivity|]. split; [|lia].
    apply copyable_parts. simpl. done.
  - simpl. eexists _, w. split; [reflexivity|]. split; [|lia].
    apply copyable_parts. simpl. done.
  - apply Nat.ltb_lt in H7.
    cbn [Py.is_None]. unfold GraphicsState.copy_path_value, copy_path, bind, alloc, ret.
    match goal with
    | |- context [@lookup ?a ?b ?c ?d l (paths w)] =>
        destruct (@lookup a b c d l (paths w)) as [p|] eqn:Hp
    end; [|apply lookup_ge_None in Hp; lia].
    cbn [fst snd].
    eexists _, _. split; [reflexivity|]. simpl. rewrite length_app. simpl. split; [|lia].
    apply copyable_parts. simpl. repeat (split; [assumption|]). split; [|assumption].
    apply Nat.ltb_lt. lia.
Qed.

(** *** Where the arguments of a method come from *)

Lemma kw_get_In name kw v : Py.kw_get name kw = Some v -> In v (map snd kw).
Proof.
  induction kw as [|[n x] kw IH]; simpl; [discriminate|].
  destruct (String.eqb n name); [intros H; injection H as ->; auto|auto].
Qed.

Lemma kw_del_In name kw v : In v (map snd (Py.kw_del name kw)) -> In v (map snd kw).
Proof.
  unfold Py.kw_del. rewrite !in_map_iff. intros ([n x] & E & Hin).
  exists (n, x). split; [exact E|].
  apply (proj1 (list_elem_of_In _ _)). apply list_elem_of_In in Hin.
  apply list_elem_of_filter in Hin. tauto.
Qed.

(** Each value a call binds to a parameter is a positional argument, a
    keyword argument or a default. *)
Lemma bind_params_values (P : pyval -> Prop) params :
  forall args kw vs,
    (forall v, In v args -> P v) ->
    (forall v, In v (map snd kw) -> P v) ->
    (forall d, In (Some d) (map snd params) -> P d) ->
    Py.bind_params params args kw = Returned vs ->
    Forall P vs.
Proof.
  induction params as [|[name d] ps IH]; intros args kw vs Ha Hk Hd; simpl.
  - destruct args; [|discriminate]. destruct kw; [|discriminate].
    intros H. injection H as <-. constructor.
  - destruct args as [|a r].
    + destruct (Py.kw_get name kw) as [v|] eqn:Eg.
      * destruct (Py.bind_params ps [] (Py.kw_del name kw)) as [vs'|] eqn:E; [|discriminate].
        simpl. intros H. injection H as <-. constructor.
        -- apply Hk. eapply kw_get_In. exact Eg.
        -- eapply IH; [| | |exact E]; [done| |].
           ++ intros x Hx. apply Hk. eapply kw_del_In. exact Hx.
           ++ intros x Hx. apply Hd. simpl. auto.
      * destruct d as [v|]; [|discriminate].
        destruct (Py.bind_params ps [] kw) as [vs'|] eqn:E; [|discriminate].
        simpl. intros H. injection H as <-. constructor.
        -- apply Hd. simpl. auto.
        -- eapply IH; [| | |exact E]; [done|exact Hk|].
           intros x Hx. apply Hd. simpl. auto.
    + destruct (Py.kw_get name kw); [discriminate|].
      destruct (Py.bind_params ps r kw) as [vs'|] eqn:E; [|discriminate].
      simpl. intros H. injection H as <-. constructor.
      * apply Ha. simpl. auto.
      * eapply IH; [| | |exact E]; [|exact Hk|].
        -- intros x Hx. apply Ha. simpl. auto.
        -- intros x Hx. apply Hd. simpl. auto.
Qed.

(** *** Calls that keep every state copyable *)

Section SimpleCalls.

Variable cmyk2rgb : pyval -> pyval -> pyval -> pyval -> pyval * pyval * pyval.
Hypothesis cmyk2rgb_red :
  forall c m y k, Py.is_None (fst (fst (cmyk2rgb c m y k))) = false.
Variable n0 : nat.

(** The computation ends, returning or raising, in a context of which the
    current and the saved states are copyable, if it started in one. *)
#[local] Abbreviation pres m :=
  (forall s : BaseContext.st, all_copyable n0 s -> all_copyable n0 (snd (m s))).

Lemma pres_ret {A} (a : A) : pres (ret a).
Proof. intros s H. exact H. Qed.

Lemma pres_raise {A} e : pres (raise e : M BaseContext.st A).
Proof. intros s H. exact H. Qed.

Lemma pres_lift {A} (o : outcome A) : pres (lift o).
Proof. intros s H. exact H. Qed.

Lemma pres_bind_val {A B} (Q : A -> Prop)
    (m : M BaseContext.st A) (k : A -> M BaseContext.st B) :
  (forall s a s', m s = (Returned a, s') -> Q a) ->
  pres m -> (forall a, Q a -> pres (k a)) -> pres (bind m k).
Proof.
  intros HQ Hm Hk s Hs. unfold bind. specialize (Hm s Hs). specialize (HQ s).
  destruct (m s) as [[a|e] s']; simpl in *; [|done]. apply Hk; [|done].
  eapply HQ. reflexivity.
Qed.

Lemma pres_bind {A B} (m : M BaseContext.st A) (k : A -> M BaseContext.st B) :
  pres m -> (forall a, pres (k a)) -> pres (bind m k).
Proof. intros Hm Hk. apply (pres_bind_val (fun _ => True)); auto. Qed.

Lemma pres_state f :
  (forall n x, copyable n x = true -> copyable n (f x) = true) ->
  pres (BaseContext.state f).
Proof.
  intros Hf [w [? ? ? stack st]] (Hn & Hc & Hst). split; [exact Hn|].
  split; [apply Hf; exact Hc|exact Hst].
Qed.

Lemma copyable_set_text n x t :
  text_well_formed t = true -> copyable n x = true ->
  copyable n (GraphicsState.set_text t x) = true.
Proof.
  intros Ht. rewrite !copyable_parts. destruct x; simpl. tauto.
Qed.

Lemma pres_text {A} (m : M FormattedString.t A) :
  (forall t, text_well_formed t = true -> text_well_formed (snd (m t)) = true) ->
  pres (BaseContext.text m).
Proof.
  intros Hm [w [? ? ? stack st]] (Hn & Hc & Hst).
  unfold BaseContext.text, BaseContext.self, zoom. simpl in *.
  specialize (Hm (GraphicsState.text st)).
  destruct (m (GraphicsState.text st)) as [o t]. simpl in *.
  split; [exact Hn|]. split; [|exact Hst].
  apply copyable_set_text; [|exact Hc]. apply Hm.
  apply copyable_parts in Hc. tauto.
Qed.

Lemma pres_self_gets {A} (f : BaseContext.t -> A) : pres (BaseContext.self (gets f)).
Proof. intros [w []] H. exact H. Qed.

Lemma pres_self_get : pres (BaseContext.self get).
Proof. intros [w []] H. exact H. Qed.

Lemma pres_world_gets {A} (f : World -> A) : pres (BaseContext.world (gets f)).
Proof. intros [w []] H. exact H. Qed.

Lemma pres_set_width v : pres (BaseContext.self (modify (BaseContext.set_width v))).
Proof. intros [w []] H. exact H. Qed.
Lemma pres_set_height v : pres (BaseContext.self (modify (BaseContext.set_height v))).
Proof. intros [w []] H. exact H. Qed.
Lemma pres_set_hasPage v : pres (BaseContext.self (modify (BaseContext.set_hasPage v))).
Proof. intros [w []] H. exact H. Qed.

Lemma pres_colorClass r g b a : pres (BaseContext._colorClass r g b a).
Proof. intros [w []] H. exact H. Qed.

Lemma colorClass_held r g b a s c s' :
  Py.is_None r = false ->
  BaseContext._colorClass r g b a s = (Returned c, s') -> Color_held c = true.
Proof.
  intros Hr. destruct s as [w c0]. unfold BaseContext._colorClass, bind,
    BaseContext.world, zoom, gets, ret. simpl. intros H. injection H as <- _.
  destruct r; try discriminate; reflexivity.
Qed.

(** Assignments to the attributes of a state. *)
Ltac copyable_set x :=
  rewrite !copyable_parts; destruct x; simpl; tauto.

Lemma set_plain_copyable :
  (forall v n x, copyable n x = true -> copyable n (GraphicsState.set_blendMode v x) = true) /\
  (forall v n x, copyable n x = true -> copyable n (GraphicsState.set_opacity v x) = true) /\
  (forall v n x, copyable n x = true -> copyable n (GraphicsState.set_strokeWidth v x) = true) /\
  (forall v n x, copyable n x = true -> copyable n (GraphicsState.set_lineDash v x) = true) /\
  (forall v n x, copyable n x = true -> copyable n (GraphicsState.set_lineDashOffset v x) = true) /\
  (forall v n x, copyable n x = true -> copyable n (GraphicsState.set_lineCap v x) = true) /\
  (forall v n x, copyable n x = true -> copyable n (GraphicsState.set_lineJoin v x) = true) /\
  (forall v n x, copyable n x = true -> copyable n (GraphicsState.set_miterLimit v x) = true) /\
  (forall v n x, copyable n x = true -> copyable n (GraphicsState.set_hyphenation v x) = true) /\
  (forall v n x, copyable n x = true -> copyable n (GraphicsState.set_colorSpace v x) = true).
Proof. repeat split; intros v n x; copyable_set x. Qed.

Lemma set_colour_copyable :
  (forall v, held_opt Color_held v = true ->
     forall n x, copyable n x = true -> copyable n (GraphicsState.set_fillColor v x) = true) /\
  (forall v, held_opt Color_held v = true ->
     forall n x, copyable n x = true -> copyable n (GraphicsState.set_strokeColor v x) = true) /\
  (forall v, held_opt CMYKColor_held v = true ->
     forall n x, copyable n x = true ->
       copyable n (GraphicsState.set_cmykFillColor v x) = true) /\
  (forall v, held_opt CMYKColor_held v = true ->
     forall n x, copyable n x = true ->
       copyable n (GraphicsState.set_cmykStrokeColor v x) = true) /\
  (forall n x, copyable n x = true -> copyable n (GraphicsState.set_gradient None x) = true) /\
  (forall n x, copyable n x = true -> copyable n (GraphicsState.set_shadow None x) = true).
Proof. repeat split; first [intros v Hv n x | intros n x]; copyable_set x. Qed.

Lemma pres_fill r g b a : pres (BaseContext.fill r g b a).
Proof.
  destruct set_colour_copyable as (Hf & _ & Hcf & _ & Hg & _).
  unfold BaseContext.fill. apply pres_bind.
  { apply pres_text. intros t Ht.
    exact (method_well_formed FormattedString.K_fill [r; g; b; a] t Ht I). }
  intros _. apply pres_bind; [apply pres_state, Hcf; reflexivity|]. intros _.
  destruct (Py.is_None r) eqn:Er; [apply pres_state, Hf; reflexivity|].
  apply (pres_bind_val (fun c => Color_held c = true)).
  - intros s c s'. apply colorClass_held. exact Er.
  - apply pres_colorClass.
  - intros c Hc. apply pres_bind; [apply pres_state, Hf; exact Hc|].
    intros _. apply pres_state, Hg.
Qed.

Lemma pres_stroke r g b a : pres (BaseContext.stroke r g b a).
Proof.
  destruct set_colour_copyable as (_ & Hs & _ & Hcs & _ & _).
  unfold BaseContext.stroke. apply pres_bind.
  { apply pres_text. intros t Ht.
    exact (method_well_formed FormattedString.K_stroke [r; g; b; a] t Ht I). }
  intros _. apply pres_bind; [apply pres_state, Hcs; reflexivity|]. intros _.
  destruct (Py.is_None r) eqn:Er; [apply pres_state, Hs; reflexivity|].
  apply (pres_bind_val (fun c => Color_held c = true)).
  - intros s c s'. apply colorClass_held. exact Er.
  - apply pres_colorClass.
  - intros c Hc. apply pres_state, Hs; exact Hc.
Qed.

Lemma CMYKColor_init_held c m y k a :
  Py.is_None c = false -> CMYKColor_held (CMYKColor.__init__ c m y k a) = true.
Proof. destruct c; try discriminate; reflexivity. Qed.

Lemma pres_cmykFill c m y k a : pres (BaseContext.cmykFill cmyk2rgb c m y k a).
Proof.
  destruct set_colour_copyable as (Hf & _ & Hcf & _ & Hg & _).
  unfold BaseContext.cmykFill. apply pres_bind.
  { apply pres_text. intros t Ht.
    exact (method_well_formed FormattedString.K_cmykFill [c; m; y; k; a] t Ht I). }
  intros _. destruct (Py.is_None c) eqn:Ec; [apply pres_fill|].
  apply pres_bind; [apply pres_state, Hcf, CMYKColor_init_held, Ec|]. intros _.
  pose proof (cmyk2rgb_red c m y k) as Hr.
  destruct (cmyk2rgb c m y k) as [[r g] b]. simpl in Hr.
  apply (pres_bind_val (fun c => Color_held c = true)).
  - intros s c0 s'. apply colorClass_held. exact Hr.
  - apply pres_colorClass.
  - intros c0 Hc. apply pres_bind; [apply pres_state, Hf; exact Hc|].
    intros _. apply pres_state, Hg.
Qed.

Lemma pres_cmykStroke c m y k a : pres (BaseContext.cmykStroke cmyk2rgb c m y k a).
Proof.
  destruct set_colour_copyable as (_ & Hs & _ & Hcs & _ & _).
  unfold BaseContext.cmykStroke. apply pres_bind.
  { apply pres_text. intros t Ht.
    exact (method_well_formed FormattedString.K_cmykStroke [c; m; y; k; a] t Ht I). }
  intros _. destruct (Py.is_None c) eqn:Ec; [apply pres_stroke|].
  apply pres_bind; [apply pres_state, Hcs, CMYKColor_init_held, Ec|]. intros _.
  pose proof (cmyk2rgb_red c m y k) as Hr.
  destruct (cmyk2rgb c m y k) as [[r g] b]. simpl in Hr.
  apply (pres_bind_val (fun c => Color_held c = true)).
  - intros s c0 s'. apply colorClass_held. exact Hr.
  - apply pres_colorClass.
  - intros c0 Hc. apply pres_state, Hs; exact Hc.
Qed.

(** Paths: a new object is one of the store, and a method of the current
    path leaves the number of objects as it is. *)
Lemma pres_new_path p :
  pres (l <- BaseContext.world (alloc p) ;;
             BaseContext.state (GraphicsState.set_path (PPath l))).
Proof.
  intros [w [? ? ? stack st]] (Hn & Hc & Hst). unfold all_copyable.
  unfold bind, BaseContext.world, zoom, alloc, BaseContext.state, BaseContext.self, modify.
  simpl in *. rewrite length_app. simpl. split; [lia|]. split.
  - apply copyable_parts in Hc. apply copyable_parts. destruct st; simpl in *.
    repeat (split; [tauto|]). split; [|tauto]. apply Nat.ltb_lt. lia.
  - eapply Forall_impl; [exact Hst|]. intros x Hx. simpl in Hx.
    eapply copyable_mono; [|exact Hx]. lia.
Qed.

Lemma pres_state_path name f : pres (BaseContext.state_path name f).
Proof.
  intros [w [? ? ? stack st]] (Hn & Hc & Hst). unfold all_copyable.
  unfold BaseContext.state_path, bind, BaseContext.self, zoom, gets. simpl in *.
  destruct (GraphicsState.path st); try done.
  unfold BaseContext.world, zoom, on_path, modify. simpl.
  rewrite length_alter. done.
Qed.

Lemma pres_given_path v :
  match v with PNone => true | PPath l => (l <? n0)%nat | _ => false end = true ->
  pres (BaseContext.drawPath v).
Proof.
  intros Hv. unfold BaseContext.drawPath. destruct v; try discriminate; [apply pres_ret|].
  cbn [Py.is_None]. apply Nat.ltb_lt in Hv.
  intros [w [? ? ? stack st]] (Hn & Hc & Hst). unfold all_copyable. simpl in *.
  split; [exact Hn|]. split; [|exact Hst].
  apply copyable_parts in Hc. apply copyable_parts. destruct st; simpl in *.
  repeat (split; [tauto|]). split; [|tauto]. apply Nat.ltb_lt. lia.
Qed.

Lemma pres_colorSpace v : pres (BaseContext.colorSpace v).
Proof.
  unfold BaseContext.colorSpace. cbv zeta.
  destruct (negb _); [apply pres_raise|].
  destruct (BaseContext._colorSpaceMap _) as [cs|]; [|apply pres_raise].
  intros [w [? ? ? stack st]] (Hn & Hc & Hst). unfold all_copyable. simpl in *.
  split; [exact Hn|]. split; [|exact Hst].
  destruct set_plain_copyable as (_&_&_&_&_&_&_&_&_&H). apply H. exact Hc.
Qed.

Lemma pres_save : pres BaseContext.save.
Proof.
  intros [w c] (Hn & Hc & Hst). unfold all_copyable. simpl in *.
  destruct (copy_returns _ _ Hc) as (x & w' & E & Hx & Hlen).
  unfold BaseContext.save, bind, BaseContext.self, BaseContext.world, zoom, gets, modify.
  simpl. rewrite E. destruct c; simpl in *.
  split; [lia|]. split.
  - eapply copyable_mono; [|exact Hc]. exact Hlen.
  - apply Forall_app. split.
    + eapply Forall_impl; [exact Hst|]. intros y Hy. simpl in Hy.
      eapply copyable_mono; [|exact Hy]. exact Hlen.
    + constructor; [exact Hx|constructor].
Qed.

Lemma pres_restore : pres BaseContext.restore.
Proof.
  intros [w c] (Hn & Hc & Hst). unfold all_copyable. simpl in *.
  destruct (BaseContext._stack c) as [|x l _] eqn:E using rev_ind.
  - unfold BaseContext.restore, bind, BaseContext.self, zoom, gets. simpl.
    rewrite E. simpl. destruct c; simpl in *. rewrite E. done.
  - rewrite (restore_spec w c l x E). simpl.
    apply Forall_app in Hst as [Hl Hx]. apply Forall_inv in Hx.
    destruct c; simpl in *. done.
Qed.

Lemma pres_def_values (P : pyval -> Prop) params body args kw :
  (forall v, In v (args ++ map snd kw) -> P v) ->
  (forall d, In (Some d) (map snd params) -> P d) ->
  (forall vs m, Forall P vs -> body vs = Some m -> pres m) ->
  pres (def params body args kw).
Proof.
  intros Hv Hd H. unfold def.
  destruct (Py.bind_params params args kw) as [vs|e] eqn:E; [|done].
  destruct (body vs) as [m|] eqn:Eb; [|done]. eapply H; [|exact Eb].
  eapply bind_params_values; [| | |exact E].
  - intros v Hin. apply Hv, in_or_app. auto.
  - intros v Hin. apply Hv, in_or_app. auto.
  - exact Hd.
Qed.

Lemma pres_def params body args kw :
  (forall vs m, body vs = Some m -> pres m) ->
  pres (def params body args kw).
Proof.
  intros H. apply (pres_def_values (fun _ => True)); auto.
  intros vs m _. apply H.
Qed.

Create HintDb pres.
#[local] Hint Resolve pres_ret pres_raise pres_lift pres_self_gets pres_self_get
  pres_world_gets pres_set_width pres_set_height pres_set_hasPage pres_colorClass
  pres_fill pres_stroke pres_cmykFill pres_cmykStroke pres_new_path pres_state_path
  pres_colorSpace pres_save pres_restore pres_state : pres.

Ltac pres_step :=
  first [solve [auto with pres] |
  lazymatch goal with
  | |- forall s, all_copyable _ s -> all_copyable _ (snd (bind _ _ s)) =>
      apply pres_bind; [|intros ?]
  | |- forall s, all_copyable _ s -> all_copyable _ (snd ((if ?b then _ else _) s)) =>
      destruct b; cbv beta iota
  | |- forall s, all_copyable _ s -> all_copyable _ (snd ((match ?x with _ => _ end) s)) =>
      destruct x; cbv beta iota
  end].

Ltac pres_all := repeat pres_step.

Ltac open_def :=
  let vs := fresh "vs" in let m := fresh "m" in let Hb := fresh "Hb" in
  apply pres_def; intros vs m Hb;
  first [ injection Hb as <-
        | do 7 (try (destruct vs as [|? vs]; try discriminate)); injection Hb as <- ].

Lemma pres_single_text (f : pyval -> M FormattedString.t unit) (k : FormattedString.key) v :
  (forall t, f v t = FormattedString.method k [v] t) ->
  match k with
  | FormattedString.K_fontSize | FormattedString.K_strokeWidth
  | FormattedString.K_lineHeight | FormattedString.K_tracking
  | FormattedString.K_baselineShift | FormattedString.K_url => Py.is_sequence v = false
  | _ => True
  end ->
  pres (BaseContext.text (f v)).
Proof.
  intros Hf Hv. apply pres_text. intros t Ht. rewrite Hf.
  apply method_well_formed; [exact Ht|].
  destruct k; try exact I; intros v0 E; injection E as <-; exact Hv.
Qed.

(** A simple call, as [save] and [restore], ends in a context whose states
    are copyable if it started in one. *)
Lemma simple_call_pres (c : Calls.call) :
  simple_call n0 c = true -> pres (Calls.apply cmyk2rgb c).
Proof.
  destruct c as [[a args] kw]. unfold Calls.apply, simple_call. cbn [fst snd]. intros Hc.
  destruct set_plain_copyable as (Hbm & Hop & Hsw & Hld & Hldo & Hlc & Hlj & Hml & Hhy & _).
  assert (Hvals : forall (P : pyval -> bool),
            forallb P (args ++ map snd kw) = true ->
            forall v, In v (args ++ map snd kw) -> P v = true).
  { intros P HP v Hin. rewrite forallb_forall in HP. apply HP, Hin. }
  destruct a; try discriminate; cbn [bound]; unfold def0, def1, def4.
  all: try solve [open_def;
    unfold BaseContext.size, BaseContext.newPage, BaseContext.newPath, BaseContext.moveTo,
      BaseContext.lineTo, BaseContext.curveTo, BaseContext.arc, BaseContext.arcTo,
      BaseContext.closePath, BaseContext.blendMode, BaseContext.opacity,
      BaseContext.miterLimit, BaseContext.lineJoin, BaseContext.lineCap,
      BaseContext.lineDash, BaseContext.transform, BaseContext.hyphenation;
    pres_all].
  - (* rect *) open_def. exact (pres_new_path _).
  - (* oval *) open_def. exact (pres_new_path _).
  - (* drawPath *)
    apply (pres_def_values
             (fun v => match v with
                       | PNone => true
                       | PPath l => (l <? n0)%nat
                       | _ => false
                       end = true)).
    + apply Hvals. exact Hc.
    + simpl. intros d [E|[]]. discriminate.
    + intros vs m Hvs Hb. destruct vs as [|v [|? ?]]; try discriminate.
      injection Hb as <-. apply pres_given_path. apply Forall_inv in Hvs. exact Hvs.
  - (* clipPath *)
    apply (pres_def_values
             (fun v => match v with
                       | PNone => true
                       | PPath l => (l <? n0)%nat
                       | _ => false
                       end = true)).
    + apply Hvals. exact Hc.
    + simpl. intros d [E|[]]. discriminate.
    + intros vs m Hvs Hb. destruct vs as [|v [|? ?]]; try discriminate.
      injection Hb as <-. apply (pres_given_path v). apply Forall_inv in Hvs. exact Hvs.
  - (* strokeWidth *)
    apply (pres_def_values (fun v => negb (Py.is_sequence v) = true)).
    + apply Hvals. exact Hc.
    + simpl. intros d [E|[]]. discriminate.
    + intros vs m Hvs Hb. destruct vs as [|v [|? ?]]; try discriminate.
      injection Hb as <-. apply Forall_inv in Hvs. apply negb_true_iff in Hvs.
      unfold BaseContext.strokeWidth. apply pres_bind; [|intros _; auto with pres].
      apply (pres_single_text _ FormattedString.K_strokeWidth); [reflexivity|exact Hvs].
  - (* fontSize *)
    apply (pres_def_values (fun v => negb (Py.is_sequence v) = true)).
    + apply Hvals. exact Hc.
    + simpl. intros d [E|[]]. discriminate.
    + intros vs m Hvs Hb. destruct vs as [|v [|? ?]]; try discriminate.
      injection Hb as <-. apply Forall_inv in Hvs. apply negb_true_iff in Hvs.
      apply (pres_single_text _ FormattedString.K_fontSize); [reflexivity|exact Hvs].
  - (* lineHeight *)
    apply (pres_def_values (fun v => negb (Py.is_sequence v) = true)).
    + apply Hvals. exact Hc.
    + simpl. intros d [E|[]]. discriminate.
    + intros vs m Hvs Hb. destruct vs as [|v [|? ?]]; try discriminate.
      injection Hb as <-. apply Forall_inv in Hvs. apply negb_true_iff in Hvs.
      apply (pres_single_text _ FormattedString.K_lineHeight); [reflexivity|exact Hvs].
  - (* tracking *)
    apply (pres_def_values (fun v => negb (Py.is_sequence v) = true)).
    + apply Hvals. exact Hc.
    + simpl. intros d [E|[]]. discriminate.
    + intros vs m Hvs Hb. destruct vs as [|v [|? ?]]; try discriminate.
      injection Hb as <-. apply Forall_inv in Hvs. apply negb_true_iff in Hvs.
      apply (pres_single_text _ FormattedString.K_tracking); [reflexivity|exact Hvs].
  - (* baselineShift *)
    apply (pres_def_values (fun v => negb (Py.is_sequence v) = true)).
    + apply Hvals. exact Hc.
    + simpl. intros d [E|[]]. discriminate.
    + intros vs m Hvs Hb. destruct vs as [|v [|? ?]]; try discriminate.
      injection Hb as <-. apply Forall_inv in Hvs. apply negb_true_iff in Hvs.
      apply (pres_single_text _ FormattedString.K_baselineShift); [reflexivity|exact Hvs].
  - (* underline *)
    open_def. apply (pres_single_text _ FormattedString.K_underline); [reflexivity|exact I].
  - (* strikethrough *)
    open_def. apply (pres_single_text _ FormattedString.K_strikethrough); [reflexivity|exact I].
  - (* url *)
    apply (pres_def_values (fun v => negb (Py.is_sequence v) = true)).
    + apply Hvals. exact Hc.
    + simpl. intros d [E|[]]. discriminate.
    + intros vs m Hvs Hb. destruct vs as [|v [|? ?]]; try discriminate.
      injection Hb as <-. apply Forall_inv in Hvs. apply negb_true_iff in Hvs.
      apply (pres_single_text _ FormattedString.K_url); [reflexivity|exact Hvs].
  - (* tabs *)
    destruct kw; [|apply pres_raise]. unfold BaseContext.tabs.
    apply pres_text. intros t Ht. apply method_well_formed; [exact Ht|exact I].
  - (* writingDirection *)
    open_def. apply (pres_single_text _ FormattedString.K_writingDirection); [reflexivity|exact I].
Qed.

Lemma save_returns (s : BaseContext.st) :
  all_copyable n0 s -> fst (BaseContext.save s) = Returned tt.
Proof.
  destruct s as [w c]. intros (Hn & Hc & Hst). simpl in *.
  destruct (copy_returns _ _ Hc) as (x & w' & E & _).
  unfold BaseContext.save, bind, BaseContext.self, BaseContext.world, zoom, gets, modify.
  simpl. rewrite E. reflexivity.
Qed.

Lemma simple_calls_pres (cs : list Calls.call) :
  forall s,
    forallb (simple_call n0) cs = true -> all_copyable n0 s ->
    Calls.saves_return cmyk2rgb cs s = true /\
    all_copyable n0 (Calls.run cmyk2rgb cs s).
Proof.
  induction cs as [|c cs IH]; intros s Hcs Hs; simpl in *; [done|].
  apply andb_true_iff in Hcs as [Hc Hcs].
  pose proof (simple_call_pres c Hc s Hs) as Hs1.
  destruct (IH _ Hcs Hs1) as [Hr Hfin]. split; [|exact Hfin].
  rewrite Hr, andb_true_r.
  destruct (Calls.is_save c) eqn:Esave; [|reflexivity].
  rewrite (is_save_apply cmyk2rgb c Esave), (save_returns s Hs). reflexivity.
Qed.

End SimpleCalls.

Lemma new_context_copyable (w : World) : all_copyable (length (paths w)) (new_context w).
Proof.
  unfold new_context, all_copyable. simpl. split; [lia|]. split; [|constructor].
  apply copyable_parts. simpl. repeat split; reflexivity.
Qed.

(** X22.  A context that is only asked for simple calls never fails to save
    its state: with no shadow and no gradient set, no path object from outside
    the store drawn, and no list or tuple given where a text setter takes a
    single value, every [save()] among the calls on a new context returns, and
    so does a [save()] after them, whatever the other calls were given and
    whether they returned or raised.  The red component [cmyk2rgb] computes is
    taken not to be [None]. *)
Theorem save_returns_after_simple_calls
    (cmyk2rgb : pyval -> pyval -> pyval -> pyval -> pyval * pyval * pyval)
    (w : World) (cs : list Calls.call) :
  (forall c m y k, Py.is_None (fst (fst (cmyk2rgb c m y k))) = false) ->
  forallb (simple_call (length (paths w))) cs = true ->
  Calls.saves_return cmyk2rgb cs (new_context w) = true /\
  fst (BaseContext.save (Calls.run cmyk2rgb cs (new_context w))) = Returned tt.
Proof.
  intros Hred Hcs.
  destruct (simple_calls_pres cmyk2rgb Hred (length (paths w)) cs (new_context w) Hcs
              (new_context_copyable w)) as [Hr Hfin].
  split; [exact Hr|]. eapply save_returns. exact Hfin.
Qed.

(** ** A colour without components *)

Lemma copy_opt_Color_error x keep e :
  GraphicsState.copy_opt Color.copy x keep = Raised e -> exists msg, e = AttributeError msg.
Proof.
  destruct x as [[[ns|]]|]; simpl; try discriminate.
  intros H. injection H as <-. eexists. reflexivity.
Qed.

Lemma copy_opt_CMYKColor_error x keep e :
  GraphicsState.copy_opt CMYKColor.copy x keep = Raised e ->
  exists msg, e = AttributeError msg.
Proof.
  destruct x as [[[ns|] ?]|]; simpl; try discriminate.
  intros H. injection H as <-. eexists. reflexivity.
Qed.

(** [GraphicsState.copy] of a state whose shadow has a colour without
    [NSColor] raises an [AttributeError] before anything is written. *)
Lemma copy_raises_on_shadow (s : GraphicsState.t) (w : World) (sh : Shadow.t) :
  GraphicsState.shadow s = Some sh ->
  Color._color (Shadow.color sh) = None ->
  exists msg, GraphicsState.copy s w = (Raised (AttributeError msg), w).
Proof.
  intros Hsh Hcol. unfold GraphicsState.copy.
  unfold bind at 1. unfold gets at 1.
  destruct (GraphicsState.copy_opt Color.copy (GraphicsState.fillColor s) None)
    as [fc|e] eqn:E1;
    [|destruct (copy_opt_Color_error _ _ _ E1) as [msg ->]; exists msg; reflexivity].
  unfold bind at 1. unfold lift at 1.
  destruct (GraphicsState.copy_opt Color.copy (GraphicsState.strokeColor s) _)
    as [sc|e] eqn:E2;
    [|destruct (copy_opt_Color_error _ _ _ E2) as [msg ->]; exists msg; reflexivity].
  unfold bind at 1. unfold lift at 1.
  destruct (GraphicsState.copy_opt CMYKColor.copy (GraphicsState.cmykFillColor s) _)
    as [cfc|e] eqn:E3;
    [|destruct (copy_opt_CMYKColor_error _ _ _ E3) as [msg ->]; exists msg; reflexivity].
  unfold bind at 1. unfold lift at 1.
  destruct (GraphicsState.copy_opt CMYKColor.copy (GraphicsState.cmykStrokeColor s) _)
    as [csc|e] eqn:E4;
    [|destruct (copy_opt_CMYKColor_error _ _ _ E4) as [msg ->]; exists msg; reflexivity].
  unfold bind at 1. unfold lift at 1.
  rewrite Hsh. unfold GraphicsState.copy_opt, Shadow.copy, Color.copy. rewrite Hcol.
  cbn [outcome_bind]. eexists. reflexivity.
Qed.

(** X23.  The colour of a shadow is not checked for having components: for an
    empty tuple or list, or one of at most four items that starts with [None],
    [shadow] returns and stores a shadow whose colour holds no [NSColor], and
    the next [save()] raises an [AttributeError] and leaves the context as it
    is, whatever the state was before. *)
Theorem empty_shadow_colour_breaks_save
    (s : BaseContext.st) (offset blur color : pyval) (l : list pyval) :
  Py.is_None offset = false ->
  color = PTuple l \/ color = PList l ->
  l = [] \/ (exists rest, l = PNone :: rest /\ (length rest <= 3)%nat) ->
  let r := BaseContext.shadow offset blur color s in
  fst r = Returned tt /\
  (exists sh, GraphicsState.shadow (current (snd r)) = Some sh /\
              Color._color (Shadow.color sh) = None) /\
  exists msg, BaseContext.save (snd r) = (Raised (AttributeError msg), snd r).
Proof.
  intros Ho Hc Hl. cbv zeta.
  assert (E : exists sh,
             BaseContext.shadow offset blur color s =
               (Returned tt,
                (fst s, BaseContext.set__state
                          (GraphicsState.set_shadow (Some sh) (BaseContext._state (snd s)))
                          (snd s))) /\
             Color._color (Shadow.color sh) = None).
  { destruct s as [w c]. unfold BaseContext.shadow. rewrite Ho.
    unfold BaseContext._shadowClass, bind, BaseContext.world, zoom, gets, lift,
      BaseContext.state, BaseContext.self, modify, Shadow.__init__. cbn [fst snd].
    assert (Eg : Color.getColor (Color_colorSpace w) color =
                 Returned {| Color._color := None |}).
    { destruct Hl as [->|(rest & -> & Hlen)].
      - destruct Hc as [->| ->]; reflexivity.
      - destruct rest as [|g [|b [|a [|? ?]]]]; simpl in Hlen; try lia;
          destruct Hc as [->| ->]; reflexivity. }
    rewrite Eg. cbn [outcome_bind]. eexists. split; [reflexivity|reflexivity]. }
  destruct E as (sh & -> & Hcol). cbn [fst snd].
  split; [reflexivity|]. split.
  { exists sh. split; [|exact Hcol]. destruct s as [w [? ? ? ? st]]. destruct st. reflexivity. }
  destruct s as [w c]. cbn [fst snd].
  destruct (copy_raises_on_shadow
              (GraphicsState.set_shadow (Some sh) (BaseContext._state c)) w sh)
    as [msg E]; [destruct c as [? ? ? ? st]; destruct st; reflexivity|exact Hcol|].
  exists msg. unfold BaseContext.save, bind, BaseContext.self, BaseContext.world, zoom, gets.
  cbn [fst snd]. destruct c as [? ? ? stack st]. cbn [BaseContext._state BaseContext.set__state].
  cbn [BaseContext._state BaseContext.set__state] in E. rewrite E. reflexivity.
Qed.

(** ** Text settings are checked when they are recorded *)

Lemma text_fst {A} (m : M FormattedString.t A) (s : BaseContext.st) :
  fst (BaseContext.text m s) = fst (m (GraphicsState.text (BaseContext._state (snd s)))).
Proof.
  destruct s as [w c]. unfold BaseContext.text, BaseContext.self, zoom. simpl.
  destruct (m (GraphicsState.text (BaseContext._state c))). reflexivity.
Qed.

(** Whether a setter of the text state returns depends on its arguments
    only. *)
Lemma method_fst (k : FormattedString.key) (args : list pyval) (t t' : FormattedString.t) :
  fst (FormattedString.method k args t) = fst (FormattedString.method k args t').
Proof.
  destruct k; unfold FormattedString.method.
  all: try solve [destruct (Py.bind_args _ args) as [vs|e]; [|reflexivity];
            destruct vs as [|? [|? [|? [|? [|? [|? ?]]]]]]; reflexivity].
  all: try solve [destruct args as [|v [|? ?]]; reflexivity].
  all: try solve [destruct args as [|v [|? ?]]; try reflexivity;
            unfold FormattedString.underline, FormattedString.strikethrough,
              FormattedString.writingDirection;
            destruct (Py.is_None v); [reflexivity|];
            destruct (negb (Py.hashable v)); [reflexivity|];
            match goal with |- context [negb ?b] => destruct b end; reflexivity].
  destruct args as [|tab rest]; [reflexivity|]. unfold FormattedString.tabs.
  destruct (Py.is_None tab); reflexivity.
Qed.

Lemma text_method_anywhere (k : FormattedString.key) (args : list pyval)
    (s cx : BaseContext.st) :
  fst (BaseContext.text (FormattedString.method k args) s) = Returned tt ->
  fst (BaseContext.text (FormattedString.method k args) cx) = Returned tt.
Proof.
  rewrite !text_fst. intros H. rewrite <- H. apply method_fst.
Qed.

Section Checked.

Import DrawBotDrawingTool Recorder.

Variable mainScreen_size : pyval * pyval.
Variable transformationAtCenter : pyval -> pyval -> pyval.
Variable cmyk2rgb : pyval -> pyval -> pyval -> pyval -> pyval * pyval * pyval.

#[local] Abbreviation exec := (Script.exec mainScreen_size transformationAtCenter).

(** A callback that tries a method of the text state on the dummy context
    before it records. *)
Lemma checked_then_recorded (k : FormattedString.key) (targs : list pyval)
    (cb : string) (args : list pyval) (w : World) (d : t) (cx : BaseContext.st) :
  fst ((dummy (BaseContext.text (FormattedString.method k targs)) ;;
        _addInstruction cb args []) (w, d)) = Returned tt ->
  last (instructions
          (snd (snd ((dummy (BaseContext.text (FormattedString.method k targs)) ;;
                      _addInstruction cb args []) (w, d))))) = Some (cb, args, []) /\
  fst (BaseContext.text (FormattedString.method k targs) cx) = Returned tt.
Proof.
  rewrite dummy_bind.
  destruct (BaseContext.text (FormattedString.method k targs) (w, _dummyContext d))
    as [[[]|e] [w' c']] eqn:E; [|discriminate].
  rewrite _addInstruction_spec. cbn [fst snd]. intros _. split; [apply added_last|].
  eapply text_method_anywhere. rewrite E. reflexivity.
Qed.

(** X24.  The text settings are checked when they are recorded: if one of
    the callbacks [fontSize], [lineHeight], [tracking], [baselineShift],
    [underline], [strikethrough], [url], [hyphenation], [tabs] and
    [writingDirection] returns, the instruction it has put at the end of the
    log names a method of the context, and that method returns for the
    recorded arguments on every context, whatever its state. *)
Theorem recorded_text_settings_replay
    (c : Script.call) (s : st) (cx : BaseContext.st) :
  is_page_call c = false -> is_drawing_call c = false ->
  fst (exec c s) = Returned tt ->
  exists args m,
    last (instructions (snd (snd (exec c s)))) = Some (callback c, args, []) /\
    BaseContext_getattr cmyk2rgb (callback c) = Some m /\
    fst (m args [] cx) = Returned tt.
Proof.
  destruct s as [w d]. intros Hp Hd.
  destruct c; try discriminate; cbn [Script.exec callback].
  all: let checked k cb attr :=
         (let He := fresh "He" in
          intros He;
          lazymatch type of He with
          | fst (_ ?v _) = _ =>
              exists [v], (bound cmyk2rgb attr);
              destruct (checked_then_recorded k [v] cb [v] w d cx He) as [? ?]; done
          end) in
       first [ checked FormattedString.K_fontSize "fontSize" m_fontSize
             | checked FormattedString.K_lineHeight "lineHeight" m_lineHeight
             | checked FormattedString.K_tracking "tracking" m_tracking
             | checked FormattedString.K_baselineShift "baselineShift" m_baselineShift
             | checked FormattedString.K_underline "underline" m_underline
             | checked FormattedString.K_strikethrough "strikethrough" m_strikethrough
             | checked FormattedString.K_url "url" m_url
             | checked FormattedString.K_writingDirection "writingDirection"
                 m_writingDirection
             | idtac ].
  - (* hyphenation *)
    unfold DrawBotDrawingTool.hyphenation. rewrite dummy_bind.
    destruct (BaseContext.hyphenation value (w, _dummyContext d))
      as [[[]|e] [w' c']] eqn:E; [|discriminate].
    rewrite _addInstruction_spec. cbn [fst snd]. intros _.
    exists [value], (bound cmyk2rgb m_hyphenation).
    split; [apply added_last|]. split; [reflexivity|].
    destruct cx as [wx [? ? ? ? ?]]. reflexivity.
  - (* tabs *)
    unfold DrawBotDrawingTool.tabs.
    match goal with
    | |- fst ((match ?l with [] => _ | _ :: _ => _ end) _) = _ -> _ =>
        destruct l as [|tab rest]
    end.
    + intros He. exists [], (bound cmyk2rgb m_tabs).
      destruct (checked_then_recorded FormattedString.K_tabs [] "tabs" [] w d cx He)
        as [H1 H2]. done.
    + destruct (Py.is_None tab) eqn:Et.
      * destruct tab; try discriminate. intros He.
        exists [PNone], (bound cmyk2rgb m_tabs).
        destruct (checked_then_recorded FormattedString.K_tabs [PNone] "tabs" [PNone]
                    w d cx He) as [H1 H2]. done.
      * intros He. exists (tab :: rest), (bound cmyk2rgb m_tabs).
        assert (He' : fst ((dummy (BaseContext.text
                                     (FormattedString.method FormattedString.K_tabs
                                        (tab :: rest))) ;;
                            _addInstruction "tabs" (tab :: rest) []) (w, d)) = Returned tt).
        { destruct tab; try discriminate; exact He. }
        destruct (checked_then_recorded FormattedString.K_tabs (tab :: rest) "tabs"
                    (tab :: rest) w d cx He') as [H1 H2].
        split; [|done]. destruct tab; try discriminate; exact H1.
Qed.

End Checked.

(** ** The further properties on concrete inputs *)

Section Instances.

Import DrawBotDrawingTool Recorder.

#[local] Abbreviation exec1 := (Script.exec sample_mainScreen_size sample_transformationAtCenter).
#[local] Abbreviation run1 := (Script.run sample_mainScreen_size sample_transformationAtCenter).

(** [restore()] as the first call of a session. *)
Lemma failed_call_records_nothing_witness :
  let s := Script.session World_init in
  fst (exec1 Script.Restore s) =
    Raised (DrawBotError "can't restore graphics state: no matching save()") /\
  _instructionsStack (snd (snd (exec1 Script.Restore s))) = [] /\
  pageCount (snd (snd (exec1 Script.Restore s))) = 0%nat.
Proof.
  cbv zeta.
  pose proof (failed_call_records_nothing sample_mainScreen_size
                sample_transformationAtCenter Script.Restore (Script.session World_init)
                _ eq_refl) as (H1 & H2 & _).
  split; [reflexivity|]. split; [exact H1|exact H2].
Defined.

(** [rect(0, 0, 10, 10)] as the first call of a session. *)
Lemma returning_call_is_appended_witness :
  let c := Script.Rect (PInt 0) (PInt 0) (PInt 10) (PInt 10) in
  let s := Script.session World_init in
  fst (exec1 c s) = Returned tt /\
  exists args l g,
    Some [PInt 0; PInt 0; PInt 10; PInt 10] = Some args /\
    ((_instructionsStack (snd s) = [] /\ l = [] /\ g = []) \/
     _instructionsStack (snd s) = l ++ [g]) /\
    _instructionsStack (snd (snd (exec1 c s))) =
      l ++ [("newPage", [PInt 1000; PInt 1000], []) :: g ++ [("rect", args, [])]] /\
    _hasPage (snd (snd (exec1 c s))) = true.
Proof.
  cbv zeta. split; [reflexivity|].
  exact (returning_call_is_appended sample_mainScreen_size sample_transformationAtCenter
           (Script.Rect (PInt 0) (PInt 0) (PInt 10) (PInt 10))
           (Script.session World_init) eq_refl).
Defined.

(** [fontSize(12)], then [size(200, 200)]. *)
Lemma size_only_before_anything_is_recorded_witness :
  let cs := [Script.FontSize (PInt 12)] in
  (0 < Script.returned sample_mainScreen_size sample_transformationAtCenter cs
         (Script.session World_init))%nat /\
  exists e,
    fst (size sample_mainScreen_size (PInt 200) (PInt 200)
           (run1 cs (Script.session World_init))) = Raised e /\
    _instructionsStack
      (snd (snd (size sample_mainScreen_size (PInt 200) (PInt 200)
                   (run1 cs (Script.session World_init))))) =
    _instructionsStack (snd (run1 cs (Script.session World_init))).
Proof.
  cbv zeta. split; [vm_compute; reflexivity|].
  apply (size_only_before_anything_is_recorded sample_mainScreen_size
           sample_transformationAtCenter World_init [Script.FontSize (PInt 12)]
           (PInt 200) (PInt 200)).
  vm_compute. reflexivity.
Defined.

(** [size(200)] and [size(200.0)] on a new tool. *)
Lemma size_with_one_number_witness :
  let d := snd (Script.session World_init) in
  _instructionsStack d = [] /\ _isSinglePage d = false /\
  height (snd (snd (size sample_mainScreen_size (PFloat 200) PNone (World_init, d)))) =
    PFloat 200 /\
  height (snd (snd (size sample_mainScreen_size (PInt 200) PNone (World_init, d)))) =
    PInt 1000.
Proof.
  cbv zeta.
  pose proof (size_with_one_number sample_mainScreen_size World_init
                (snd (Script.session World_init)) eq_refl eq_refl) as [Hq Hn].
  split; [reflexivity|]. split; [reflexivity|]. split.
  - exact (proj2 (proj2 (proj2 (Hq 200%Q)))).
  - exact (proj1 (proj2 (proj2 (proj2 (Hn 200%Z))))).
Defined.

(** [newPage("A4")] and [newPage("A4Landscape")] in a new session. *)
Lemma paper_size_names_witness :
  In ("A4", (595, 842)%Z) _paperSizes_portrait /\
  _isSinglePage (snd (Script.session World_init)) = false /\
  _paperSizes "A4" = Some (595, 842)%Z /\
  _paperSizes "A4Landscape" = Some (842, 595)%Z.
Proof.
  assert (Hin : In ("A4", (595, 842)%Z) _paperSizes_portrait)
    by (unfold _paperSizes_portrait; simpl; tauto).
  pose proof (paper_size_names sample_mainScreen_size "A4" 595 842 PNone
                (Script.session World_init) Hin eq_refl) as (H1 & H2 & _).
  split; [exact Hin|]. split; [reflexivity|]. split; [exact H1|exact H2].
Defined.

(** [save()], [newPage(200, 300)], [restore()] in a new session. *)
Lemma newPage_forgets_the_saved_states_witness :
  let s := snd (save (Script.session World_init)) in
  let s' := snd (newPage sample_mainScreen_size (PInt 200) (PInt 300) s) in
  fst (newPage sample_mainScreen_size (PInt 200) (PInt 300) s) = Returned tt /\
  BaseContext._stack (_dummyContext (snd s)) <> [] /\
  BaseContext._stack (_dummyContext (snd s')) = [] /\
  fst (restore s') =
    Raised (DrawBotError "can't restore graphics state: no matching save()").
Proof.
  cbv zeta.
  pose proof (newPage_forgets_the_saved_states sample_mainScreen_size
                sample_transformationAtCenter (PInt 200) (PInt 300)
                (snd (save (Script.session World_init))) eq_refl) as (H1 & H2 & _).
  split; [reflexivity|]. split; [discriminate|]. split; [exact H1|].
  rewrite H2. reflexivity.
Defined.

(** A path with a rectangle, [drawPath(path)], then [path.lineTo((5, 5))]. *)
Lemma drawPath_records_a_copy_witness :
  let p := BezierPath.rect (PInt 0) (PInt 0) (PInt 10) (PInt 10) BezierPath.__init__ in
  let w := set_paths [p] World_init in
  let d := snd (Script.session World_init) in
  let w' := fst (snd (drawPath (PPath 0) (w, d))) in
  paths w !! 0%nat = Some p /\
  paths (snd (on_path 0 (BezierPath.lineTo (PTuple [PInt 5; PInt 5])) w')) !! 0%nat =
    Some (BezierPath.lineTo (PTuple [PInt 5; PInt 5]) p) /\
  paths (snd (on_path 0 (BezierPath.lineTo (PTuple [PInt 5; PInt 5])) w')) !! 1%nat =
    Some p.
Proof.
  cbv zeta. split; [reflexivity|].
  pose proof (drawPath_records_a_copy
                (set_paths [BezierPath.rect (PInt 0) (PInt 0) (PInt 10) (PInt 10)
                              BezierPath.__init__] World_init)
                (snd (Script.session World_init)) 0
                (BezierPath.rect (PInt 0) (PInt 0) (PInt 10) (PInt 10) BezierPath.__init__)
                eq_refl) as [(_ & _ & _ & H) _].
  exact (H (BezierPath.lineTo (PTuple [PInt 5; PInt 5]))).
Defined.

End Instances.


(** [save()], then [fill(0, 0, 1)], [strokeWidth(5)] and [lineTo((1, 2))],
    which raises. *)
Lemma saved_states_are_out_of_reach_witness :
  let s := snd (BaseContext.save (new_context World_init)) in
  let cs := [(m_fill, [PInt 0; PInt 0; PInt 1], []);
             (m_strokeWidth, [PInt 5], []);
             (m_lineTo, [PTuple [PInt 1; PInt 2]], [])] in
  forallb (fun c => negb (Calls.is_save c) && negb (Calls.is_restore c)) cs = true /\
  length (BaseContext._stack (snd s)) = 1%nat /\
  BaseContext._stack (snd (Calls.run sample_cmyk2rgb cs s)) = BaseContext._stack (snd s).
Proof.
  cbv zeta. split; [reflexivity|]. split; [reflexivity|].
  apply (saved_states_are_out_of_reach sample_cmyk2rgb
           (snd (BaseContext.save (new_context World_init)))
           [(m_fill, [PInt 0; PInt 0; PInt 1], []);
            (m_strokeWidth, [PInt 5], []);
            (m_lineTo, [PTuple [PInt 1; PInt 2]], [])]).
  reflexivity.
Defined.

(** [newPath()], [moveTo((0, 0))], [save()], [lineTo((5, 5))], [closePath()],
    [restore()]. *)
Lemma path_edits_are_undone_by_restore_witness :
  let s := snd ((BaseContext.newPath ;; BaseContext.moveTo (PTuple [PInt 0; PInt 0]))
                  (new_context World_init)) in
  let p := BezierPath.moveTo (PTuple [PInt 0; PInt 0]) BezierPath.__init__ in
  let segs := [seg_lineTo (PTuple [PInt 5; PInt 5]); seg_closePath] in
  let r1 := forM_ segs segment_call (snd (BaseContext.save s)) in
  let r2 := BaseContext.restore (snd r1) in
  GraphicsState.path (current s) = PPath 0 /\
  paths (fst s) !! 0%nat = Some p /\
  fst (BaseContext.save s) = Returned tt /\
  BezierPath._path <$> paths (fst (snd r1)) !! 0%nat =
    Some [BezierPath.moveToPoint_ (PTuple [PInt 0; PInt 0]);
          BezierPath.lineToPoint_ (PTuple [PInt 5; PInt 5]);
          BezierPath.closePath_] /\
  GraphicsState.path (current (snd r2)) = PPath 1 /\
  paths (fst (snd r2)) !! 1%nat = Some p.
Proof.
  cbv zeta.
  pose proof (path_edits_are_undone_by_restore
    (snd ((BaseContext.newPath ;; BaseContext.moveTo (PTuple [PInt 0; PInt 0]))
            (new_context World_init)))
    0 (BezierPath.moveTo (PTuple [PInt 0; PInt 0]) BezierPath.__init__)
    [seg_lineTo (PTuple [PInt 5; PInt 5]); seg_closePath]
    eq_refl eq_refl eq_refl) as (_ & _ & H3 & _ & H5 & H6).
  split; [reflexivity|]. split; [reflexivity|]. split; [reflexivity|].
  split; [exact H3|]. split; [exact H5|exact H6].
Defined.

(** A new context, which has no path. *)
Lemma path_calls_need_a_path_witness :
  let s := new_context World_init in
  GraphicsState.path (current s) = PNone /\
  (forall pt, BaseContext.moveTo pt s =
              (Raised (DrawBotError "Create a new path first"), s)) /\
  (forall g, (forall pt, g <> seg_moveTo pt) ->
             exists name, segment_call g s = (Raised (AttributeError name), s)) /\
  (forall g segs, exists e, forM_ (g :: segs) segment_call s = (Raised e, s)) /\
  (fst (BaseContext.save s) = Returned tt ->
   let r := (BaseContext.save ;; BaseContext.newPath ;; BaseContext.restore) s in
   fst r = Returned tt /\
   GraphicsState.path (current (snd r)) = PNone /\
   BaseContext._stack (snd (snd r)) = BaseContext._stack (snd s) /\
   forall g segs, exists e,
     forM_ (g :: segs) segment_call (snd r) = (Raised e, snd r)).
Proof.
  cbv zeta. split; [reflexivity|].
  exact (path_calls_need_a_path (new_context World_init) eq_refl).
Defined.

(** A linear gradient from red to blue. *)
Lemma accepted_gradients_witness :
  exists g,
    Gradient.__init__ genericRGBColorSpace "linear"
      (PTuple [PInt 0; PInt 0]) (PTuple [PInt 100; PInt 100])
      (PList [PTuple [PInt 1; PInt 0; PInt 0]; PTuple [PInt 0; PInt 0; PInt 1]])
      PNone PNone PNone = Returned g /\
    length (Gradient.colors g) = 2%nat /\
    length (Gradient.positions g) = length (Gradient.colors g).
Proof.
  eexists. split; [vm_compute; reflexivity|].
  match goal with
  | |- length (Gradient.colors ?g) = _ /\ _ =>
      pose proof (accepted_gradients genericRGBColorSpace "linear"
        (PTuple [PInt 0; PInt 0]) (PTuple [PInt 100; PInt 100])
        (PList [PTuple [PInt 1; PInt 0; PInt 0]; PTuple [PInt 0; PInt 0; PInt 1]])
        PNone PNone PNone g eq_refl) as (_ & _ & _ & _ & H5 & _)
  end.
  split; [reflexivity|exact H5].
Defined.

(** [fill(1, 0, 0)], [save()], [newPath()], [moveTo((0, 0))],
    [cmykFill(0, 1, 1, 0)], [save()], [fontSize(12)], [underline("wavy")],
    which raises, [restore()] and [lineJoin(None)], which raises. *)
Lemma save_returns_after_simple_calls_witness :
  let cs := [(m_fill, [PInt 1; PInt 0; PInt 0], []);
             (m_save, [], []);
             (m_newPath, [], []);
             (m_moveTo, [PTuple [PInt 0; PInt 0]], []);
             (m_cmykFill, [PInt 0; PInt 1; PInt 1; PInt 0], []);
             (m_save, [], []);
             (m_fontSize, [PInt 12], []);
             (m_underline, [PStr "wavy"], []);
             (m_restore, [], []);
             (m_lineJoin, [PNone], [])] in
  forallb (simple_call 0) cs = true /\
  Calls.saves_return sample_cmyk2rgb cs (new_context World_init) = true /\
  fst (BaseContext.save (Calls.run sample_cmyk2rgb cs (new_context World_init))) =
    Returned tt.
Proof.
  cbv zeta. split; [reflexivity|].
  apply (save_returns_after_simple_calls sample_cmyk2rgb World_init
           [(m_fill, [PInt 1; PInt 0; PInt 0], []);
            (m_save, [], []);
            (m_newPath, [], []);
            (m_moveTo, [PTuple [PInt 0; PInt 0]], []);
            (m_cmykFill, [PInt 0; PInt 1; PInt 1; PInt 0], []);
            (m_save, [], []);
            (m_fontSize, [PInt 12], []);
            (m_underline, [PStr "wavy"], []);
            (m_restore, [], []);
            (m_lineJoin, [PNone], [])]).
  - intros c m y k. unfold sample_cmyk2rgb, sample_channel. cbn [fst].
    destruct (Py.number c), (Py.number k); reflexivity.
  - reflexivity.
Defined.

(** [shadow((3, 3), 10, ())] on a new context, then [save()]. *)
Lemma empty_shadow_colour_breaks_save_witness :
  let r := BaseContext.shadow (PTuple [PInt 3; PInt 3]) (PInt 10) (PTuple [])
             (new_context World_init) in
  fst r = Returned tt /\
  (exists sh, GraphicsState.shadow (current (snd r)) = Some sh /\
              Color._color (Shadow.color sh) = None) /\
  exists msg, BaseContext.save (snd r) = (Raised (AttributeError msg), snd r).
Proof.
  exact (empty_shadow_colour_breaks_save (new_context World_init)
           (PTuple [PInt 3; PInt 3]) (PInt 10) (PTuple []) []
           eq_refl (or_introl eq_refl) (or_introl eq_refl)).
Defined.

(** [underline("single")] in a new session, replayed on a new context. *)
Lemma recorded_text_settings_replay_witness :
  let c := Script.Underline (PStr "single") in
  let r := Script.exec sample_mainScreen_size sample_transformationAtCenter c
             (Script.session World_init) in
  exists args m,
    last (Recorder.instructions (snd (snd r))) = Some ("underline", args, []) /\
    BaseContext_getattr sample_cmyk2rgb "underline" = Some m /\
    fst (m args [] (new_context World_init)) = Returned tt.
Proof.
  exact (recorded_text_settings_replay
           sample_mainScreen_size sample_transformationAtCenter sample_cmyk2rgb
           (Script.Underline (PStr "single")) (Script.session World_init)
           (new_context World_init) eq_refl eq_refl eq_refl).
Defined.
